(** * astana_fund/models.py: the content model of the fund's site

    A shallow embedding of the Django models of [astana_fund/models.py]
    (events, media publications, projects and the "interesting" materials)
    together with the parts of the framework their methods call:
    [django.utils.text.slugify], [Model.save] with the [unique=True]
    columns, [choices] validation and [FileExtensionValidator].

    Conventions.
    - A Python [str] is held as its UTF-8 encoding in a Rocq [string];
      code points are recovered by [text.code_points] where an operation
      works per character.
    - A method that can raise returns [exn + A]: [inl e] is the raised
      exception, [inr v] the returned value.
    - A method that mutates [self] returns the new [self] next to its
      outcome, so an attribute assigned before a failing call stays
      assigned, as in Python. *)

From Stdlib Require Import ZArith NArith List Ascii String DecimalString Lia.
From Stdlib Require Import DecimalPos DecimalN.
From stdpp Require Import base option list gmap strings fin_maps.

Local Open Scope N_scope.

(** ** Exceptions and outcomes *)

Inductive exn : Type :=
  | AttributeError
  | KeyError
  | IntegrityError
  | ValidationError.

Definition raise {A : Type} (e : exn) : exn + A := inl e.
Definition ret {A : Type} (v : A) : exn + A := inr v.

(** Python truthiness of a [str]: only the empty string is falsy. *)
Definition truthy (s : string) : bool :=
  match s with
  | EmptyString => false
  | String _ _ => true
  end.

(** [f"{n}"] for a non-negative [int]. *)
Definition str_of_int (n : N) : string := NilZero.string_of_uint (N.to_uint n).

(** ** datetime.date *)

Record date : Type := Date { year : N; month : N; day : N }.

Definition is_leap (y : N) : bool :=
  ((y mod 4 =? 0) && negb (y mod 100 =? 0)) || (y mod 400 =? 0).

Definition days_in_month (y m : N) : N :=
  if m =? 2 then (if is_leap y then 29 else 28)
  else if (m =? 4) || (m =? 6) || (m =? 9) || (m =? 11) then 30
  else 31.

(** The range check of the [date] constructor: every [date] object the
    program can hold satisfies it. *)
Definition date_ok (d : date) : Prop :=
  1 <= year d <= 9999 /\ 1 <= month d <= 12 /\ 1 <= day d <= days_in_month (year d) (month d).

(** [dict(pairs)]: later pairs overwrite earlier ones. *)
Definition dict {K V : Type} `{Countable K} (pairs : list (K * V)) : gmap K V :=
  fold_left (fun m kv => <[fst kv := snd kv]> m) pairs ∅.

(** [d.get(k, default)] *)
Definition dict_get {K V : Type} `{Countable K} (d : gmap K V) (k : K) (default : V) : V :=
  match d !! k with
  | Some v => v
  | None => default
  end.

(** [d[k]] *)
Definition dict_item {K V : Type} `{Countable K} (d : gmap K V) (k : K) : exn + V :=
  match d !! k with
  | Some v => ret v
  | None => raise KeyError
  end.

(** ** django.utils.text *)

Module text.

(** *** Code points of a [str] *)

Definition bytes (s : string) : list N := map N_of_ascii (list_ascii_of_string s).

Definition of_bytes (bs : list N) : string := string_of_list_ascii (map ascii_of_N bs).

(** UTF-8 decoding. A [str] is always well formed; on bytes that are not
    (a stray continuation byte, a truncated sequence) the decoder skips. *)
Fixpoint decode (bs : list N) : list N :=
  match bs with
  | [] => []
  | b :: r =>
      if b <? 0x80 then b :: decode r
      else if b <? 0xC0 then decode r
      else if b <? 0xE0 then
        match r with
        | b1 :: r1 => ((b mod 0x20) * 0x40 + b1 mod 0x40) :: decode r1
        | _ => []
        end
      else if b <? 0xF0 then
        match r with
        | b1 :: b2 :: r2 =>
            ((b mod 0x10) * 0x1000 + (b1 mod 0x40) * 0x40 + b2 mod 0x40) :: decode r2
        | _ => []
        end
      else
        match r with
        | b1 :: b2 :: b3 :: r3 =>
            ((b mod 0x08) * 0x40000 + (b1 mod 0x40) * 0x1000
             + (b2 mod 0x40) * 0x40 + b3 mod 0x40) :: decode r3
        | _ => []
        end
  end.

Definition code_points (s : string) : list N := decode (bytes s).

(** *** Character classes of [re] on ASCII text *)

Definition is_ascii (c : N) : bool := c <? 128.

Definition is_upper (c : N) : bool := (65 <=? c) && (c <=? 90).
Definition is_lower (c : N) : bool := (97 <=? c) && (c <=? 122).
Definition is_digit (c : N) : bool := (48 <=? c) && (c <=? 57).

Definition hyphen : N := 45.
Definition underscore : N := 95.

(** [\w] *)
Definition is_word (c : N) : bool :=
  is_lower c || is_upper c || is_digit c || (c =? underscore).

(** [\s]: tab, LF, VT, FF, CR, the separators FS GS RS US, and space. *)
Definition is_space (c : N) : bool :=
  ((9 <=? c) && (c <=? 13)) || ((28 <=? c) && (c <=? 31)) || (c =? 32).

(** [str.lower] on ASCII text. *)
Definition lower_char (c : N) : N := if is_upper c then c + 32 else c.

(** [re.sub(r"[^\w\s-]", "", value)] *)
Definition drop_other (cs : list N) : list N :=
  List.filter (fun c => is_word c || is_space c || (c =? hyphen)) cs.

Definition is_sep (c : N) : bool := (c =? hyphen) || is_space c.

(** [re.sub(r"[-\s]+", "-", value)]: every maximal run of hyphens and
    white space becomes one hyphen. [in_run] tells that the previous
    character belonged to a run. *)
Fixpoint squeeze (in_run : bool) (cs : list N) : list N :=
  match cs with
  | [] => []
  | c :: r =>
      if is_sep c then (if in_run then squeeze true r else hyphen :: squeeze true r)
      else c :: squeeze false r
  end.

Definition in_chars (chars : list N) (c : N) : bool := existsb (N.eqb c) chars.

(** [value.lstrip(chars)], [value.rstrip(chars)], [value.strip(chars)] *)
Fixpoint lstrip (chars : list N) (cs : list N) : list N :=
  match cs with
  | [] => []
  | c :: r => if in_chars chars c then lstrip chars r else cs
  end.

Definition rstrip (chars : list N) (cs : list N) : list N :=
  rev (lstrip chars (rev cs)).

Definition strip (chars : list N) (cs : list N) : list N :=
  rstrip chars (lstrip chars cs).

Section Slugify.

(** The compatibility decomposition of a code point outside ASCII, the
    table behind [unicodedata.normalize("NFKD", _)]. *)
Variable decomposition : N -> list N.

(** [unicodedata.normalize("NFKD", value)]. ASCII characters are their
    own decomposition. The canonical reordering of combining marks that
    follows decomposition only permutes marks, none of which is ASCII, so
    it does not change what [encode("ascii", "ignore")] keeps and is
    left out. *)
Definition normalize_NFKD (cs : list N) : list N :=
  flat_map (fun c => if is_ascii c then [c] else decomposition c) cs.

(** [value.encode("ascii", "ignore").decode("ascii")] *)
Definition encode_ascii_ignore (cs : list N) : list N := List.filter is_ascii cs.

(** [slugify(value, allow_unicode=False)] of Django 3.2 and later, on code
    points. *)
Definition slugify_chars (cs : list N) : list N :=
  let value := encode_ascii_ignore (normalize_NFKD cs) in
  let value := drop_other (map lower_char value) in
  strip [hyphen; underscore] (squeeze false value).

Definition slugify_with (value : string) : string :=
  of_bytes (slugify_chars (code_points value)).

End Slugify.

(** The decomposition table, from the Unicode Character Database 14.0 (the
    one of Python 3.11): every code point whose compatibility decomposition
    holds an ASCII character, and besides those every code point of the
    Latin-1 Supplement (U+0080..U+00FF) and of the Cyrillic blocks
    (U+0400..U+052F) that has a decomposition. A code point without an entry
    stands for itself here; its decomposition, if it has one, holds no ASCII
    character, so [encode("ascii", "ignore")] keeps nothing of it either
    way. *)
Definition unicodedata_decomposition (c : N) : list N :=
  match c with
  | 160 => [32] | 168 => [32; 776] | 170 => [97] | 175 => [32; 772] | 178 => [50] | 179 => [51]
  | 180 => [32; 769] | 181 => [956] | 184 => [32; 807] | 185 => [49] | 186 => [111]
  | 188 => [49; 8260; 52] | 189 => [49; 8260; 50] | 190 => [51; 8260; 52] | 192 => [65; 768]
  | 193 => [65; 769] | 194 => [65; 770] | 195 => [65; 771] | 196 => [65; 776] | 197 => [65; 778]
  | 199 => [67; 807] | 200 => [69; 768] | 201 => [69; 769] | 202 => [69; 770] | 203 => [69; 776]
  | 204 => [73; 768] | 205 => [73; 769] | 206 => [73; 770] | 207 => [73; 776] | 209 => [78; 771]
  | 210 => [79; 768] | 211 => [79; 769] | 212 => [79; 770] | 213 => [79; 771] | 214 => [79; 776]
  | 217 => [85; 768] | 218 => [85; 769] | 219 => [85; 770] | 220 => [85; 776] | 221 => [89; 769]
  | 224 => [97; 768] | 225 => [97; 769] | 226 => [97; 770] | 227 => [97; 771] | 228 => [97; 776]
  | 229 => [97; 778] | 231 => [99; 807] | 232 => [101; 768] | 233 => [101; 769] | 234 => [101; 770]
  | 235 => [101; 776] | 236 => [105; 768] | 237 => [105; 769] | 238 => [105; 770]
  | 239 => [105; 776] | 241 => [110; 771] | 242 => [111; 768] | 243 => [111; 769]
  | 244 => [111; 770] | 245 => [111; 771] | 246 => [111; 776] | 249 => [117; 768]
  | 250 => [117; 769] | 251 => [117; 770] | 252 => [117; 776] | 253 => [121; 769]
  | 255 => [121; 776] | 256 => [65; 772] | 257 => [97; 772] | 258 => [65; 774] | 259 => [97; 774]
  | 260 => [65; 808] | 261 => [97; 808] | 262 => [67; 769] | 263 => [99; 769] | 264 => [67; 770]
  | 265 => [99; 770] | 266 => [67; 775] | 267 => [99; 775] | 268 => [67; 780] | 269 => [99; 780]
  | 270 => [68; 780] | 271 => [100; 780] | 274 => [69; 772] | 275 => [101; 772] | 276 => [69; 774]
  | 277 => [101; 774] | 278 => [69; 775] | 279 => [101; 775] | 280 => [69; 808] | 281 => [101; 808]
  | 282 => [69; 780] | 283 => [101; 780] | 284 => [71; 770] | 285 => [103; 770] | 286 => [71; 774]
  | 287 => [103; 774] | 288 => [71; 775] | 289 => [103; 775] | 290 => [71; 807] | 291 => [103; 807]
  | 292 => [72; 770] | 293 => [104; 770] | 296 => [73; 771] | 297 => [105; 771] | 298 => [73; 772]
  | 299 => [105; 772] | 300 => [73; 774] | 301 => [105; 774] | 302 => [73; 808] | 303 => [105; 808]
  | 304 => [73; 775] | 306 => [73; 74] | 307 => [105; 106] | 308 => [74; 770] | 309 => [106; 770]
  | 310 => [75; 807] | 311 => [107; 807] | 313 => [76; 769] | 314 => [108; 769] | 315 => [76; 807]
  | 316 => [108; 807] | 317 => [76; 780] | 318 => [108; 780] | 319 => [76; 183] | 320 => [108; 183]
  | 323 => [78; 769] | 324 => [110; 769] | 325 => [78; 807] | 326 => [110; 807] | 327 => [78; 780]
  | 328 => [110; 780] | 329 => [700; 110] | 332 => [79; 772] | 333 => [111; 772] | 334 => [79; 774]
  | 335 => [111; 774] | 336 => [79; 779] | 337 => [111; 779] | 340 => [82; 769] | 341 => [114; 769]
  | 342 => [82; 807] | 343 => [114; 807] | 344 => [82; 780] | 345 => [114; 780] | 346 => [83; 769]
  | 347 => [115; 769] | 348 => [83; 770] | 349 => [115; 770] | 350 => [83; 807] | 351 => [115; 807]
  | 352 => [83; 780] | 353 => [115; 780] | 354 => [84; 807] | 355 => [116; 807] | 356 => [84; 780]
  | 357 => [116; 780] | 360 => [85; 771] | 361 => [117; 771] | 362 => [85; 772] | 363 => [117; 772]
  | 364 => [85; 774] | 365 => [117; 774] | 366 => [85; 778] | 367 => [117; 778] | 368 => [85; 779]
  | 369 => [117; 779] | 370 => [85; 808] | 371 => [117; 808] | 372 => [87; 770] | 373 => [119; 770]
  | 374 => [89; 770] | 375 => [121; 770] | 376 => [89; 776] | 377 => [90; 769] | 378 => [122; 769]
  | 379 => [90; 775] | 380 => [122; 775] | 381 => [90; 780] | 382 => [122; 780] | 383 => [115]
  | 416 => [79; 795] | 417 => [111; 795] | 431 => [85; 795] | 432 => [117; 795]
  | 452 => [68; 90; 780] | 453 => [68; 122; 780] | 454 => [100; 122; 780] | 455 => [76; 74]
  | 456 => [76; 106] | 457 => [108; 106] | 458 => [78; 74] | 459 => [78; 106] | 460 => [110; 106]
  | 461 => [65; 780] | 462 => [97; 780] | 463 => [73; 780] | 464 => [105; 780] | 465 => [79; 780]
  | 466 => [111; 780] | 467 => [85; 780] | 468 => [117; 780] | 469 => [85; 776; 772]
  | 470 => [117; 776; 772] | 471 => [85; 776; 769] | 472 => [117; 776; 769] | 473 => [85; 776; 780]
  | 474 => [117; 776; 780] | 475 => [85; 776; 768] | 476 => [117; 776; 768] | 478 => [65; 776; 772]
  | 479 => [97; 776; 772] | 480 => [65; 775; 772] | 481 => [97; 775; 772] | 486 => [71; 780]
  | 487 => [103; 780] | 488 => [75; 780] | 489 => [107; 780] | 490 => [79; 808] | 491 => [111; 808]
  | 492 => [79; 808; 772] | 493 => [111; 808; 772] | 496 => [106; 780] | 497 => [68; 90]
  | 498 => [68; 122] | 499 => [100; 122] | 500 => [71; 769] | 501 => [103; 769] | 504 => [78; 768]
  | 505 => [110; 768] | 506 => [65; 778; 769] | 507 => [97; 778; 769] | 512 => [65; 783]
  | 513 => [97; 783] | 514 => [65; 785] | 515 => [97; 785] | 516 => [69; 783] | 517 => [101; 783]
  | 518 => [69; 785] | 519 => [101; 785] | 520 => [73; 783] | 521 => [105; 783] | 522 => [73; 785]
  | 523 => [105; 785] | 524 => [79; 783] | 525 => [111; 783] | 526 => [79; 785] | 527 => [111; 785]
  | 528 => [82; 783] | 529 => [114; 783] | 530 => [82; 785] | 531 => [114; 785] | 532 => [85; 783]
  | 533 => [117; 783] | 534 => [85; 785] | 535 => [117; 785] | 536 => [83; 806] | 537 => [115; 806]
  | 538 => [84; 806] | 539 => [116; 806] | 542 => [72; 780] | 543 => [104; 780] | 550 => [65; 775]
  | 551 => [97; 775] | 552 => [69; 807] | 553 => [101; 807] | 554 => [79; 776; 772]
  | 555 => [111; 776; 772] | 556 => [79; 771; 772] | 557 => [111; 771; 772] | 558 => [79; 775]
  | 559 => [111; 775] | 560 => [79; 775; 772] | 561 => [111; 775; 772] | 562 => [89; 772]
  | 563 => [121; 772] | 688 => [104] | 690 => [106] | 691 => [114] | 695 => [119] | 696 => [121]
  | 728 => [32; 774] | 729 => [32; 775] | 730 => [32; 778] | 731 => [32; 808] | 732 => [32; 771]
  | 733 => [32; 779] | 737 => [108] | 738 => [115] | 739 => [120] | 890 => [32; 837] | 894 => [59]
  | 900 => [32; 769] | 901 => [32; 776; 769] | 1024 => [1045; 768] | 1025 => [1045; 776]
  | 1027 => [1043; 769] | 1031 => [1030; 776] | 1036 => [1050; 769] | 1037 => [1048; 768]
  | 1038 => [1059; 774] | 1049 => [1048; 774] | 1081 => [1080; 774] | 1104 => [1077; 768]
  | 1105 => [1077; 776] | 1107 => [1075; 769] | 1111 => [1110; 776] | 1116 => [1082; 769]
  | 1117 => [1080; 768] | 1118 => [1091; 774] | 1142 => [1140; 783] | 1143 => [1141; 783]
  | 1217 => [1046; 774] | 1218 => [1078; 774] | 1232 => [1040; 774] | 1233 => [1072; 774]
  | 1234 => [1040; 776] | 1235 => [1072; 776] | 1238 => [1045; 774] | 1239 => [1077; 774]
  | 1242 => [1240; 776] | 1243 => [1241; 776] | 1244 => [1046; 776] | 1245 => [1078; 776]
  | 1246 => [1047; 776] | 1247 => [1079; 776] | 1250 => [1048; 772] | 1251 => [1080; 772]
  | 1252 => [1048; 776] | 1253 => [1080; 776] | 1254 => [1054; 776] | 1255 => [1086; 776]
  | 1258 => [1256; 776] | 1259 => [1257; 776] | 1260 => [1069; 776] | 1261 => [1101; 776]
  | 1262 => [1059; 772] | 1263 => [1091; 772] | 1264 => [1059; 776] | 1265 => [1091; 776]
  | 1266 => [1059; 779] | 1267 => [1091; 779] | 1268 => [1063; 776] | 1269 => [1095; 776]
  | 1272 => [1067; 776] | 1273 => [1099; 776] | 7468 => [65] | 7470 => [66] | 7472 => [68]
  | 7473 => [69] | 7475 => [71] | 7476 => [72] | 7477 => [73] | 7478 => [74] | 7479 => [75]
  | 7480 => [76] | 7481 => [77] | 7482 => [78] | 7484 => [79] | 7486 => [80] | 7487 => [82]
  | 7488 => [84] | 7489 => [85] | 7490 => [87] | 7491 => [97] | 7495 => [98] | 7496 => [100]
  | 7497 => [101] | 7501 => [103] | 7503 => [107] | 7504 => [109] | 7506 => [111] | 7510 => [112]
  | 7511 => [116] | 7512 => [117] | 7515 => [118] | 7522 => [105] | 7523 => [114] | 7524 => [117]
  | 7525 => [118] | 7580 => [99] | 7584 => [102] | 7611 => [122] | 7680 => [65; 805]
  | 7681 => [97; 805] | 7682 => [66; 775] | 7683 => [98; 775] | 7684 => [66; 803]
  | 7685 => [98; 803] | 7686 => [66; 817] | 7687 => [98; 817] | 7688 => [67; 807; 769]
  | 7689 => [99; 807; 769] | 7690 => [68; 775] | 7691 => [100; 775] | 7692 => [68; 803]
  | 7693 => [100; 803] | 7694 => [68; 817] | 7695 => [100; 817] | 7696 => [68; 807]
  | 7697 => [100; 807] | 7698 => [68; 813] | 7699 => [100; 813] | 7700 => [69; 772; 768]
  | 7701 => [101; 772; 768] | 7702 => [69; 772; 769] | 7703 => [101; 772; 769] | 7704 => [69; 813]
  | 7705 => [101; 813] | 7706 => [69; 816] | 7707 => [101; 816] | 7708 => [69; 807; 774]
  | 7709 => [101; 807; 774] | 7710 => [70; 775] | 7711 => [102; 775] | 7712 => [71; 772]
  | 7713 => [103; 772] | 7714 => [72; 775] | 7715 => [104; 775] | 7716 => [72; 803]
  | 7717 => [104; 803] | 7718 => [72; 776] | 7719 => [104; 776] | 7720 => [72; 807]
  | 7721 => [104; 807] | 7722 => [72; 814] | 7723 => [104; 814] | 7724 => [73; 816]
  | 7725 => [105; 816] | 7726 => [73; 776; 769] | 7727 => [105; 776; 769] | 7728 => [75; 769]
  | 7729 => [107; 769] | 7730 => [75; 803] | 7731 => [107; 803] | 7732 => [75; 817]
  | 7733 => [107; 817] | 7734 => [76; 803] | 7735 => [108; 803] | 7736 => [76; 803; 772]
  | 7737 => [108; 803; 772] | 7738 => [76; 817] | 7739 => [108; 817] | 7740 => [76; 813]
  | 7741 => [108; 813] | 7742 => [77; 769] | 7743 => [109; 769] | 7744 => [77; 775]
  | 7745 => [109; 775] | 7746 => [77; 803] | 7747 => [109; 803] | 7748 => [78; 775]
  | 7749 => [110; 775] | 7750 => [78; 803] | 7751 => [110; 803] | 7752 => [78; 817]
  | 7753 => [110; 817] | 7754 => [78; 813] | 7755 => [110; 813] | 7756 => [79; 771; 769]
  | 7757 => [111; 771; 769] | 7758 => [79; 771; 776] | 7759 => [111; 771; 776]
  | 7760 => [79; 772; 768] | 7761 => [111; 772; 768] | 7762 => [79; 772; 769]
  | 7763 => [111; 772; 769] | 7764 => [80; 769] | 7765 => [112; 769] | 7766 => [80; 775]
  | 7767 => [112; 775] | 7768 => [82; 775] | 7769 => [114; 775] | 7770 => [82; 803]
  | 7771 => [114; 803] | 7772 => [82; 803; 772] | 7773 => [114; 803; 772] | 7774 => [82; 817]
  | 7775 => [114; 817] | 7776 => [83; 775] | 7777 => [115; 775] | 7778 => [83; 803]
  | 7779 => [115; 803] | 7780 => [83; 769; 775] | 7781 => [115; 769; 775] | 7782 => [83; 780; 775]
  | 7783 => [115; 780; 775] | 7784 => [83; 803; 775] | 7785 => [115; 803; 775] | 7786 => [84; 775]
  | 7787 => [116; 775] | 7788 => [84; 803] | 7789 => [116; 803] | 7790 => [84; 817]
  | 7791 => [116; 817] | 7792 => [84; 813] | 7793 => [116; 813] | 7794 => [85; 804]
  | 7795 => [117; 804] | 7796 => [85; 816] | 7797 => [117; 816] | 7798 => [85; 813]
  | 7799 => [117; 813] | 7800 => [85; 771; 769] | 7801 => [117; 771; 769] | 7802 => [85; 772; 776]
  | 7803 => [117; 772; 776] | 7804 => [86; 771] | 7805 => [118; 771] | 7806 => [86; 803]
  | 7807 => [118; 803] | 7808 => [87; 768] | 7809 => [119; 768] | 7810 => [87; 769]
  | 7811 => [119; 769] | 7812 => [87; 776] | 7813 => [119; 776] | 7814 => [87; 775]
  | 7815 => [119; 775] | 7816 => [87; 803] | 7817 => [119; 803] | 7818 => [88; 775]
  | 7819 => [120; 775] | 7820 => [88; 776] | 7821 => [120; 776] | 7822 => [89; 775]
  | 7823 => [121; 775] | 7824 => [90; 770] | 7825 => [122; 770] | 7826 => [90; 803]
  | 7827 => [122; 803] | 7828 => [90; 817] | 7829 => [122; 817] | 7830 => [104; 817]
  | 7831 => [116; 776] | 7832 => [119; 778] | 7833 => [121; 778] | 7834 => [97; 702]
  | 7835 => [115; 775] | 7840 => [65; 803] | 7841 => [97; 803] | 7842 => [65; 777]
  | 7843 => [97; 777] | 7844 => [65; 770; 769] | 7845 => [97; 770; 769] | 7846 => [65; 770; 768]
  | 7847 => [97; 770; 768] | 7848 => [65; 770; 777] | 7849 => [97; 770; 777]
  | 7850 => [65; 770; 771] | 7851 => [97; 770; 771] | 7852 => [65; 803; 770]
  | 7853 => [97; 803; 770] | 7854 => [65; 774; 769] | 7855 => [97; 774; 769]
  | 7856 => [65; 774; 768] | 7857 => [97; 774; 768] | 7858 => [65; 774; 777]
  | 7859 => [97; 774; 777] | 7860 => [65; 774; 771] | 7861 => [97; 774; 771]
  | 7862 => [65; 803; 774] | 7863 => [97; 803; 774] | 7864 => [69; 803] | 7865 => [101; 803]
  | 7866 => [69; 777] | 7867 => [101; 777] | 7868 => [69; 771] | 7869 => [101; 771]
  | 7870 => [69; 770; 769] | 7871 => [101; 770; 769] | 7872 => [69; 770; 768]
  | 7873 => [101; 770; 768] | 7874 => [69; 770; 777] | 7875 => [101; 770; 777]
  | 7876 => [69; 770; 771] | 7877 => [101; 770; 771] | 7878 => [69; 803; 770]
  | 7879 => [101; 803; 770] | 7880 => [73; 777] | 7881 => [105; 777] | 7882 => [73; 803]
  | 7883 => [105; 803] | 7884 => [79; 803] | 7885 => [111; 803] | 7886 => [79; 777]
  | 7887 => [111; 777] | 7888 => [79; 770; 769] | 7889 => [111; 770; 769] | 7890 => [79; 770; 768]
  | 7891 => [111; 770; 768] | 7892 => [79; 770; 777] | 7893 => [111; 770; 777]
  | 7894 => [79; 770; 771] | 7895 => [111; 770; 771] | 7896 => [79; 803; 770]
  | 7897 => [111; 803; 770] | 7898 => [79; 795; 769] | 7899 => [111; 795; 769]
  | 7900 => [79; 795; 768] | 7901 => [111; 795; 768] | 7902 => [79; 795; 777]
  | 7903 => [111; 795; 777] | 7904 => [79; 795; 771] | 7905 => [111; 795; 771]
  | 7906 => [79; 795; 803] | 7907 => [111; 795; 803] | 7908 => [85; 803] | 7909 => [117; 803]
  | 7910 => [85; 777] | 7911 => [117; 777] | 7912 => [85; 795; 769] | 7913 => [117; 795; 769]
  | 7914 => [85; 795; 768] | 7915 => [117; 795; 768] | 7916 => [85; 795; 777]
  | 7917 => [117; 795; 777] | 7918 => [85; 795; 771] | 7919 => [117; 795; 771]
  | 7920 => [85; 795; 803] | 7921 => [117; 795; 803] | 7922 => [89; 768] | 7923 => [121; 768]
  | 7924 => [89; 803] | 7925 => [121; 803] | 7926 => [89; 777] | 7927 => [121; 777]
  | 7928 => [89; 771] | 7929 => [121; 771] | 8125 => [32; 787] | 8127 => [32; 787]
  | 8128 => [32; 834] | 8129 => [32; 776; 834] | 8141 => [32; 787; 768] | 8142 => [32; 787; 769]
  | 8143 => [32; 787; 834] | 8157 => [32; 788; 768] | 8158 => [32; 788; 769]
  | 8159 => [32; 788; 834] | 8173 => [32; 776; 768] | 8174 => [32; 776; 769] | 8175 => [96]
  | 8189 => [32; 769] | 8190 => [32; 788] | 8192 => [32] | 8193 => [32] | 8194 => [32]
  | 8195 => [32] | 8196 => [32] | 8197 => [32] | 8198 => [32] | 8199 => [32] | 8200 => [32]
  | 8201 => [32] | 8202 => [32] | 8215 => [32; 819] | 8228 => [46] | 8229 => [46; 46]
  | 8230 => [46; 46; 46] | 8239 => [32] | 8252 => [33; 33] | 8254 => [32; 773] | 8263 => [63; 63]
  | 8264 => [63; 33] | 8265 => [33; 63] | 8287 => [32] | 8304 => [48] | 8305 => [105]
  | 8308 => [52] | 8309 => [53] | 8310 => [54] | 8311 => [55] | 8312 => [56] | 8313 => [57]
  | 8314 => [43] | 8316 => [61] | 8317 => [40] | 8318 => [41] | 8319 => [110] | 8320 => [48]
  | 8321 => [49] | 8322 => [50] | 8323 => [51] | 8324 => [52] | 8325 => [53] | 8326 => [54]
  | 8327 => [55] | 8328 => [56] | 8329 => [57] | 8330 => [43] | 8332 => [61] | 8333 => [40]
  | 8334 => [41] | 8336 => [97] | 8337 => [101] | 8338 => [111] | 8339 => [120] | 8341 => [104]
  | 8342 => [107] | 8343 => [108] | 8344 => [109] | 8345 => [110] | 8346 => [112] | 8347 => [115]
  | 8348 => [116] | 8360 => [82; 115] | 8448 => [97; 47; 99] | 8449 => [97; 47; 115] | 8450 => [67]
  | 8451 => [176; 67] | 8453 => [99; 47; 111] | 8454 => [99; 47; 117] | 8457 => [176; 70]
  | 8458 => [103] | 8459 => [72] | 8460 => [72] | 8461 => [72] | 8462 => [104] | 8464 => [73]
  | 8465 => [73] | 8466 => [76] | 8467 => [108] | 8469 => [78] | 8470 => [78; 111] | 8473 => [80]
  | 8474 => [81] | 8475 => [82] | 8476 => [82] | 8477 => [82] | 8480 => [83; 77]
  | 8481 => [84; 69; 76] | 8482 => [84; 77] | 8484 => [90] | 8488 => [90] | 8490 => [75]
  | 8491 => [65; 778] | 8492 => [66] | 8493 => [67] | 8495 => [101] | 8496 => [69] | 8497 => [70]
  | 8499 => [77] | 8500 => [111] | 8505 => [105] | 8507 => [70; 65; 88] | 8517 => [68]
  | 8518 => [100] | 8519 => [101] | 8520 => [105] | 8521 => [106] | 8528 => [49; 8260; 55]
  | 8529 => [49; 8260; 57] | 8530 => [49; 8260; 49; 48] | 8531 => [49; 8260; 51]
  | 8532 => [50; 8260; 51] | 8533 => [49; 8260; 53] | 8534 => [50; 8260; 53]
  | 8535 => [51; 8260; 53] | 8536 => [52; 8260; 53] | 8537 => [49; 8260; 54]
  | 8538 => [53; 8260; 54] | 8539 => [49; 8260; 56] | 8540 => [51; 8260; 56]
  | 8541 => [53; 8260; 56] | 8542 => [55; 8260; 56] | 8543 => [49; 8260] | 8544 => [73]
  | 8545 => [73; 73] | 8546 => [73; 73; 73] | 8547 => [73; 86] | 8548 => [86] | 8549 => [86; 73]
  | 8550 => [86; 73; 73] | 8551 => [86; 73; 73; 73] | 8552 => [73; 88] | 8553 => [88]
  | 8554 => [88; 73] | 8555 => [88; 73; 73] | 8556 => [76] | 8557 => [67] | 8558 => [68]
  | 8559 => [77] | 8560 => [105] | 8561 => [105; 105] | 8562 => [105; 105; 105]
  | 8563 => [105; 118] | 8564 => [118] | 8565 => [118; 105] | 8566 => [118; 105; 105]
  | 8567 => [118; 105; 105; 105] | 8568 => [105; 120] | 8569 => [120] | 8570 => [120; 105]
  | 8571 => [120; 105; 105] | 8572 => [108] | 8573 => [99] | 8574 => [100] | 8575 => [109]
  | 8585 => [48; 8260; 51] | 8800 => [61; 824] | 8814 => [60; 824] | 8815 => [62; 824]
  | 9312 => [49] | 9313 => [50] | 9314 => [51] | 9315 => [52] | 9316 => [53] | 9317 => [54]
  | 9318 => [55] | 9319 => [56] | 9320 => [57] | 9321 => [49; 48] | 9322 => [49; 49]
  | 9323 => [49; 50] | 9324 => [49; 51] | 9325 => [49; 52] | 9326 => [49; 53] | 9327 => [49; 54]
  | 9328 => [49; 55] | 9329 => [49; 56] | 9330 => [49; 57] | 9331 => [50; 48]
  | 9332 => [40; 49; 41] | 9333 => [40; 50; 41] | 9334 => [40; 51; 41] | 9335 => [40; 52; 41]
  | 9336 => [40; 53; 41] | 9337 => [40; 54; 41] | 9338 => [40; 55; 41] | 9339 => [40; 56; 41]
  | 9340 => [40; 57; 41] | 9341 => [40; 49; 48; 41] | 9342 => [40; 49; 49; 41]
  | 9343 => [40; 49; 50; 41] | 9344 => [40; 49; 51; 41] | 9345 => [40; 49; 52; 41]
  | 9346 => [40; 49; 53; 41] | 9347 => [40; 49; 54; 41] | 9348 => [40; 49; 55; 41]
  | 9349 => [40; 49; 56; 41] | 9350 => [40; 49; 57; 41] | 9351 => [40; 50; 48; 41]
  | 9352 => [49; 46] | 9353 => [50; 46] | 9354 => [51; 46] | 9355 => [52; 46] | 9356 => [53; 46]
  | 9357 => [54; 46] | 9358 => [55; 46] | 9359 => [56; 46] | 9360 => [57; 46]
  | 9361 => [49; 48; 46] | 9362 => [49; 49; 46] | 9363 => [49; 50; 46] | 9364 => [49; 51; 46]
  | 9365 => [49; 52; 46] | 9366 => [49; 53; 46] | 9367 => [49; 54; 46] | 9368 => [49; 55; 46]
  | 9369 => [49; 56; 46] | 9370 => [49; 57; 46] | 9371 => [50; 48; 46] | 9372 => [40; 97; 41]
  | 9373 => [40; 98; 41] | 9374 => [40; 99; 41] | 9375 => [40; 100; 41] | 9376 => [40; 101; 41]
  | 9377 => [40; 102; 41] | 9378 => [40; 103; 41] | 9379 => [40; 104; 41] | 9380 => [40; 105; 41]
  | 9381 => [40; 106; 41] | 9382 => [40; 107; 41] | 9383 => [40; 108; 41] | 9384 => [40; 109; 41]
  | 9385 => [40; 110; 41] | 9386 => [40; 111; 41] | 9387 => [40; 112; 41] | 9388 => [40; 113; 41]
  | 9389 => [40; 114; 41] | 9390 => [40; 115; 41] | 9391 => [40; 116; 41] | 9392 => [40; 117; 41]
  | 9393 => [40; 118; 41] | 9394 => [40; 119; 41] | 9395 => [40; 120; 41] | 9396 => [40; 121; 41]
  | 9397 => [40; 122; 41] | 9398 => [65] | 9399 => [66] | 9400 => [67] | 9401 => [68]
  | 9402 => [69] | 9403 => [70] | 9404 => [71] | 9405 => [72] | 9406 => [73] | 9407 => [74]
  | 9408 => [75] | 9409 => [76] | 9410 => [77] | 9411 => [78] | 9412 => [79] | 9413 => [80]
  | 9414 => [81] | 9415 => [82] | 9416 => [83] | 9417 => [84] | 9418 => [85] | 9419 => [86]
  | 9420 => [87] | 9421 => [88] | 9422 => [89] | 9423 => [90] | 9424 => [97] | 9425 => [98]
  | 9426 => [99] | 9427 => [100] | 9428 => [101] | 9429 => [102] | 9430 => [103] | 9431 => [104]
  | 9432 => [105] | 9433 => [106] | 9434 => [107] | 9435 => [108] | 9436 => [109] | 9437 => [110]
  | 9438 => [111] | 9439 => [112] | 9440 => [113] | 9441 => [114] | 9442 => [115] | 9443 => [116]
  | 9444 => [117] | 9445 => [118] | 9446 => [119] | 9447 => [120] | 9448 => [121] | 9449 => [122]
  | 9450 => [48] | 10868 => [58; 58; 61] | 10869 => [61; 61] | 10870 => [61; 61; 61]
  | 11388 => [106] | 11389 => [86] | 12288 => [32] | 12443 => [32; 12441] | 12444 => [32; 12442]
  | 12800 => [40; 4352; 41] | 12801 => [40; 4354; 41] | 12802 => [40; 4355; 41]
  | 12803 => [40; 4357; 41] | 12804 => [40; 4358; 41] | 12805 => [40; 4359; 41]
  | 12806 => [40; 4361; 41] | 12807 => [40; 4363; 41] | 12808 => [40; 4364; 41]
  | 12809 => [40; 4366; 41] | 12810 => [40; 4367; 41] | 12811 => [40; 4368; 41]
  | 12812 => [40; 4369; 41] | 12813 => [40; 4370; 41] | 12814 => [40; 4352; 4449; 41]
  | 12815 => [40; 4354; 4449; 41] | 12816 => [40; 4355; 4449; 41] | 12817 => [40; 4357; 4449; 41]
  | 12818 => [40; 4358; 4449; 41] | 12819 => [40; 4359; 4449; 41] | 12820 => [40; 4361; 4449; 41]
  | 12821 => [40; 4363; 4449; 41] | 12822 => [40; 4364; 4449; 41] | 12823 => [40; 4366; 4449; 41]
  | 12824 => [40; 4367; 4449; 41] | 12825 => [40; 4368; 4449; 41] | 12826 => [40; 4369; 4449; 41]
  | 12827 => [40; 4370; 4449; 41] | 12828 => [40; 4364; 4462; 41]
  | 12829 => [40; 4363; 4457; 4364; 4453; 4523; 41] | 12830 => [40; 4363; 4457; 4370; 4462; 41]
  | 12832 => [40; 19968; 41] | 12833 => [40; 20108; 41] | 12834 => [40; 19977; 41]
  | 12835 => [40; 22235; 41] | 12836 => [40; 20116; 41] | 12837 => [40; 20845; 41]
  | 12838 => [40; 19971; 41] | 12839 => [40; 20843; 41] | 12840 => [40; 20061; 41]
  | 12841 => [40; 21313; 41] | 12842 => [40; 26376; 41] | 12843 => [40; 28779; 41]
  | 12844 => [40; 27700; 41] | 12845 => [40; 26408; 41] | 12846 => [40; 37329; 41]
  | 12847 => [40; 22303; 41] | 12848 => [40; 26085; 41] | 12849 => [40; 26666; 41]
  | 12850 => [40; 26377; 41] | 12851 => [40; 31038; 41] | 12852 => [40; 21517; 41]
  | 12853 => [40; 29305; 41] | 12854 => [40; 36001; 41] | 12855 => [40; 31069; 41]
  | 12856 => [40; 21172; 41] | 12857 => [40; 20195; 41] | 12858 => [40; 21628; 41]
  | 12859 => [40; 23398; 41] | 12860 => [40; 30435; 41] | 12861 => [40; 20225; 41]
  | 12862 => [40; 36039; 41] | 12863 => [40; 21332; 41] | 12864 => [40; 31085; 41]
  | 12865 => [40; 20241; 41] | 12866 => [40; 33258; 41] | 12867 => [40; 33267; 41]
  | 12880 => [80; 84; 69] | 12881 => [50; 49] | 12882 => [50; 50] | 12883 => [50; 51]
  | 12884 => [50; 52] | 12885 => [50; 53] | 12886 => [50; 54] | 12887 => [50; 55]
  | 12888 => [50; 56] | 12889 => [50; 57] | 12890 => [51; 48] | 12891 => [51; 49]
  | 12892 => [51; 50] | 12893 => [51; 51] | 12894 => [51; 52] | 12895 => [51; 53]
  | 12977 => [51; 54] | 12978 => [51; 55] | 12979 => [51; 56] | 12980 => [51; 57]
  | 12981 => [52; 48] | 12982 => [52; 49] | 12983 => [52; 50] | 12984 => [52; 51]
  | 12985 => [52; 52] | 12986 => [52; 53] | 12987 => [52; 54] | 12988 => [52; 55]
  | 12989 => [52; 56] | 12990 => [52; 57] | 12991 => [53; 48] | 12992 => [49; 26376]
  | 12993 => [50; 26376] | 12994 => [51; 26376] | 12995 => [52; 26376] | 12996 => [53; 26376]
  | 12997 => [54; 26376] | 12998 => [55; 26376] | 12999 => [56; 26376] | 13000 => [57; 26376]
  | 13001 => [49; 48; 26376] | 13002 => [49; 49; 26376] | 13003 => [49; 50; 26376]
  | 13004 => [72; 103] | 13005 => [101; 114; 103] | 13006 => [101; 86] | 13007 => [76; 84; 68]
  | 13144 => [48; 28857] | 13145 => [49; 28857] | 13146 => [50; 28857] | 13147 => [51; 28857]
  | 13148 => [52; 28857] | 13149 => [53; 28857] | 13150 => [54; 28857] | 13151 => [55; 28857]
  | 13152 => [56; 28857] | 13153 => [57; 28857] | 13154 => [49; 48; 28857]
  | 13155 => [49; 49; 28857] | 13156 => [49; 50; 28857] | 13157 => [49; 51; 28857]
  | 13158 => [49; 52; 28857] | 13159 => [49; 53; 28857] | 13160 => [49; 54; 28857]
  | 13161 => [49; 55; 28857] | 13162 => [49; 56; 28857] | 13163 => [49; 57; 28857]
  | 13164 => [50; 48; 28857] | 13165 => [50; 49; 28857] | 13166 => [50; 50; 28857]
  | 13167 => [50; 51; 28857] | 13168 => [50; 52; 28857] | 13169 => [104; 80; 97]
  | 13170 => [100; 97] | 13171 => [65; 85] | 13172 => [98; 97; 114] | 13173 => [111; 86]
  | 13174 => [112; 99] | 13175 => [100; 109] | 13176 => [100; 109; 50] | 13177 => [100; 109; 51]
  | 13178 => [73; 85] | 13184 => [112; 65] | 13185 => [110; 65] | 13186 => [956; 65]
  | 13187 => [109; 65] | 13188 => [107; 65] | 13189 => [75; 66] | 13190 => [77; 66]
  | 13191 => [71; 66] | 13192 => [99; 97; 108] | 13193 => [107; 99; 97; 108] | 13194 => [112; 70]
  | 13195 => [110; 70] | 13196 => [956; 70] | 13197 => [956; 103] | 13198 => [109; 103]
  | 13199 => [107; 103] | 13200 => [72; 122] | 13201 => [107; 72; 122] | 13202 => [77; 72; 122]
  | 13203 => [71; 72; 122] | 13204 => [84; 72; 122] | 13205 => [956; 108] | 13206 => [109; 108]
  | 13207 => [100; 108] | 13208 => [107; 108] | 13209 => [102; 109] | 13210 => [110; 109]
  | 13211 => [956; 109] | 13212 => [109; 109] | 13213 => [99; 109] | 13214 => [107; 109]
  | 13215 => [109; 109; 50] | 13216 => [99; 109; 50] | 13217 => [109; 50] | 13218 => [107; 109; 50]
  | 13219 => [109; 109; 51] | 13220 => [99; 109; 51] | 13221 => [109; 51] | 13222 => [107; 109; 51]
  | 13223 => [109; 8725; 115] | 13224 => [109; 8725; 115; 50] | 13225 => [80; 97]
  | 13226 => [107; 80; 97] | 13227 => [77; 80; 97] | 13228 => [71; 80; 97]
  | 13229 => [114; 97; 100] | 13230 => [114; 97; 100; 8725; 115]
  | 13231 => [114; 97; 100; 8725; 115; 50] | 13232 => [112; 115] | 13233 => [110; 115]
  | 13234 => [956; 115] | 13235 => [109; 115] | 13236 => [112; 86] | 13237 => [110; 86]
  | 13238 => [956; 86] | 13239 => [109; 86] | 13240 => [107; 86] | 13241 => [77; 86]
  | 13242 => [112; 87] | 13243 => [110; 87] | 13244 => [956; 87] | 13245 => [109; 87]
  | 13246 => [107; 87] | 13247 => [77; 87] | 13248 => [107; 937] | 13249 => [77; 937]
  | 13250 => [97; 46; 109; 46] | 13251 => [66; 113] | 13252 => [99; 99] | 13253 => [99; 100]
  | 13254 => [67; 8725; 107; 103] | 13255 => [67; 111; 46] | 13256 => [100; 66]
  | 13257 => [71; 121] | 13258 => [104; 97] | 13259 => [72; 80] | 13260 => [105; 110]
  | 13261 => [75; 75] | 13262 => [75; 77] | 13263 => [107; 116] | 13264 => [108; 109]
  | 13265 => [108; 110] | 13266 => [108; 111; 103] | 13267 => [108; 120] | 13268 => [109; 98]
  | 13269 => [109; 105; 108] | 13270 => [109; 111; 108] | 13271 => [80; 72]
  | 13272 => [112; 46; 109; 46] | 13273 => [80; 80; 77] | 13274 => [80; 82] | 13275 => [115; 114]
  | 13276 => [83; 118] | 13277 => [87; 98] | 13278 => [86; 8725; 109] | 13279 => [65; 8725; 109]
  | 13280 => [49; 26085] | 13281 => [50; 26085] | 13282 => [51; 26085] | 13283 => [52; 26085]
  | 13284 => [53; 26085] | 13285 => [54; 26085] | 13286 => [55; 26085] | 13287 => [56; 26085]
  | 13288 => [57; 26085] | 13289 => [49; 48; 26085] | 13290 => [49; 49; 26085]
  | 13291 => [49; 50; 26085] | 13292 => [49; 51; 26085] | 13293 => [49; 52; 26085]
  | 13294 => [49; 53; 26085] | 13295 => [49; 54; 26085] | 13296 => [49; 55; 26085]
  | 13297 => [49; 56; 26085] | 13298 => [49; 57; 26085] | 13299 => [50; 48; 26085]
  | 13300 => [50; 49; 26085] | 13301 => [50; 50; 26085] | 13302 => [50; 51; 26085]
  | 13303 => [50; 52; 26085] | 13304 => [50; 53; 26085] | 13305 => [50; 54; 26085]
  | 13306 => [50; 55; 26085] | 13307 => [50; 56; 26085] | 13308 => [50; 57; 26085]
  | 13309 => [51; 48; 26085] | 13310 => [51; 49; 26085] | 13311 => [103; 97; 108] | 42994 => [67]
  | 42995 => [70] | 42996 => [81] | 64256 => [102; 102] | 64257 => [102; 105] | 64258 => [102; 108]
  | 64259 => [102; 102; 105] | 64260 => [102; 102; 108] | 64261 => [115; 116] | 64262 => [115; 116]
  | 64297 => [43] | 64606 => [32; 1612; 1617] | 64607 => [32; 1613; 1617]
  | 64608 => [32; 1614; 1617] | 64609 => [32; 1615; 1617] | 64610 => [32; 1616; 1617]
  | 64611 => [32; 1617; 1648]
  | 65018 => [1589; 1604; 1609; 32; 1575; 1604; 1604; 1607; 32; 1593; 1604; 1610; 1607; 32; 1608; 1587; 1604; 1605]
  | 65019 => [1580; 1604; 32; 1580; 1604; 1575; 1604; 1607] | 65040 => [44] | 65043 => [58]
  | 65044 => [59] | 65045 => [33] | 65046 => [63] | 65049 => [46; 46; 46] | 65072 => [46; 46]
  | 65075 => [95] | 65076 => [95] | 65077 => [40] | 65078 => [41] | 65079 => [123] | 65080 => [125]
  | 65095 => [91] | 65096 => [93] | 65097 => [32; 773] | 65098 => [32; 773] | 65099 => [32; 773]
  | 65100 => [32; 773] | 65101 => [95] | 65102 => [95] | 65103 => [95] | 65104 => [44]
  | 65106 => [46] | 65108 => [59] | 65109 => [58] | 65110 => [63] | 65111 => [33] | 65113 => [40]
  | 65114 => [41] | 65115 => [123] | 65116 => [125] | 65119 => [35] | 65120 => [38] | 65121 => [42]
  | 65122 => [43] | 65123 => [45] | 65124 => [60] | 65125 => [62] | 65126 => [61] | 65128 => [92]
  | 65129 => [36] | 65130 => [37] | 65131 => [64] | 65136 => [32; 1611] | 65138 => [32; 1612]
  | 65140 => [32; 1613] | 65142 => [32; 1614] | 65144 => [32; 1615] | 65146 => [32; 1616]
  | 65148 => [32; 1617] | 65150 => [32; 1618] | 65281 => [33] | 65282 => [34] | 65283 => [35]
  | 65284 => [36] | 65285 => [37] | 65286 => [38] | 65287 => [39] | 65288 => [40] | 65289 => [41]
  | 65290 => [42] | 65291 => [43] | 65292 => [44] | 65293 => [45] | 65294 => [46] | 65295 => [47]
  | 65296 => [48] | 65297 => [49] | 65298 => [50] | 65299 => [51] | 65300 => [52] | 65301 => [53]
  | 65302 => [54] | 65303 => [55] | 65304 => [56] | 65305 => [57] | 65306 => [58] | 65307 => [59]
  | 65308 => [60] | 65309 => [61] | 65310 => [62] | 65311 => [63] | 65312 => [64] | 65313 => [65]
  | 65314 => [66] | 65315 => [67] | 65316 => [68] | 65317 => [69] | 65318 => [70] | 65319 => [71]
  | 65320 => [72] | 65321 => [73] | 65322 => [74] | 65323 => [75] | 65324 => [76] | 65325 => [77]
  | 65326 => [78] | 65327 => [79] | 65328 => [80] | 65329 => [81] | 65330 => [82] | 65331 => [83]
  | 65332 => [84] | 65333 => [85] | 65334 => [86] | 65335 => [87] | 65336 => [88] | 65337 => [89]
  | 65338 => [90] | 65339 => [91] | 65340 => [92] | 65341 => [93] | 65342 => [94] | 65343 => [95]
  | 65344 => [96] | 65345 => [97] | 65346 => [98] | 65347 => [99] | 65348 => [100] | 65349 => [101]
  | 65350 => [102] | 65351 => [103] | 65352 => [104] | 65353 => [105] | 65354 => [106]
  | 65355 => [107] | 65356 => [108] | 65357 => [109] | 65358 => [110] | 65359 => [111]
  | 65360 => [112] | 65361 => [113] | 65362 => [114] | 65363 => [115] | 65364 => [116]
  | 65365 => [117] | 65366 => [118] | 65367 => [119] | 65368 => [120] | 65369 => [121]
  | 65370 => [122] | 65371 => [123] | 65372 => [124] | 65373 => [125] | 65374 => [126]
  | 65507 => [32; 772] | 67493 => [113] | 119808 => [65] | 119809 => [66] | 119810 => [67]
  | 119811 => [68] | 119812 => [69] | 119813 => [70] | 119814 => [71] | 119815 => [72]
  | 119816 => [73] | 119817 => [74] | 119818 => [75] | 119819 => [76] | 119820 => [77]
  | 119821 => [78] | 119822 => [79] | 119823 => [80] | 119824 => [81] | 119825 => [82]
  | 119826 => [83] | 119827 => [84] | 119828 => [85] | 119829 => [86] | 119830 => [87]
  | 119831 => [88] | 119832 => [89] | 119833 => [90] | 119834 => [97] | 119835 => [98]
  | 119836 => [99] | 119837 => [100] | 119838 => [101] | 119839 => [102] | 119840 => [103]
  | 119841 => [104] | 119842 => [105] | 119843 => [106] | 119844 => [107] | 119845 => [108]
  | 119846 => [109] | 119847 => [110] | 119848 => [111] | 119849 => [112] | 119850 => [113]
  | 119851 => [114] | 119852 => [115] | 119853 => [116] | 119854 => [117] | 119855 => [118]
  | 119856 => [119] | 119857 => [120] | 119858 => [121] | 119859 => [122] | 119860 => [65]
  | 119861 => [66] | 119862 => [67] | 119863 => [68] | 119864 => [69] | 119865 => [70]
  | 119866 => [71] | 119867 => [72] | 119868 => [73] | 119869 => [74] | 119870 => [75]
  | 119871 => [76] | 119872 => [77] | 119873 => [78] | 119874 => [79] | 119875 => [80]
  | 119876 => [81] | 119877 => [82] | 119878 => [83] | 119879 => [84] | 119880 => [85]
  | 119881 => [86] | 119882 => [87] | 119883 => [88] | 119884 => [89] | 119885 => [90]
  | 119886 => [97] | 119887 => [98] | 119888 => [99] | 119889 => [100] | 119890 => [101]
  | 119891 => [102] | 119892 => [103] | 119894 => [105] | 119895 => [106] | 119896 => [107]
  | 119897 => [108] | 119898 => [109] | 119899 => [110] | 119900 => [111] | 119901 => [112]
  | 119902 => [113] | 119903 => [114] | 119904 => [115] | 119905 => [116] | 119906 => [117]
  | 119907 => [118] | 119908 => [119] | 119909 => [120] | 119910 => [121] | 119911 => [122]
  | 119912 => [65] | 119913 => [66] | 119914 => [67] | 119915 => [68] | 119916 => [69]
  | 119917 => [70] | 119918 => [71] | 119919 => [72] | 119920 => [73] | 119921 => [74]
  | 119922 => [75] | 119923 => [76] | 119924 => [77] | 119925 => [78] | 119926 => [79]
  | 119927 => [80] | 119928 => [81] | 119929 => [82] | 119930 => [83] | 119931 => [84]
  | 119932 => [85] | 119933 => [86] | 119934 => [87] | 119935 => [88] | 119936 => [89]
  | 119937 => [90] | 119938 => [97] | 119939 => [98] | 119940 => [99] | 119941 => [100]
  | 119942 => [101] | 119943 => [102] | 119944 => [103] | 119945 => [104] | 119946 => [105]
  | 119947 => [106] | 119948 => [107] | 119949 => [108] | 119950 => [109] | 119951 => [110]
  | 119952 => [111] | 119953 => [112] | 119954 => [113] | 119955 => [114] | 119956 => [115]
  | 119957 => [116] | 119958 => [117] | 119959 => [118] | 119960 => [119] | 119961 => [120]
  | 119962 => [121] | 119963 => [122] | 119964 => [65] | 119966 => [67] | 119967 => [68]
  | 119970 => [71] | 119973 => [74] | 119974 => [75] | 119977 => [78] | 119978 => [79]
  | 119979 => [80] | 119980 => [81] | 119982 => [83] | 119983 => [84] | 119984 => [85]
  | 119985 => [86] | 119986 => [87] | 119987 => [88] | 119988 => [89] | 119989 => [90]
  | 119990 => [97] | 119991 => [98] | 119992 => [99] | 119993 => [100] | 119995 => [102]
  | 119997 => [104] | 119998 => [105] | 119999 => [106] | 120000 => [107] | 120001 => [108]
  | 120002 => [109] | 120003 => [110] | 120005 => [112] | 120006 => [113] | 120007 => [114]
  | 120008 => [115] | 120009 => [116] | 120010 => [117] | 120011 => [118] | 120012 => [119]
  | 120013 => [120] | 120014 => [121] | 120015 => [122] | 120016 => [65] | 120017 => [66]
  | 120018 => [67] | 120019 => [68] | 120020 => [69] | 120021 => [70] | 120022 => [71]
  | 120023 => [72] | 120024 => [73] | 120025 => [74] | 120026 => [75] | 120027 => [76]
  | 120028 => [77] | 120029 => [78] | 120030 => [79] | 120031 => [80] | 120032 => [81]
  | 120033 => [82] | 120034 => [83] | 120035 => [84] | 120036 => [85] | 120037 => [86]
  | 120038 => [87] | 120039 => [88] | 120040 => [89] | 120041 => [90] | 120042 => [97]
  | 120043 => [98] | 120044 => [99] | 120045 => [100] | 120046 => [101] | 120047 => [102]
  | 120048 => [103] | 120049 => [104] | 120050 => [105] | 120051 => [106] | 120052 => [107]
  | 120053 => [108] | 120054 => [109] | 120055 => [110] | 120056 => [111] | 120057 => [112]
  | 120058 => [113] | 120059 => [114] | 120060 => [115] | 120061 => [116] | 120062 => [117]
  | 120063 => [118] | 120064 => [119] | 120065 => [120] | 120066 => [121] | 120067 => [122]
  | 120068 => [65] | 120069 => [66] | 120071 => [68] | 120072 => [69] | 120073 => [70]
  | 120074 => [71] | 120077 => [74] | 120078 => [75] | 120079 => [76] | 120080 => [77]
  | 120081 => [78] | 120082 => [79] | 120083 => [80] | 120084 => [81] | 120086 => [83]
  | 120087 => [84] | 120088 => [85] | 120089 => [86] | 120090 => [87] | 120091 => [88]
  | 120092 => [89] | 120094 => [97] | 120095 => [98] | 120096 => [99] | 120097 => [100]
  | 120098 => [101] | 120099 => [102] | 120100 => [103] | 120101 => [104] | 120102 => [105]
  | 120103 => [106] | 120104 => [107] | 120105 => [108] | 120106 => [109] | 120107 => [110]
  | 120108 => [111] | 120109 => [112] | 120110 => [113] | 120111 => [114] | 120112 => [115]
  | 120113 => [116] | 120114 => [117] | 120115 => [118] | 120116 => [119] | 120117 => [120]
  | 120118 => [121] | 120119 => [122] | 120120 => [65] | 120121 => [66] | 120123 => [68]
  | 120124 => [69] | 120125 => [70] | 120126 => [71] | 120128 => [73] | 120129 => [74]
  | 120130 => [75] | 120131 => [76] | 120132 => [77] | 120134 => [79] | 120138 => [83]
  | 120139 => [84] | 120140 => [85] | 120141 => [86] | 120142 => [87] | 120143 => [88]
  | 120144 => [89] | 120146 => [97] | 120147 => [98] | 120148 => [99] | 120149 => [100]
  | 120150 => [101] | 120151 => [102] | 120152 => [103] | 120153 => [104] | 120154 => [105]
  | 120155 => [106] | 120156 => [107] | 120157 => [108] | 120158 => [109] | 120159 => [110]
  | 120160 => [111] | 120161 => [112] | 120162 => [113] | 120163 => [114] | 120164 => [115]
  | 120165 => [116] | 120166 => [117] | 120167 => [118] | 120168 => [119] | 120169 => [120]
  | 120170 => [121] | 120171 => [122] | 120172 => [65] | 120173 => [66] | 120174 => [67]
  | 120175 => [68] | 120176 => [69] | 120177 => [70] | 120178 => [71] | 120179 => [72]
  | 120180 => [73] | 120181 => [74] | 120182 => [75] | 120183 => [76] | 120184 => [77]
  | 120185 => [78] | 120186 => [79] | 120187 => [80] | 120188 => [81] | 120189 => [82]
  | 120190 => [83] | 120191 => [84] | 120192 => [85] | 120193 => [86] | 120194 => [87]
  | 120195 => [88] | 120196 => [89] | 120197 => [90] | 120198 => [97] | 120199 => [98]
  | 120200 => [99] | 120201 => [100] | 120202 => [101] | 120203 => [102] | 120204 => [103]
  | 120205 => [104] | 120206 => [105] | 120207 => [106] | 120208 => [107] | 120209 => [108]
  | 120210 => [109] | 120211 => [110] | 120212 => [111] | 120213 => [112] | 120214 => [113]
  | 120215 => [114] | 120216 => [115] | 120217 => [116] | 120218 => [117] | 120219 => [118]
  | 120220 => [119] | 120221 => [120] | 120222 => [121] | 120223 => [122] | 120224 => [65]
  | 120225 => [66] | 120226 => [67] | 120227 => [68] | 120228 => [69] | 120229 => [70]
  | 120230 => [71] | 120231 => [72] | 120232 => [73] | 120233 => [74] | 120234 => [75]
  | 120235 => [76] | 120236 => [77] | 120237 => [78] | 120238 => [79] | 120239 => [80]
  | 120240 => [81] | 120241 => [82] | 120242 => [83] | 120243 => [84] | 120244 => [85]
  | 120245 => [86] | 120246 => [87] | 120247 => [88] | 120248 => [89] | 120249 => [90]
  | 120250 => [97] | 120251 => [98] | 120252 => [99] | 120253 => [100] | 120254 => [101]
  | 120255 => [102] | 120256 => [103] | 120257 => [104] | 120258 => [105] | 120259 => [106]
  | 120260 => [107] | 120261 => [108] | 120262 => [109] | 120263 => [110] | 120264 => [111]
  | 120265 => [112] | 120266 => [113] | 120267 => [114] | 120268 => [115] | 120269 => [116]
  | 120270 => [117] | 120271 => [118] | 120272 => [119] | 120273 => [120] | 120274 => [121]
  | 120275 => [122] | 120276 => [65] | 120277 => [66] | 120278 => [67] | 120279 => [68]
  | 120280 => [69] | 120281 => [70] | 120282 => [71] | 120283 => [72] | 120284 => [73]
  | 120285 => [74] | 120286 => [75] | 120287 => [76] | 120288 => [77] | 120289 => [78]
  | 120290 => [79] | 120291 => [80] | 120292 => [81] | 120293 => [82] | 120294 => [83]
  | 120295 => [84] | 120296 => [85] | 120297 => [86] | 120298 => [87] | 120299 => [88]
  | 120300 => [89] | 120301 => [90] | 120302 => [97] | 120303 => [98] | 120304 => [99]
  | 120305 => [100] | 120306 => [101] | 120307 => [102] | 120308 => [103] | 120309 => [104]
  | 120310 => [105] | 120311 => [106] | 120312 => [107] | 120313 => [108] | 120314 => [109]
  | 120315 => [110] | 120316 => [111] | 120317 => [112] | 120318 => [113] | 120319 => [114]
  | 120320 => [115] | 120321 => [116] | 120322 => [117] | 120323 => [118] | 120324 => [119]
  | 120325 => [120] | 120326 => [121] | 120327 => [122] | 120328 => [65] | 120329 => [66]
  | 120330 => [67] | 120331 => [68] | 120332 => [69] | 120333 => [70] | 120334 => [71]
  | 120335 => [72] | 120336 => [73] | 120337 => [74] | 120338 => [75] | 120339 => [76]
  | 120340 => [77] | 120341 => [78] | 120342 => [79] | 120343 => [80] | 120344 => [81]
  | 120345 => [82] | 120346 => [83] | 120347 => [84] | 120348 => [85] | 120349 => [86]
  | 120350 => [87] | 120351 => [88] | 120352 => [89] | 120353 => [90] | 120354 => [97]
  | 120355 => [98] | 120356 => [99] | 120357 => [100] | 120358 => [101] | 120359 => [102]
  | 120360 => [103] | 120361 => [104] | 120362 => [105] | 120363 => [106] | 120364 => [107]
  | 120365 => [108] | 120366 => [109] | 120367 => [110] | 120368 => [111] | 120369 => [112]
  | 120370 => [113] | 120371 => [114] | 120372 => [115] | 120373 => [116] | 120374 => [117]
  | 120375 => [118] | 120376 => [119] | 120377 => [120] | 120378 => [121] | 120379 => [122]
  | 120380 => [65] | 120381 => [66] | 120382 => [67] | 120383 => [68] | 120384 => [69]
  | 120385 => [70] | 120386 => [71] | 120387 => [72] | 120388 => [73] | 120389 => [74]
  | 120390 => [75] | 120391 => [76] | 120392 => [77] | 120393 => [78] | 120394 => [79]
  | 120395 => [80] | 120396 => [81] | 120397 => [82] | 120398 => [83] | 120399 => [84]
  | 120400 => [85] | 120401 => [86] | 120402 => [87] | 120403 => [88] | 120404 => [89]
  | 120405 => [90] | 120406 => [97] | 120407 => [98] | 120408 => [99] | 120409 => [100]
  | 120410 => [101] | 120411 => [102] | 120412 => [103] | 120413 => [104] | 120414 => [105]
  | 120415 => [106] | 120416 => [107] | 120417 => [108] | 120418 => [109] | 120419 => [110]
  | 120420 => [111] | 120421 => [112] | 120422 => [113] | 120423 => [114] | 120424 => [115]
  | 120425 => [116] | 120426 => [117] | 120427 => [118] | 120428 => [119] | 120429 => [120]
  | 120430 => [121] | 120431 => [122] | 120432 => [65] | 120433 => [66] | 120434 => [67]
  | 120435 => [68] | 120436 => [69] | 120437 => [70] | 120438 => [71] | 120439 => [72]
  | 120440 => [73] | 120441 => [74] | 120442 => [75] | 120443 => [76] | 120444 => [77]
  | 120445 => [78] | 120446 => [79] | 120447 => [80] | 120448 => [81] | 120449 => [82]
  | 120450 => [83] | 120451 => [84] | 120452 => [85] | 120453 => [86] | 120454 => [87]
  | 120455 => [88] | 120456 => [89] | 120457 => [90] | 120458 => [97] | 120459 => [98]
  | 120460 => [99] | 120461 => [100] | 120462 => [101] | 120463 => [102] | 120464 => [103]
  | 120465 => [104] | 120466 => [105] | 120467 => [106] | 120468 => [107] | 120469 => [108]
  | 120470 => [109] | 120471 => [110] | 120472 => [111] | 120473 => [112] | 120474 => [113]
  | 120475 => [114] | 120476 => [115] | 120477 => [116] | 120478 => [117] | 120479 => [118]
  | 120480 => [119] | 120481 => [120] | 120482 => [121] | 120483 => [122] | 120782 => [48]
  | 120783 => [49] | 120784 => [50] | 120785 => [51] | 120786 => [52] | 120787 => [53]
  | 120788 => [54] | 120789 => [55] | 120790 => [56] | 120791 => [57] | 120792 => [48]
  | 120793 => [49] | 120794 => [50] | 120795 => [51] | 120796 => [52] | 120797 => [53]
  | 120798 => [54] | 120799 => [55] | 120800 => [56] | 120801 => [57] | 120802 => [48]
  | 120803 => [49] | 120804 => [50] | 120805 => [51] | 120806 => [52] | 120807 => [53]
  | 120808 => [54] | 120809 => [55] | 120810 => [56] | 120811 => [57] | 120812 => [48]
  | 120813 => [49] | 120814 => [50] | 120815 => [51] | 120816 => [52] | 120817 => [53]
  | 120818 => [54] | 120819 => [55] | 120820 => [56] | 120821 => [57] | 120822 => [48]
  | 120823 => [49] | 120824 => [50] | 120825 => [51] | 120826 => [52] | 120827 => [53]
  | 120828 => [54] | 120829 => [55] | 120830 => [56] | 120831 => [57] | 127232 => [48; 46]
  | 127233 => [48; 44] | 127234 => [49; 44] | 127235 => [50; 44] | 127236 => [51; 44]
  | 127237 => [52; 44] | 127238 => [53; 44] | 127239 => [54; 44] | 127240 => [55; 44]
  | 127241 => [56; 44] | 127242 => [57; 44] | 127248 => [40; 65; 41] | 127249 => [40; 66; 41]
  | 127250 => [40; 67; 41] | 127251 => [40; 68; 41] | 127252 => [40; 69; 41]
  | 127253 => [40; 70; 41] | 127254 => [40; 71; 41] | 127255 => [40; 72; 41]
  | 127256 => [40; 73; 41] | 127257 => [40; 74; 41] | 127258 => [40; 75; 41]
  | 127259 => [40; 76; 41] | 127260 => [40; 77; 41] | 127261 => [40; 78; 41]
  | 127262 => [40; 79; 41] | 127263 => [40; 80; 41] | 127264 => [40; 81; 41]
  | 127265 => [40; 82; 41] | 127266 => [40; 83; 41] | 127267 => [40; 84; 41]
  | 127268 => [40; 85; 41] | 127269 => [40; 86; 41] | 127270 => [40; 87; 41]
  | 127271 => [40; 88; 41] | 127272 => [40; 89; 41] | 127273 => [40; 90; 41]
  | 127274 => [12308; 83; 12309] | 127275 => [67] | 127276 => [82] | 127277 => [67; 68]
  | 127278 => [87; 90] | 127280 => [65] | 127281 => [66] | 127282 => [67] | 127283 => [68]
  | 127284 => [69] | 127285 => [70] | 127286 => [71] | 127287 => [72] | 127288 => [73]
  | 127289 => [74] | 127290 => [75] | 127291 => [76] | 127292 => [77] | 127293 => [78]
  | 127294 => [79] | 127295 => [80] | 127296 => [81] | 127297 => [82] | 127298 => [83]
  | 127299 => [84] | 127300 => [85] | 127301 => [86] | 127302 => [87] | 127303 => [88]
  | 127304 => [89] | 127305 => [90] | 127306 => [72; 86] | 127307 => [77; 86] | 127308 => [83; 68]
  | 127309 => [83; 83] | 127310 => [80; 80; 86] | 127311 => [87; 67] | 127338 => [77; 67]
  | 127339 => [77; 68] | 127340 => [77; 82] | 127376 => [68; 74] | 130032 => [48] | 130033 => [49]
  | 130034 => [50] | 130035 => [51] | 130036 => [52] | 130037 => [53] | 130038 => [54]
  | 130039 => [55] | 130040 => [56] | 130041 => [57]
  | _ => [c]
  end.

(** [from django.utils.text import slugify] *)
Definition slugify (value : string) : string := slugify_with unicodedata_decomposition value.

(** The characters a slug is made of: [a-z], [0-9], hyphen, underscore. *)
Definition slug_char (c : N) : bool :=
  is_lower c || is_digit c || (c =? hyphen) || (c =? underscore).

(** No two hyphens stand next to each other. *)
Definition no_double_hyphen (l : list N) : Prop :=
  forall l1 l2, l <> l1 ++ [hyphen; hyphen] ++ l2.

(** A code point of the Cyrillic and Cyrillic Supplement blocks. *)
Definition is_cyrillic (c : N) : bool := (0x400 <=? c) && (c <? 0x530).

(** An ASCII letter or digit. *)
Definition is_alnum (c : N) : bool := is_lower c || is_upper c || is_digit c.

End text.

(** ** pathlib and django.core.validators *)

Module validators.

(** [s.rfind(c)], [None] standing for -1. *)
Fixpoint rfind_from (c : ascii) (s : string) (i : nat) (last : option nat) : option nat :=
  match s with
  | EmptyString => last
  | String a r => rfind_from c r (S i) (if Ascii.eqb a c then Some i else last)
  end.

Definition rfind (c : ascii) (s : string) : option nat := rfind_from c s 0%nat None.

(** [s.split("/")] *)
Fixpoint split_slash (s : string) : list string :=
  match s with
  | EmptyString => [EmptyString]
  | String a r =>
      if Ascii.eqb a "/" then EmptyString :: split_slash r
      else match split_slash r with
           | [] => [String a EmptyString]
           | part :: parts => String a part :: parts
           end
  end.

(** [PurePosixPath(path).name]: the last component, empty components and
    ["."] being dropped when the path is parsed. *)
Definition Path_name (path : string) : string :=
  List.last (List.filter (fun part => negb (String.eqb part "" || String.eqb part "."))
                    (split_slash path)) EmptyString.

(** [PurePath.suffix]:
    [i = name.rfind('.')]; [name[i:]] if [0 < i < len(name) - 1], else [''] *)
Definition Path_suffix (path : string) : string :=
  let name := Path_name path in
  match rfind "." name with
  | Some i =>
      if ((0 <? i) && (i <? String.length name - 1))%nat
      then substring i (String.length name - i) name
      else EmptyString
  | None => EmptyString
  end.

Definition lower_ascii (a : ascii) : ascii :=
  let n := N_of_ascii a in
  if text.is_upper n then ascii_of_N (n + 32) else a.

(** [str.lower]. Only the ASCII letters are folded: the extensions below are
    compared with ASCII allow-lists, and no other character lowers to one
    of their letters. *)
Fixpoint lower (s : string) : string :=
  match s with
  | EmptyString => EmptyString
  | String a r => String (lower_ascii a) (lower r)
  end.

(** [Path(value.name).suffix[1:].lower()] *)
Definition extension (name : string) : string :=
  let suffix := Path_suffix name in
  lower (substring 1 (String.length suffix - 1) suffix).

Definition mem (x : string) (l : list string) : bool := existsb (String.eqb x) l.

(** [FileExtensionValidator(allowed_extensions)(value)]; the constructor
    lower-cases the allow-list. *)
Definition FileExtensionValidator (allowed_extensions : list string) (name : string)
  : exn + unit :=
  if mem (extension name) (map lower allowed_extensions) then ret tt
  else raise ValidationError.

(** [Field.validate] of a [CharField]: a value that is not empty must be one
    of the [choices] keys, and an empty value needs [blank=True]. *)
Definition validate (choices : option (list (string * string))) (blank : bool)
    (value : string) : exn + unit :=
  match choices with
  | Some options =>
      if truthy value && negb (mem value (map fst options)) then raise ValidationError
      else if negb blank && negb (truthy value) then raise ValidationError
      else ret tt
  | None =>
      if negb blank && negb (truthy value) then raise ValidationError else ret tt
  end.

(** [Field.run_validators] of a [FileField]: an empty value ([None] or an
    empty name) skips the validators. *)
Definition run_validators (vs : list (string -> exn + unit)) (file : option string)
  : exn + unit :=
  match file with
  | None => ret tt
  | Some name =>
      if truthy name then
        fold_left (fun acc v => match acc with inl e => inl e | inr _ => v name end) vs (ret tt)
      else ret tt
  end.

(** Sequencing of checks: the first failure is the outcome. *)
Definition and_then (a b : exn + unit) : exn + unit :=
  match a with
  | inl e => inl e
  | inr _ => b
  end.

(** A check passes or raises [ValidationError]. *)
Definition checks (r : exn + unit) : Prop := r = ret tt \/ r = raise ValidationError.

End validators.

(** ** django.db.models.Model *)

Module models.

(** What the framework needs to know of a model class: the primary key
    attribute, the columns declared [unique=True], and the checks that the
    field declarations ask for ([blank], [choices], [validators]). These
    checks are a part of what [Model.clean_fields] runs: the length limits,
    the character set of a slug and the range of a number are not among
    them, so a refusal here is a refusal there, and not the other way
    round. *)
Class Model (M : Type) : Type := {
  pk : M -> option positive;
  set_pk : positive -> M -> M;
  unique_columns : list (M -> string);
  clean_fields : M -> exn + unit
}.

Section Save.
Context {M : Type} `{Model M}.

(** Some row other than [self]'s own holds [self]'s value in the column. *)
Definition taken (col : M -> string) (self : M) (tbl : gmap positive M) : bool :=
  existsb (fun kr => negb (bool_decide (pk self = Some (fst kr)))
                     && String.eqb (col (snd kr)) (col self))
          (map_to_list tbl).

(** [Model.save]: the row is inserted under a fresh key, or written over
    the row of its key; the unique indexes of the table refuse the write
    with [IntegrityError]. No validator runs here. Two things the framework
    does on the way are outside this model: a file column holds the name of
    a stored file, so the commit of a fresh upload (which renames it under
    [upload_to]) has happened before; and the fresh key is any key the table
    does not hold, where the database takes the next of a counter. *)
Definition save (self : M) (tbl : gmap positive M) : M * (exn + gmap positive M) :=
  if existsb (fun col => taken col self tbl) unique_columns
  then (self, raise IntegrityError)
  else
    let id := match pk self with
              | Some k => k
              | None => fresh (dom tbl)
              end in
    let self := set_pk id self in
    (self, ret (<[id := self]> tbl)).

(** The gate of a [ModelForm] (the admin's add and change views and any
    upload form): [is_valid()] cleans the fields of the instance and
    [save()] is reached only when that passed. What is modelled of the form
    is this refusal; after a passed check the row is handed to [save] above,
    without the uniqueness check of the form and without the [save] method
    of the model class. *)
Definition ModelForm_save (self : M) (tbl : gmap positive M)
  : M * (exn + gmap positive M) :=
  match clean_fields self with
  | inl e => (self, raise e)
  | inr _ => save self tbl
  end.

(** The state of a unique index: no two rows agree on the column. *)
Definition distinct_on (col : M -> string) (tbl : gmap positive M) : Prop :=
  forall k1 k2 r1 r2,
    tbl !! k1 = Some r1 -> tbl !! k2 = Some r2 -> col r1 = col r2 -> k1 = k2.

(** The tables that saving and deleting rows can produce. *)
Inductive reachable : gmap positive M -> Prop :=
  | reachable_empty : reachable ∅
  | reachable_save (self self' : M) (tbl tbl' : gmap positive M) :
      reachable tbl -> save self tbl = (self', inr tbl') -> reachable tbl'
  | reachable_delete (k : positive) (tbl : gmap positive M) :
      reachable tbl -> reachable (delete k tbl).

End Save.

(** Setting the primary key sets it and touches no unique column. *)
Class ModelLaws (M : Type) `{Model M} : Prop := {
  pk_set_pk : forall k m, pk (set_pk k m) = Some k;
  unique_set_pk : forall col k m, In col unique_columns -> col (set_pk k m) = col m
}.

End models.

(** [django.urls.reverse]. The URL patterns live in the project's URL
    configuration, which is not part of [models.py]; an address is kept as
    what [reverse] is given, the name of the view and its keyword
    arguments, which the pattern of that name embeds in the path. *)
Record url : Type := Url { view_name : string; kwargs : gmap string string }.

Definition reverse (name : string) (kw : list (string * string)) : url :=
  Url name (dict kw).

(** ** The models

    Each record carries the primary key and the columns that the methods of
    the class, the unique indexes or the field checks below read. Columns
    that none of them reads (images, time stamps, optional long texts,
    durations, the tag relation) and the length limits are left out. *)

Module Event.

Definition STATUS_CHOICES : list (string * string) :=
  [("current", "Предстоящее"); ("past", "Прошедшее")]%string.

Record t : Type := Make {
  id : option positive;
  title : string;
  description : string;
  short_description : string;
  location : string;
  address : string;
  status : string;
  is_active : bool
}.

Definition set_id (k : positive) (self : t) : t :=
  Make (Some k) (title self) (description self) (short_description self)
       (location self) (address self) (status self) (is_active self).

Definition clean_fields (self : t) : exn + unit :=
  validators.and_then (validators.validate None false (title self))
  (validators.and_then (validators.validate None false (description self))
  (validators.and_then (validators.validate None false (short_description self))
  (validators.and_then (validators.validate None false (location self))
  (validators.and_then (validators.validate None false (address self))
                       (validators.validate (Some STATUS_CHOICES) false (status self)))))).

#[global] Instance model : models.Model t := {|
  models.pk := id;
  models.set_pk := set_id;
  models.unique_columns := [];
  models.clean_fields := clean_fields
|}.

Definition is_current (self : t) : bool := String.eqb (status self) "current".

Definition is_past (self : t) : bool := String.eqb (status self) "past".

End Event.

Module MediaPublication.

Definition PUBLICATION_TYPE_CHOICES : list (string * string) :=
  [("article", "Статья"); ("interview", "Интервью"); ("report", "Репортаж");
   ("photo", "Фоторепортаж"); ("video", "Видеоматериал")]%string.

Record t : Type := Make {
  id : option positive;
  title : string;
  slug : string;
  publication_date : date;
  author : string;
  source : string;
  short_description : string;
  publication_type : string;
  is_published : bool
}.

Definition set_id (k : positive) (self : t) : t :=
  Make (Some k) (title self) (slug self) (publication_date self) (author self)
       (source self) (short_description self) (publication_type self) (is_published self).

Definition set_slug (s : string) (self : t) : t :=
  Make (id self) (title self) s (publication_date self) (author self)
       (source self) (short_description self) (publication_type self) (is_published self).

Definition set_title (s : string) (self : t) : t :=
  Make (id self) s (slug self) (publication_date self) (author self)
       (source self) (short_description self) (publication_type self) (is_published self).

Definition clean_fields (self : t) : exn + unit :=
  validators.and_then (validators.validate None false (title self))
  (validators.and_then (validators.validate None true (slug self))
  (validators.and_then (validators.validate None true (author self))
  (validators.and_then (validators.validate None false (source self))
  (validators.and_then (validators.validate None false (short_description self))
     (validators.validate (Some PUBLICATION_TYPE_CHOICES) false (publication_type self)))))).

#[global] Instance model : models.Model t := {|
  models.pk := id;
  models.set_pk := set_id;
  models.unique_columns := [slug];
  models.clean_fields := clean_fields
|}.

(** [if not self.slug: self.slug = slugify(self.title)] and then
    [super().save()] *)
Definition save (self : t) (tbl : gmap positive t) : t * (exn + gmap positive t) :=
  let self := if negb (truthy (slug self)) then set_slug (text.slugify (title self)) self
              else self in
  models.save self tbl.

Definition get_absolute_url (self : t) : url :=
  reverse "media_detail" [("slug", slug self)]%string.

Definition months : gmap N string :=
  dict [(1, "января"); (2, "февраля"); (3, "марта"); (4, "апреля");
        (5, "мая"); (6, "июня"); (7, "июля"); (8, "августа");
        (9, "сентября"); (10, "октября"); (11, "ноября"); (12, "декабря")]%string.

(** [f"{d.day} {months[d.month]} {d.year}"] *)
Definition formatted_date (self : t) : exn + string :=
  match dict_item months (month (publication_date self)) with
  | inl e => inl e
  | inr name =>
      ret (str_of_int (day (publication_date self)) +:+ " " +:+ name +:+ " "
           +:+ str_of_int (year (publication_date self)))
  end.

End MediaPublication.

Module Project.

Definition STATUS_CHOICES : list (string * string) :=
  [("current", "Текущий проект"); ("completed", "Завершен"); ("permanent", "Постоянный")]%string.

Record t : Type := Make {
  id : option positive;
  title : string;
  slug : string;
  short_description : string;
  status : string;
  start_date : option date;
  end_date : option date;
  location : string;
  is_featured : bool
}.

Definition set_id (k : positive) (self : t) : t :=
  Make (Some k) (title self) (slug self) (short_description self) (status self)
       (start_date self) (end_date self) (location self) (is_featured self).

Definition set_slug (s : string) (self : t) : t :=
  Make (id self) (title self) s (short_description self) (status self)
       (start_date self) (end_date self) (location self) (is_featured self).

Definition set_title (s : string) (self : t) : t :=
  Make (id self) s (slug self) (short_description self) (status self)
       (start_date self) (end_date self) (location self) (is_featured self).

Definition clean_fields (self : t) : exn + unit :=
  validators.and_then (validators.validate None false (title self))
  (validators.and_then (validators.validate None true (slug self))
  (validators.and_then (validators.validate None false (short_description self))
  (validators.and_then (validators.validate (Some STATUS_CHOICES) false (status self))
                       (validators.validate None false (location self))))).

#[global] Instance model : models.Model t := {|
  models.pk := id;
  models.set_pk := set_id;
  models.unique_columns := [slug];
  models.clean_fields := clean_fields
|}.

Definition save (self : t) (tbl : gmap positive t) : t * (exn + gmap positive t) :=
  let self := if negb (truthy (slug self)) then set_slug (text.slugify (title self)) self
              else self in
  models.save self tbl.

Definition get_absolute_url (self : t) : url :=
  reverse "project_detail" [("slug", slug self)]%string.

(** [d.year] of an attribute that may hold [None]. *)
Definition year_of (d : option date) : exn + N :=
  match d with
  | Some d => ret (year d)
  | None => raise AttributeError
  end.

(** Truthiness of an optional date: only [None] is falsy. *)
Definition given (d : option date) : bool :=
  match d with
  | Some _ => true
  | None => false
  end.

Definition duration (self : t) : exn + string :=
  if String.eqb (status self) "permanent" then
    match year_of (start_date self) with
    | inl e => inl e
    | inr y => ret ("С " +:+ str_of_int y +:+ " года")
    end
  else if String.eqb (status self) "completed" && given (start_date self)
          && given (end_date self) then
    match year_of (start_date self), year_of (end_date self) with
    | inr y1, inr y2 => ret (str_of_int y1 +:+ "-" +:+ str_of_int y2)
    | inl e, _ => inl e
    | _, inl e => inl e
    end
  else if given (start_date self) then
    match year_of (start_date self) with
    | inl e => inl e
    | inr y => ret ("С " +:+ str_of_int y)
    end
  else ret EmptyString.

(** [dict(self.STATUS_CHOICES).get(self.status, '')] *)
Definition status_label (self : t) : string :=
  dict_get (dict STATUS_CHOICES) (status self) EmptyString.

End Project.

Module InterestingBase.

(** The columns of the abstract base class. *)
Record fields : Type := Fields {
  id : option positive;
  title : string;
  slug : string;
  description : string;
  is_published : bool;
  views : N
}.

Definition fields_set_id (k : positive) (b : fields) : fields :=
  Fields (Some k) (title b) (slug b) (description b) (is_published b) (views b).

Definition fields_set_slug (s : string) (b : fields) : fields :=
  Fields (id b) (title b) s (description b) (is_published b) (views b).

Definition fields_set_title (s : string) (b : fields) : fields :=
  Fields (id b) s (slug b) (description b) (is_published b) (views b).

Definition clean_base (b : fields) : exn + unit :=
  validators.and_then (validators.validate None false (title b))
  (validators.and_then (validators.validate None true (slug b))
                       (validators.validate None false (description b))).

(** A concrete subclass: its inherited columns, its own field checks and
    its [type] property. Each subclass has a table of its own. *)
Class Variant (M : Type) : Type := {
  base : M -> fields;
  set_base : fields -> M -> M;
  clean_own : M -> exn + unit;
  type : M -> string
}.

Section Methods.
Context {M : Type} `{Variant M}.

Definition set_slug (s : string) (self : M) : M := set_base (fields_set_slug s (base self)) self.

Definition set_title (s : string) (self : M) : M := set_base (fields_set_title s (base self)) self.

#[global] Instance model : models.Model M := {|
  models.pk := fun self => id (base self);
  models.set_pk := fun k self => set_base (fields_set_id k (base self)) self;
  models.unique_columns := [fun self => slug (base self)];
  models.clean_fields := fun self => validators.and_then (clean_base (base self)) (clean_own self)
|}.

Definition save (self : M) (tbl : gmap positive M) : M * (exn + gmap positive M) :=
  let self := if negb (truthy (slug (base self)))
              then set_slug (text.slugify (title (base self))) self
              else self in
  models.save self tbl.

Definition get_absolute_url (self : M) : url :=
  reverse "interesting_detail" [("slug", slug (base self)); ("type", type self)]%string.

End Methods.

End InterestingBase.

Module Video.

(** [video_file] is the name of the stored file, [None] when there is
    none. *)
Record t : Type := Make {
  base : InterestingBase.fields;
  video_file : option string
}.

(** The inherited attributes. *)
Definition title (self : t) : string := InterestingBase.title (base self).

Definition slug (self : t) : string := InterestingBase.slug (base self).

Definition type (self : t) : string := "video".

Definition clean_own (self : t) : exn + unit :=
  validators.run_validators
    [validators.FileExtensionValidator ["mp4"; "mov"; "avi"]%string] (video_file self).

#[global] Instance variant : InterestingBase.Variant t := {|
  InterestingBase.base := base;
  InterestingBase.set_base := fun b self => Make b (video_file self);
  InterestingBase.clean_own := clean_own;
  InterestingBase.type := type
|}.

End Video.

Module Music.

(** [audio_file] is the name of the stored file, [None] when there is
    none. *)
Record t : Type := Make {
  base : InterestingBase.fields;
  audio_file : option string;
  artist : string
}.

(** The inherited attributes. *)
Definition title (self : t) : string := InterestingBase.title (base self).

Definition slug (self : t) : string := InterestingBase.slug (base self).

Definition type (self : t) : string := "music".

Definition clean_own (self : t) : exn + unit :=
  validators.and_then
    (validators.run_validators
       [validators.FileExtensionValidator ["mp3"; "wav"]%string] (audio_file self))
    (validators.validate None true (artist self)).

#[global] Instance variant : InterestingBase.Variant t := {|
  InterestingBase.base := base;
  InterestingBase.set_base := fun b self => Make b (audio_file self) (artist self);
  InterestingBase.clean_own := clean_own;
  InterestingBase.type := type
|}.

End Music.

Module Article.

Record t : Type := Make {
  base : InterestingBase.fields;
  content : string;
  author : string;
  reading_time : N
}.

(** The inherited attributes. *)
Definition title (self : t) : string := InterestingBase.title (base self).

Definition slug (self : t) : string := InterestingBase.slug (base self).

Definition type (self : t) : string := "article".

Definition clean_own (self : t) : exn + unit :=
  validators.and_then (validators.validate None false (content self))
                      (validators.validate None false (author self)).

#[global] Instance variant : InterestingBase.Variant t := {|
  InterestingBase.base := base;
  InterestingBase.set_base := fun b self => Make b (content self) (author self) (reading_time self);
  InterestingBase.clean_own := clean_own;
  InterestingBase.type := type
|}.

End Article.

Module InterestingTag.

Record t : Type := Make {
  id : option positive;
  name : string;
  slug : string
}.

Definition set_id (k : positive) (self : t) : t := Make (Some k) (name self) (slug self).

Definition set_slug (s : string) (self : t) : t := Make (id self) (name self) s.

Definition set_name (s : string) (self : t) : t := Make (id self) s (slug self).

(** The slug column of a tag is not declared [blank=True]. *)
Definition clean_fields (self : t) : exn + unit :=
  validators.and_then (validators.validate None false (name self))
                      (validators.validate None false (slug self)).

#[global] Instance model : models.Model t := {|
  models.pk := id;
  models.set_pk := set_id;
  models.unique_columns := [name; slug];
  models.clean_fields := clean_fields
|}.

Definition save (self : t) (tbl : gmap positive t) : t * (exn + gmap positive t) :=
  let self := if negb (truthy (slug self)) then set_slug (text.slugify (name self)) self
              else self in
  models.save self tbl.

End InterestingTag.

(** The store: one table per concrete model. *)
Record database : Type := Database {
  events : gmap positive Event.t;
  media_publications : gmap positive MediaPublication.t;
  projects : gmap positive Project.t;
  videos : gmap positive Video.t;
  musics : gmap positive Music.t;
  articles : gmap positive Article.t;
  tags : gmap positive InterestingTag.t
}.

(** A write goes to the table of the model of the instance; the subclasses
    of the abstract base each have their own. *)
Definition save_video (self : Video.t) (db : database) : Video.t * (exn + database) :=
  match InterestingBase.save self (videos db) with
  | (self, inl e) => (self, inl e)
  | (self, inr tbl) =>
      (self, inr (Database (events db) (media_publications db) (projects db) tbl
                           (musics db) (articles db) (tags db)))
  end.

Definition save_music (self : Music.t) (db : database) : Music.t * (exn + database) :=
  match InterestingBase.save self (musics db) with
  | (self, inl e) => (self, inl e)
  | (self, inr tbl) =>
      (self, inr (Database (events db) (media_publications db) (projects db) (videos db)
                           tbl (articles db) (tags db)))
  end.

Definition save_article (self : Article.t) (db : database) : Article.t * (exn + database) :=
  match InterestingBase.save self (articles db) with
  | (self, inl e) => (self, inl e)
  | (self, inr tbl) =>
      (self, inr (Database (events db) (media_publications db) (projects db) (videos db)
                           (musics db) tbl (tags db)))
  end.

(** ** Statements about a model with a slug

    [title], [slug] and [set_title] are the attributes of the model and
    [save] its [save] method; a table of the model maps keys to rows. *)

Section SlugStatements.

Context {M : Type} `{models.Model M}.
Variables (title slug : M -> string) (set_title : string -> M -> M).
Variable save : M -> gmap positive M -> M * (exn + gmap positive M).

(** An empty slug becomes the slug of the title, a slug that is set
    survives a later save under another title, and a write that succeeds
    stores the instance as [save] left it. *)
Definition slug_set_once : Prop :=
  (forall self tbl, slug self = EmptyString ->
     slug (fst (save self tbl)) = text.slugify (title self))
  /\ (forall self tbl t, slug self <> EmptyString ->
        slug (fst (save (set_title t self) tbl)) = slug self)
  /\ (forall self tbl self' tbl', save self tbl = (self', inr tbl') ->
        exists k, tbl' !! k = Some self').

(** The slug an instance is written with duplicates that of another row:
    the outcome is [IntegrityError], and the instance keeps exactly that
    slug. *)
Definition duplicate_slug_rejected : Prop :=
  forall self tbl k row,
    tbl !! k = Some row -> models.pk self <> Some k ->
    slug row = (if truthy (slug self) then slug self else text.slugify (title self)) ->
    snd (save self tbl) = raise IntegrityError
    /\ slug (fst (save self tbl)) = slug row.

(** A title without a slug of its own leaves the slug empty, the next
    save derives it afresh from the title of that moment, and of two new
    instances of this kind the table takes only one. *)
Definition empty_slug_not_kept : Prop :=
  (forall self tbl, slug self = EmptyString -> text.slugify (title self) = EmptyString ->
     slug (fst (save self tbl)) = EmptyString
     /\ forall t tbl',
          slug (fst (save (set_title t (fst (save self tbl))) tbl')) = text.slugify t)
  /\ (forall a b tbl a' tbl',
        slug a = EmptyString -> text.slugify (title a) = EmptyString ->
        slug b = EmptyString -> text.slugify (title b) = EmptyString ->
        models.pk b = None ->
        save a tbl = (a', inr tbl') ->
        snd (save b tbl') = raise IntegrityError).

End SlugStatements.

(** ** Sample records *)

Definition project (status : string) (start_date end_date : option date) : Project.t :=
  Project.Make None "Школа искусств" "" "Занятия для детей" status start_date end_date
               "Астана" false.


Definition publication (d : date) : MediaPublication.t :=
  MediaPublication.Make None "Открытие сезона" "" d "Редакция" "Вечерняя Астана"
                        "Фонд открыл новый сезон" "article" true.

Definition video (title slug : string) (file : option string) : Video.t :=
  Video.Make (InterestingBase.Fields None title slug "Запись концерта" true 0) file.


Definition article (title slug : string) : Article.t :=
  Article.Make (InterestingBase.Fields None title slug "Заметка" true 0) "Текст" "Редакция" 5.

Definition titled_publication (title slug : string) : MediaPublication.t :=
  MediaPublication.Make None title slug (Date 2024 11 21) "Редакция" "Вечерняя Астана"
                        "Фонд открыл новый сезон" "article" true.

Definition empty_database : database := Database ∅ ∅ ∅ ∅ ∅ ∅ ∅.

Definition event (status : string) : Event.t :=
  Event.Make None "День открытых дверей" "Встреча с попечителями" "Встреча" "Астана"
             "пр. Республики, 1" status true.

Definition tag (name slug : string) : InterestingTag.t := InterestingTag.Make None name slug.

(** ** Statements about saving *)

Section SaveStatements.

Context {M : Type} `{models.Model M}.
Variables (slug : M -> string) (set_title : string -> M -> M).
Variable save : M -> gmap positive M -> M * (exn + gmap positive M).

(** Saving what a successful save returned, into the table it returned,
    changes neither. *)
Definition resave_is_noop : Prop :=
  forall self tbl r tbl',
    save self tbl = (r, inr tbl') -> save r tbl' = (r, inr tbl').

(** A successful save writes the row of the instance and no other; a new
    instance takes a key that was free. *)
Definition save_writes_own_row : Prop :=
  forall self tbl r tbl',
    save self tbl = (r, inr tbl') ->
    exists id,
      models.pk r = Some id
      /\ tbl' !! id = Some r
      /\ (forall k, k <> id -> tbl' !! k = tbl !! k)
      /\ (models.pk self = None -> tbl !! id = None)
      /\ (forall k, models.pk self = Some k -> k = id).

(** The instance is given new titles and saved, one step after the other,
    each time against whatever table there is. *)
Definition rename_and_save (steps : list (string * gmap positive M)) (self : M) : M :=
  fold_left (fun e step => fst (save (set_title (fst step) e) (snd step))) steps self.

Definition slug_survives_renames : Prop :=
  forall self steps,
    slug self <> EmptyString -> slug (rename_and_save steps self) = slug self.

End SaveStatements.

(** ** Statements about the slug of a title *)

Section TitleStatements.

Context {M : Type}.
Variables (title slug : M -> string).
Variable save : M -> gmap positive M -> M * (exn + gmap positive M).

(** A title with an ASCII letter or digit in it gives the instance a slug
    at its first save. *)
Definition ascii_title_gets_slug : Prop :=
  forall self tbl c,
    slug self = EmptyString ->
    In c (text.code_points (title self)) -> text.is_alnum c = true ->
    slug (fst (save self tbl)) <> EmptyString.

End TitleStatements.

(** ** Statements about addresses *)

Section TableStatements.

Context {M : Type} `{models.Model M}.

(** Within a table that saves and deletes can produce, the address tells
    the rows apart. *)
Definition address_identifies_row (address : M -> url) : Prop :=
  forall tbl k1 k2 r1 r2,
    models.reachable tbl -> tbl !! k1 = Some r1 -> tbl !! k2 = Some r2 ->
    address r1 = address r2 -> k1 = k2.

End TableStatements.
(** * Properties *)

(** ** Dictionaries *)

Lemma dict_snoc {K V : Type} `{Countable K} (pairs : list (K * V)) (k : K) (v : V) :
  dict (pairs ++ [(k, v)]) = <[k := v]> (dict pairs).
Proof. unfold dict. rewrite fold_left_app. reflexivity. Qed.

Lemma dict_lookup_absent {K V : Type} `{Countable K} (pairs : list (K * V)) (k : K) :
  ~ In k (map fst pairs) -> dict pairs !! k = None.
Proof.
  induction pairs as [|[k' v'] pairs IH] using rev_ind; intros Hk.
  - apply lookup_empty.
  - rewrite dict_snoc. rewrite map_app, in_app_iff in Hk. simpl in Hk.
    rewrite lookup_insert_ne; [apply IH; tauto | intros ->; tauto].
Qed.

(** ** Project.duration *)

Lemma duration_permanent (p : Project.t) (d : date) :
  Project.status p = "permanent"%string -> Project.start_date p = Some d ->
  Project.duration p = ret ("С " +:+ str_of_int (year d) +:+ " года").
Proof. intros Hs Hd. unfold Project.duration. rewrite Hs, Hd. reflexivity. Qed.

Lemma duration_permanent_no_start (p : Project.t) :
  Project.status p = "permanent"%string -> Project.start_date p = None ->
  Project.duration p = raise AttributeError.
Proof. intros Hs Hd. unfold Project.duration. rewrite Hs, Hd. reflexivity. Qed.

Lemma duration_other (p : Project.t) :
  Project.status p <> "permanent"%string ->
  Project.duration p =
    match Project.start_date p, Project.end_date p with
    | Some s, Some e =>
        if String.eqb (Project.status p) "completed"
        then ret (str_of_int (year s) +:+ "-" +:+ str_of_int (year e))
        else ret ("С " +:+ str_of_int (year s))
    | Some s, None => ret ("С " +:+ str_of_int (year s))
    | None, _ => ret EmptyString
    end.
Proof.
  intros Hs. unfold Project.duration.
  destruct (String.eqb_spec (Project.status p) "permanent") as [E|_]; [contradiction|].
  destruct (Project.start_date p) as [s|], (Project.end_date p) as [e|],
    (String.eqb (Project.status p) "completed"); reflexivity.
Qed.

Example duration_permanent_2010 :
  Project.duration (project "permanent" (Some (Date 2010 9 1)) None) = ret "С 2010 года"%string.
Proof. reflexivity. Qed.

Example duration_completed_2015_2020 :
  Project.duration (project "completed" (Some (Date 2015 3 1)) (Some (Date 2020 12 31)))
  = ret "2015-2020"%string.
Proof. reflexivity. Qed.

Example duration_current_2022 :
  Project.duration (project "current" (Some (Date 2022 1 15)) None) = ret "С 2022"%string.
Proof. reflexivity. Qed.

Example duration_current_no_start :
  Project.duration (project "current" None None) = ret ""%string.
Proof. reflexivity. Qed.

(** C2 (as amended). [Project.duration] returns ["С <start-year> года"] for a
    permanent project that has a start date; for every other status it
    returns ["<start-year>-<end-year>"] when the status is completed and both
    dates are present, ["С <start-year>"] in every other case in which the
    start date is present (whether or not an end date is), and the empty
    string when there is no start date. *)
Theorem duration_by_cases (p : Project.t) :
  (forall d, Project.status p = "permanent"%string -> Project.start_date p = Some d ->
     Project.duration p = ret ("С " +:+ str_of_int (year d) +:+ " года"))
  /\ (forall s e, Project.status p = "completed"%string ->
        Project.start_date p = Some s -> Project.end_date p = Some e ->
        Project.duration p = ret (str_of_int (year s) +:+ "-" +:+ str_of_int (year e)))
  /\ (forall s, Project.status p <> "permanent"%string ->
        Project.start_date p = Some s ->
        Project.status p <> "completed"%string \/ Project.end_date p = None ->
        Project.duration p = ret ("С " +:+ str_of_int (year s)))
  /\ (Project.status p <> "permanent"%string -> Project.start_date p = None ->
        Project.duration p = ret EmptyString).
Proof.
  repeat split.
  - intros d. apply duration_permanent.
  - intros s e Hs Hd He. rewrite duration_other by (rewrite Hs; discriminate).
    rewrite Hd, He, Hs. reflexivity.
  - intros s Hs Hd Hc. rewrite duration_other by assumption. rewrite Hd.
    destruct (Project.end_date p) as [e|]; [|reflexivity].
    destruct (String.eqb_spec (Project.status p) "completed") as [E|_]; [|reflexivity].
    destruct Hc as [Hc|Hc]; [contradiction | discriminate].
  - intros Hs Hd. rewrite duration_other by assumption. rewrite Hd. reflexivity.
Qed.

Lemma duration_by_cases_witness :
  Project.duration (project "permanent" (Some (Date 2010 9 1)) None) = ret "С 2010 года"%string
  /\ Project.duration (project "completed" (Some (Date 2015 3 1)) (Some (Date 2020 12 31)))
     = ret "2015-2020"%string
  /\ Project.duration (project "current" (Some (Date 2015 3 1)) (Some (Date 2020 12 31)))
     = ret "С 2015"%string
  /\ Project.duration (project "current" None (Some (Date 2020 12 31))) = ret ""%string.
Proof.
  split; [|split; [|split]].
  - apply (proj1 (duration_by_cases (project "permanent" (Some (Date 2010 9 1)) None))
             (Date 2010 9 1)); reflexivity.
  - apply (proj1 (proj2 (duration_by_cases
             (project "completed" (Some (Date 2015 3 1)) (Some (Date 2020 12 31)))))
             (Date 2015 3 1) (Date 2020 12 31)); reflexivity.
  - apply (proj1 (proj2 (proj2 (duration_by_cases
             (project "current" (Some (Date 2015 3 1)) (Some (Date 2020 12 31))))))
             (Date 2015 3 1)); [discriminate | reflexivity | left; discriminate].
  - apply (proj2 (proj2 (proj2 (duration_by_cases
             (project "current" None (Some (Date 2020 12 31))))))); [discriminate | reflexivity].
Defined.

(** C2 as stated fails twice. A current project with both dates is not in
    any of the three named cases, yet the label is not empty; and a permanent
    project without a start date gets no label at all: the attribute access
    on [None] raises. *)
Lemma duration_counterexample :
  Project.duration (project "current" (Some (Date 2015 3 1)) (Some (Date 2020 12 31)))
    <> ret ""%string
  /\ Project.duration (project "permanent" None None) = raise AttributeError.
Proof. split; [discriminate | reflexivity]. Qed.

(** ** MediaPublication.formatted_date *)


Lemma months_lookup (m : N) :
  1 <= m <= 12 -> exists name, MediaPublication.months !! m = Some name.
Proof.
  intros Hm.
  assert (Hcases : In m [1; 2; 3; 4; 5; 6; 7; 8; 9; 10; 11; 12]).
  { simpl. lia. }
  simpl in Hcases.
  repeat (destruct Hcases as [<-|Hcases]; [eexists; vm_compute; reflexivity|]).
  contradiction.
Qed.



(** ** Project.status_label *)

(** C9. [status_label] is the label that [STATUS_CHOICES] pairs with the
    status of the project, and the empty string for a status that is not a
    key of the table. *)
Theorem status_label_spec (p : Project.t) :
  (Project.status p = "current"%string -> Project.status_label p = "Текущий проект"%string)
  /\ (Project.status p = "completed"%string -> Project.status_label p = "Завершен"%string)
  /\ (Project.status p = "permanent"%string -> Project.status_label p = "Постоянный"%string)
  /\ (forall label, In (Project.status p, label) Project.STATUS_CHOICES ->
        Project.status_label p = label)
  /\ (~ In (Project.status p) (map fst Project.STATUS_CHOICES) ->
        Project.status_label p = EmptyString).
Proof.
  unfold Project.status_label, dict_get.
  split; [|split; [|split; [|split]]].
  - intros ->. vm_compute. reflexivity.
  - intros ->. vm_compute. reflexivity.
  - intros ->. vm_compute. reflexivity.
  - intros label Hin. simpl in Hin.
    destruct Hin as [E|[E|[E|[]]]]; inversion E as [[Hs Hl]]; vm_compute; reflexivity.
  - intros Hno. rewrite dict_lookup_absent by exact Hno. reflexivity.
Qed.

Lemma status_label_spec_witness :
  Project.status_label (project "current" None None) = "Текущий проект"%string
  /\ Project.status_label (project "completed" None None) = "Завершен"%string
  /\ Project.status_label (project "permanent" None None) = "Постоянный"%string
  /\ Project.status_label (project "archived" None None) = ""%string.
Proof.
  split; [|split; [|split]].
  - apply (proj1 (status_label_spec (project "current" None None))). reflexivity.
  - apply (proj1 (proj2 (status_label_spec (project "completed" None None)))). reflexivity.
  - apply (proj1 (proj2 (proj2 (status_label_spec (project "permanent" None None))))).
    reflexivity.
  - apply (proj2 (proj2 (proj2 (proj2 (status_label_spec (project "archived" None None)))))).
    simpl. intros [H|[H|[H|[]]]]; discriminate H.
Defined.

(** ** slugify *)

Ltac bool_to_prop :=
  repeat first
    [ rewrite orb_true_iff in * | rewrite andb_true_iff in *
    | rewrite orb_false_iff in * | rewrite andb_false_iff in *
    | rewrite negb_true_iff in * | rewrite negb_false_iff in *
    | rewrite N.leb_le in * | rewrite N.leb_gt in *
    | rewrite N.ltb_lt in * | rewrite N.ltb_ge in *
    | rewrite N.eqb_eq in * | rewrite N.eqb_neq in * ].

Ltac char_lia :=
  unfold text.slug_char, text.is_alnum, text.is_word, text.is_sep, text.is_space,
    text.is_lower, text.is_upper, text.is_digit, text.is_ascii, text.lower_char,
    text.hyphen, text.underscore in *;
  bool_to_prop; lia.

Section SlugifyShape.

Import text.

Lemma ascii_roundtrip (n : N) : n < 256 -> N_of_ascii (ascii_of_N n) = n.
Proof. intros Hn. apply N_ascii_embedding. exact Hn. Qed.

Lemma bytes_of_bytes (l : list N) :
  Forall (fun c => c < 256) l -> bytes (of_bytes l) = l.
Proof.
  intros Hl. unfold bytes, of_bytes. rewrite list_ascii_of_string_of_list_ascii.
  induction Hl as [|c l Hc _ IH]; simpl; [reflexivity|].
  rewrite ascii_roundtrip by exact Hc. rewrite IH. reflexivity.
Qed.

Lemma lower_char_not_upper (c : N) : is_upper (lower_char c) = false.
Proof.
  unfold lower_char. destruct (is_upper c) eqn:E; [|exact E].
  unfold is_upper in *. apply andb_true_iff in E. destruct E as [E _].
  apply N.leb_le in E. apply andb_false_iff. right. apply N.leb_gt. lia.
Qed.

(** What survives the first substitution is a slug character or a
    separator. *)
Lemma drop_other_chars (cs : list N) :
  Forall (fun c => slug_char c = true \/ is_sep c = true) (drop_other (map lower_char cs)).
Proof.
  apply List.Forall_forall. intros c Hc. unfold drop_other in Hc.
  apply List.filter_In in Hc. destruct Hc as [Hin Hkeep].
  apply in_map_iff in Hin. destruct Hin as (c' & <- & _).
  pose proof (lower_char_not_upper c') as Hup.
  unfold slug_char, is_sep, is_word in *.
  destruct (is_lower (lower_char c')), (is_digit (lower_char c')),
    (lower_char c' =? hyphen), (lower_char c' =? underscore), (is_space (lower_char c'));
    simpl in *; rewrite ?Hup in *; simpl in *; auto; discriminate.
Qed.

Lemma squeeze_chars (b : bool) (cs : list N) :
  Forall (fun c => slug_char c = true \/ is_sep c = true) cs ->
  Forall (fun c => slug_char c = true) (squeeze b cs).
Proof.
  intros Hcs. revert b. induction Hcs as [|c cs Hc _ IH]; intros b; simpl; [constructor|].
  destruct (is_sep c) eqn:Hsep.
  - destruct b; [apply IH|]. constructor; [reflexivity | apply IH].
  - constructor; [|apply IH]. destruct Hc as [Hc|Hc]; [exact Hc | discriminate Hc].
Qed.

(** Inside a run [squeeze] emits nothing until it meets a character that
    is not a separator, so its output does not start with a hyphen. *)
Lemma squeeze_in_run_head (cs : list N) :
  Forall (fun c => slug_char c = true \/ is_sep c = true) cs ->
  head (squeeze true cs) <> Some hyphen.
Proof.
  induction 1 as [|c cs Hc _ IH]; simpl; [discriminate|].
  destruct (is_sep c) eqn:Hsep; [exact IH|].
  simpl. intros [= ->]. discriminate Hsep.
Qed.

Lemma no_double_hyphen_cons (c : N) (l : list N) :
  (c = hyphen -> head l <> Some hyphen) -> no_double_hyphen l -> no_double_hyphen (c :: l).
Proof.
  intros Hhead Hl l1 l2 E. destruct l1 as [|x l1]; simpl in E.
  - injection E as -> ->. apply Hhead; reflexivity.
  - injection E as -> ->. apply (Hl l1 l2). reflexivity.
Qed.

Lemma squeeze_no_double (b : bool) (cs : list N) :
  Forall (fun c => slug_char c = true \/ is_sep c = true) cs ->
  no_double_hyphen (squeeze b cs).
Proof.
  intros Hcs. revert b. induction Hcs as [|c cs Hc Hcs IH]; intros b; simpl.
  - intros [|? [|? ?]] l2; discriminate.
  - destruct (is_sep c) eqn:Hsep.
    + destruct b; [apply IH|].
      apply no_double_hyphen_cons; [|apply IH].
      intros _. apply squeeze_in_run_head. exact Hcs.
    + apply no_double_hyphen_cons; [|apply IH].
      intros ->. discriminate Hsep.
Qed.

(** [lstrip] keeps a suffix, [rstrip] a prefix. *)
Lemma lstrip_suffix (chars cs : list N) : exists p, cs = p ++ lstrip chars cs.
Proof.
  induction cs as [|c cs [p IH]]; simpl; [exists []; reflexivity|].
  destruct (in_chars chars c).
  - exists (c :: p). simpl. f_equal. exact IH.
  - exists []. reflexivity.
Qed.

Lemma rstrip_prefix (chars cs : list N) : exists s, cs = rstrip chars cs ++ s.
Proof.
  unfold rstrip. destruct (lstrip_suffix chars (rev cs)) as [p Hp].
  exists (rev p). rewrite <- rev_app_distr, <- Hp, rev_involutive. reflexivity.
Qed.

Lemma strip_infix (chars cs : list N) : exists p s, cs = p ++ strip chars cs ++ s.
Proof.
  unfold strip. destruct (lstrip_suffix chars cs) as [p Hp].
  destruct (rstrip_prefix chars (lstrip chars cs)) as [s Hs].
  exists p, s. rewrite <- Hs. exact Hp.
Qed.

Lemma lstrip_head (chars cs : list N) (c : N) :
  head (lstrip chars cs) = Some c -> in_chars chars c = false.
Proof.
  induction cs as [|x cs IH]; simpl; [discriminate|].
  destruct (in_chars chars x) eqn:Hx; [exact IH|].
  simpl. intros [= <-]. exact Hx.
Qed.

Lemma head_rev {A : Type} (l : list A) : head (rev l) = last l.
Proof.
  induction l as [|x l IH] using rev_ind; [reflexivity|].
  rewrite rev_app_distr, last_snoc. reflexivity.
Qed.

Lemma strip_last (chars cs : list N) (c : N) :
  last (strip chars cs) = Some c -> in_chars chars c = false.
Proof.
  unfold strip, rstrip. rewrite <- head_rev, rev_involutive. apply lstrip_head.
Qed.

Lemma strip_head (chars cs : list N) (c : N) :
  head (strip chars cs) = Some c -> in_chars chars c = false.
Proof.
  intros Hc. unfold strip in Hc.
  destruct (rstrip_prefix chars (lstrip chars cs)) as [s Hs].
  apply (lstrip_head chars cs). rewrite Hs.
  destruct (rstrip chars (lstrip chars cs)); [discriminate | exact Hc].
Qed.

Variable decomposition : N -> list N.

Lemma slugify_chars_shape (cs : list N) :
  let slug := slugify_chars decomposition cs in
  Forall (fun c => slug_char c = true) slug
  /\ no_double_hyphen slug
  /\ (forall c, head slug = Some c \/ last slug = Some c -> c <> hyphen /\ c <> underscore).
Proof.
  intros slug. subst slug. unfold slugify_chars.
  set (value := drop_other _).
  assert (Hvalue : Forall (fun c => slug_char c = true \/ is_sep c = true) value)
    by apply drop_other_chars.
  destruct (strip_infix [hyphen; underscore] (squeeze false value)) as (p & s & Hps).
  split; [|split].
  - pose proof (squeeze_chars false value Hvalue) as Hall.
    rewrite Hps in Hall. apply Forall_app in Hall. destruct Hall as [_ Hall].
    apply Forall_app in Hall. tauto.
  - intros l1 l2 E.
    apply (squeeze_no_double false value Hvalue (p ++ l1) (l2 ++ s)).
    rewrite Hps at 1. rewrite E. rewrite <- !app_assoc. reflexivity.
  - intros c Hc.
    assert (Hnot : in_chars [hyphen; underscore] c = false).
    { destruct Hc as [Hc|Hc]; [apply (strip_head _ _ _ Hc) | apply (strip_last _ _ _ Hc)]. }
    unfold in_chars in Hnot. simpl in Hnot.
    split; intros ->; discriminate Hnot.
Qed.

End SlugifyShape.

Lemma slug_char_byte (c : N) : text.slug_char c = true -> c < 256.
Proof.
  unfold text.slug_char, text.is_lower, text.is_digit, text.hyphen, text.underscore.
  intros H.
  repeat (apply orb_true_iff in H; destruct H as [H|H]);
    try (apply andb_true_iff in H; destruct H as [_ H]; apply N.leb_le in H; lia);
    apply N.eqb_eq in H; lia.
Qed.

(** No character of the Cyrillic blocks is ASCII or decomposes into
    anything ASCII. *)
Lemma cyrillic_has_no_ascii (c : N) :
  text.is_cyrillic c = true ->
  text.is_ascii c = false
  /\ List.filter text.is_ascii (text.unicodedata_decomposition c) = [].
Proof.
  intros Hc.
  assert (Hall : forallb (fun c => negb (text.is_ascii c)
                   && match List.filter text.is_ascii (text.unicodedata_decomposition c) with
                      | [] => true
                      | _ :: _ => false
                      end)
                   (map N.of_nat (seq 1024 304)) = true) by (vm_compute; reflexivity).
  rewrite forallb_forall in Hall. specialize (Hall c).
  unfold text.is_cyrillic in Hc. apply andb_true_iff in Hc. destruct Hc as [Hlo Hhi].
  apply N.leb_le in Hlo. apply N.ltb_lt in Hhi.
  assert (Hin : In c (map N.of_nat (seq 1024 304))).
  { apply in_map_iff. exists (N.to_nat c). split; [apply N2Nat.id|]. apply in_seq. lia. }
  specialize (Hall Hin). apply andb_true_iff in Hall. destruct Hall as [Ha Hd].
  split; [apply negb_true_iff; exact Ha|].
  destruct (List.filter text.is_ascii (text.unicodedata_decomposition c));
    [reflexivity | discriminate Hd].
Qed.



Example slugify_privet : text.slugify "Привет" = ""%string.
Proof. vm_compute. reflexivity. Qed.

Example slugify_hello_world : text.slugify "Hello, World!" = "hello-world"%string.
Proof. vm_compute. reflexivity. Qed.

Example slugify_cafe : text.slugify "  --Café  au__lait-- " = "cafe-au__lait"%string.
Proof. vm_compute. reflexivity. Qed.

Example slugify_mixed : text.slugify "Фонд Astana 2024" = "astana-2024"%string.
Proof. vm_compute. reflexivity. Qed.

Example slugify_punctuation : text.slugify "!!!" = ""%string.
Proof. vm_compute. reflexivity. Qed.

(** *** What the slug keeps of the title *)











Example slugify_e_acute : text.slugify "é" = "e"%string.
Proof. vm_compute. reflexivity. Qed.

Example slugify_numero : text.slugify "№ 5" = "no-5"%string.
Proof. vm_compute. reflexivity. Qed.

Example slugify_r_caron : text.slugify "Dvořák" = "dvorak"%string.
Proof. vm_compute. reflexivity. Qed.

Example slugify_fullwidth : text.slugify "１２３" = "123"%string.
Proof. vm_compute. reflexivity. Qed.




(** ** Model.save and the unique indexes *)

Section SaveLaws.

Import models.
Context {M : Type} `{ModelLaws M}.

Lemma taken_true (col : M -> string) (self : M) (tbl : gmap positive M) :
  taken col self tbl = true
  <-> exists k row, tbl !! k = Some row /\ pk self <> Some k /\ col row = col self.
Proof.
  unfold taken. rewrite existsb_exists. split.
  - intros ([k row] & Hin & Hb). simpl in Hb.
    apply andb_true_iff in Hb. destruct Hb as [Hk Hcol].
    exists k, row. split; [|split].
    + apply elem_of_map_to_list. apply list_elem_of_In. exact Hin.
    + apply negb_true_iff, bool_decide_eq_false in Hk. exact Hk.
    + apply String.eqb_eq. exact Hcol.
  - intros (k & row & Hrow & Hk & Hcol). exists (k, row). split.
    + apply list_elem_of_In. apply elem_of_map_to_list. exact Hrow.
    + simpl. apply andb_true_iff. split.
      * apply negb_true_iff, bool_decide_eq_false. exact Hk.
      * apply String.eqb_eq. exact Hcol.
Qed.

(** A value held by another row in a unique column: the write is refused
    and the instance is left as it was handed in. *)
Lemma save_rejected (col : M -> string) (self : M) (tbl : gmap positive M)
    (k : positive) (row : M) :
  In col unique_columns -> tbl !! k = Some row -> pk self <> Some k ->
  col row = col self ->
  save self tbl = (self, raise IntegrityError).
Proof.
  intros Hcol Hrow Hk Heq. unfold save.
  assert (Hex : existsb (fun col => taken col self tbl) unique_columns = true).
  { apply existsb_exists. exists col. split; [exact Hcol|].
    apply taken_true. exists k, row. auto. }
  rewrite Hex. reflexivity.
Qed.

(** Otherwise the row is written under its own key, or under a key that
    the table does not use yet. *)
Lemma save_cases (self : M) (tbl : gmap positive M) :
  save self tbl = (self, raise IntegrityError)
  \/ ((forall col k row, In col unique_columns -> tbl !! k = Some row ->
         pk self <> Some k -> col row <> col self)
      /\ exists id, (pk self = Some id \/ pk self = None /\ tbl !! id = None)
           /\ save self tbl = (set_pk id self, ret (<[id := set_pk id self]> tbl))).
Proof.
  unfold save.
  destruct (existsb (fun col => taken col self tbl) unique_columns) eqn:Hex; [left; reflexivity|].
  right. split.
  - intros col k row Hcol Hrow Hk Heq.
    assert (Ht : taken col self tbl = true) by (apply taken_true; exists k, row; auto).
    assert (Hex' : existsb (fun col => taken col self tbl) unique_columns = true)
      by (apply existsb_exists; exists col; auto).
    congruence.
  - destruct (pk self) as [id|] eqn:Hpk.
    + exists id. split; [left; reflexivity | reflexivity].
    + exists (fresh (dom tbl)). split; [|reflexivity].
      right. split; [reflexivity|]. apply not_elem_of_dom. apply is_fresh.
Qed.

Lemma save_accepted (self : M) (tbl : gmap positive M) :
  (forall col k row, In col unique_columns -> tbl !! k = Some row ->
     pk self <> Some k -> col row <> col self) ->
  exists id, (pk self = Some id \/ pk self = None /\ tbl !! id = None)
    /\ save self tbl = (set_pk id self, ret (<[id := set_pk id self]> tbl)).
Proof.
  intros Hfree. destruct (save_cases self tbl) as [Hrej|[_ Hok]]; [|exact Hok].
  exfalso. unfold save in Hrej.
  destruct (existsb (fun col => taken col self tbl) unique_columns) eqn:Hex.
  - apply existsb_exists in Hex. destruct Hex as (col & Hcol & Ht).
    apply taken_true in Ht. destruct Ht as (k & row & Hrow & Hk & Heq).
    apply (Hfree col k row Hcol Hrow Hk Heq).
  - discriminate Hrej.
Qed.

Lemma save_stored (self self' : M) (tbl tbl' : gmap positive M) :
  save self tbl = (self', inr tbl') ->
  exists id, pk self' = Some id /\ tbl' !! id = Some self'
             /\ tbl' = <[id := self']> tbl /\ self' = set_pk id self
             /\ (pk self = Some id \/ pk self = None /\ tbl !! id = None).
Proof.
  intros Hsave. destruct (save_cases self tbl) as [Hrej|(_ & id & Hid & Hok)].
  - rewrite Hrej in Hsave. discriminate Hsave.
  - rewrite Hok in Hsave. injection Hsave as <- <-.
    exists id. rewrite pk_set_pk, lookup_insert_eq. auto.
Qed.

Lemma save_keeps_distinct (col : M -> string) (self self' : M) (tbl tbl' : gmap positive M) :
  In col unique_columns -> distinct_on col tbl ->
  save self tbl = (self', inr tbl') -> distinct_on col tbl'.
Proof.
  intros Hcol Hdist Hsave.
  destruct (save_cases self tbl) as [Hrej|(Hfree & id & Hid & Hok)].
  { rewrite Hrej in Hsave. discriminate Hsave. }
  rewrite Hok in Hsave. injection Hsave as <- <-.
  assert (Hself : forall k, k <> id -> pk self <> Some k).
  { intros k Hk. destruct Hid as [-> | [-> _]]; congruence. }
  intros k1 k2 r1 r2 H1 H2 Heq.
  destruct (decide (k1 = id)) as [->|Hk1], (decide (k2 = id)) as [->|Hk2];
    [reflexivity| | |].
  - rewrite lookup_insert_eq in H1. rewrite lookup_insert_ne in H2 by congruence.
    injection H1 as <-. rewrite unique_set_pk in Heq by exact Hcol.
    exfalso. apply (Hfree col k2 r2 Hcol H2 (Hself k2 Hk2)). congruence.
  - rewrite lookup_insert_eq in H2. rewrite lookup_insert_ne in H1 by congruence.
    injection H2 as <-. rewrite unique_set_pk in Heq by exact Hcol.
    exfalso. apply (Hfree col k1 r1 Hcol H1 (Hself k1 Hk1)). congruence.
  - rewrite lookup_insert_ne in H1, H2 by congruence.
    apply (Hdist k1 k2 r1 r2 H1 H2 Heq).
Qed.

(** The invariant of the table: every unique column holds pairwise
    distinct values. *)
Lemma reachable_distinct (col : M -> string) (tbl : gmap positive M) :
  In col unique_columns -> reachable tbl -> distinct_on col tbl.
Proof.
  intros Hcol Hreach. induction Hreach as [|self self' tbl tbl' _ IH Hsave|k tbl _ IH].
  - intros k1 k2 r1 r2 H1. rewrite lookup_empty in H1. discriminate H1.
  - apply (save_keeps_distinct col self self' tbl tbl' Hcol IH Hsave).
  - intros k1 k2 r1 r2 H1 H2.
    apply lookup_delete_Some in H1, H2. destruct H1 as [_ H1], H2 as [_ H2].
    apply (IH k1 k2 r1 r2 H1 H2).
Qed.

End SaveLaws.

Lemma save_keeps_unique_column {M : Type} `{models.ModelLaws M}
    (col : M -> string) (self : M) (tbl : gmap positive M) :
  In col models.unique_columns -> col (fst (models.save self tbl)) = col self.
Proof.
  intros Hcol. destruct (save_cases self tbl) as [Hrej|(_ & id & _ & Hok)].
  - rewrite Hrej. reflexivity.
  - rewrite Hok. simpl. apply models.unique_set_pk. exact Hcol.
Qed.

(** *** The laws, model by model *)

Ltac model_laws :=
  split; [intros k m; reflexivity
         | intros col k m Hcol; simpl in Hcol; intuition (subst; reflexivity)].

#[global] Instance Event_laws : models.ModelLaws Event.t.
Proof. model_laws. Qed.

#[global] Instance MediaPublication_laws : models.ModelLaws MediaPublication.t.
Proof. model_laws. Qed.

#[global] Instance Project_laws : models.ModelLaws Project.t.
Proof. model_laws. Qed.

#[global] Instance Video_laws : models.ModelLaws Video.t.
Proof. model_laws. Qed.

#[global] Instance Music_laws : models.ModelLaws Music.t.
Proof. model_laws. Qed.

#[global] Instance Article_laws : models.ModelLaws Article.t.
Proof. model_laws. Qed.

#[global] Instance InterestingTag_laws : models.ModelLaws InterestingTag.t.
Proof. model_laws. Qed.

(** ** The slug on save *)

Lemma truthy_false (s : string) : truthy s = false <-> s = EmptyString.
Proof. destruct s; simpl; split; congruence. Qed.

Lemma truthy_true (s : string) : truthy s = true <-> s <> EmptyString.
Proof. destruct s; simpl; split; congruence. Qed.

Section SlugOnSave.

Context {M : Type} `{models.ModelLaws M}.
Variables (title slug : M -> string) (set_title set_slug : string -> M -> M).
Variable save : M -> gmap positive M -> M * (exn + gmap positive M).

(** What the three [save] methods have in common. *)
Hypothesis save_eq : forall self tbl,
  save self tbl
  = models.save (if negb (truthy (slug self)) then set_slug (text.slugify (title self)) self
                 else self) tbl.
Hypothesis slug_unique : In slug models.unique_columns.
Hypothesis slug_set_slug : forall s m, slug (set_slug s m) = s.
Hypothesis pk_set_slug : forall s m, models.pk (set_slug s m) = models.pk m.
Hypothesis slug_set_title : forall s m, slug (set_title s m) = slug m.
Hypothesis title_set_title : forall s m, title (set_title s m) = s.

Lemma slug_after_save (self : M) (tbl : gmap positive M) :
  slug (fst (save self tbl))
  = if truthy (slug self) then slug self else text.slugify (title self).
Proof.
  rewrite save_eq, save_keeps_unique_column by exact slug_unique.
  destruct (truthy (slug self)); simpl; [reflexivity | apply slug_set_slug].
Qed.

Lemma slug_set_once_holds : slug_set_once title slug set_title save.
Proof.
  split; [|split].
  - intros self tbl Hs. rewrite slug_after_save, Hs. reflexivity.
  - intros self tbl t Hs. rewrite slug_after_save, slug_set_title.
    apply truthy_true in Hs. rewrite Hs. reflexivity.
  - intros self tbl self' tbl' Hsave. rewrite save_eq in Hsave.
    destruct (save_stored _ _ _ _ Hsave) as (id & _ & Hrow & _). exists id. exact Hrow.
Qed.

Lemma duplicate_slug_rejected_holds : duplicate_slug_rejected title slug save.
Proof.
  intros self tbl k row Hrow Hk Hdup.
  split; [|rewrite slug_after_save; symmetry; exact Hdup].
  rewrite save_eq.
  erewrite (save_rejected slug _ tbl k row slug_unique Hrow); [reflexivity| |].
  - destruct (truthy (slug self)); simpl; [exact Hk | rewrite pk_set_slug; exact Hk].
  - rewrite Hdup. destruct (truthy (slug self)); simpl; [reflexivity|].
    symmetry. apply slug_set_slug.
Qed.

Lemma empty_slug_not_kept_holds : empty_slug_not_kept title slug set_title save.
Proof.
  split.
  - intros self tbl Hs Ht. split.
    + rewrite slug_after_save, Hs. simpl. exact Ht.
    + intros t tbl'. rewrite slug_after_save, slug_set_title, slug_after_save, Hs. simpl.
      rewrite Ht. simpl. rewrite title_set_title. reflexivity.
  - intros a b tbl a' tbl' Ha Hta Hb Htb Hpk Hsave.
    assert (Ha' : slug a' = EmptyString).
    { change a' with (fst (a', @inr exn _ tbl')). rewrite <- Hsave, slug_after_save, Ha.
      simpl. exact Hta. }
    rewrite save_eq in Hsave.
    destruct (save_stored _ _ _ _ Hsave) as (id & _ & Hrow & _).
    rewrite save_eq.
    erewrite (save_rejected slug _ tbl' id a' slug_unique Hrow); [reflexivity| |].
    + rewrite Hb. simpl. rewrite pk_set_slug, Hpk. discriminate.
    + rewrite Hb. simpl. rewrite slug_set_slug, Ha', Htb. reflexivity.
Qed.

End SlugOnSave.

Ltac slug_model set_slug :=
  match goal with
  | |- slug_set_once _ _ _ _ => apply (slug_set_once_holds _ _ _ set_slug)
  | |- duplicate_slug_rejected _ _ _ => apply (duplicate_slug_rejected_holds _ _ set_slug)
  | |- empty_slug_not_kept _ _ _ _ => apply (empty_slug_not_kept_holds _ _ _ set_slug)
  end;
  first [ intros self tbl; reflexivity
        | simpl; auto; fail
        | intros s m; reflexivity ].

(** C1. For media publications, projects and the three "interesting"
    models: saving an instance whose slug is empty sets the slug to
    [slugify] of its title; an instance whose slug is set keeps it when it is
    saved, whatever its title has become; and a successful write stores the
    instance with that slug. *)
Theorem slug_set_once_on_save :
  slug_set_once MediaPublication.title MediaPublication.slug MediaPublication.set_title
                MediaPublication.save
  /\ slug_set_once Project.title Project.slug Project.set_title Project.save
  /\ slug_set_once Video.title Video.slug InterestingBase.set_title InterestingBase.save
  /\ slug_set_once Music.title Music.slug InterestingBase.set_title InterestingBase.save
  /\ slug_set_once Article.title Article.slug InterestingBase.set_title InterestingBase.save.
Proof.
  split; [|split; [|split; [|split]]].
  - slug_model MediaPublication.set_slug.
  - slug_model Project.set_slug.
  - slug_model (InterestingBase.set_slug (M := Video.t)).
  - slug_model (InterestingBase.set_slug (M := Music.t)).
  - slug_model (InterestingBase.set_slug (M := Article.t)).
Qed.

(** A publication is created under an ASCII title, renamed and saved
    again: the slug of the first save stays. *)
Lemma slug_set_once_on_save_witness :
  MediaPublication.slug (titled_publication "Season Opening" "") = ""%string
  /\ MediaPublication.slug (fst (MediaPublication.save (titled_publication "Season Opening" "") ∅))
     = "season-opening"%string
  /\ MediaPublication.slug (titled_publication "Season Opening" "season-opening") <> ""%string
  /\ MediaPublication.slug
       (fst (MediaPublication.save
               (MediaPublication.set_title "Closing Night"
                  (titled_publication "Season Opening" "season-opening")) ∅))
     = "season-opening"%string.
Proof.
  split; [reflexivity|]. split; [|split; [discriminate|]].
  - rewrite (proj1 (proj1 slug_set_once_on_save)
               (titled_publication "Season Opening" "") ∅ eq_refl).
    vm_compute. reflexivity.
  - rewrite (proj1 (proj2 (proj1 slug_set_once_on_save))
               (titled_publication "Season Opening" "season-opening") ∅ "Closing Night").
    + reflexivity.
    + discriminate.
Defined.

(** ** Uniqueness *)

Lemma tag_name_rejected (self : InterestingTag.t) (tbl : gmap positive InterestingTag.t)
    (k : positive) (row : InterestingTag.t) :
  tbl !! k = Some row -> InterestingTag.id self <> Some k ->
  InterestingTag.name row = InterestingTag.name self ->
  snd (InterestingTag.save self tbl) = raise IntegrityError
  /\ InterestingTag.name (fst (InterestingTag.save self tbl)) = InterestingTag.name row.
Proof.
  intros Hrow Hk Hname. unfold InterestingTag.save.
  erewrite (save_rejected InterestingTag.name _ tbl k row); simpl; auto.
  - split; [reflexivity|]. destruct (truthy (InterestingTag.slug self)); simpl; auto.
  - destruct (truthy (InterestingTag.slug self)); simpl; auto.
  - destruct (truthy (InterestingTag.slug self)); simpl; auto.
Qed.

(** C4. In every table that saves and deletes can produce, two different
    rows never have the same slug (for tags, nor the same name). A save whose
    slug (or tag name) is held by another row of the table ends in
    [IntegrityError], and the instance still carries exactly that value:
    nothing is appended to it and no second attempt is made. *)
Theorem unique_slugs_enforced :
  ((forall tbl, models.reachable tbl -> models.distinct_on MediaPublication.slug tbl)
   /\ (forall tbl, models.reachable tbl -> models.distinct_on Project.slug tbl)
   /\ (forall tbl, models.reachable tbl -> models.distinct_on Video.slug tbl)
   /\ (forall tbl, models.reachable tbl -> models.distinct_on Music.slug tbl)
   /\ (forall tbl, models.reachable tbl -> models.distinct_on Article.slug tbl)
   /\ (forall tbl, models.reachable tbl -> models.distinct_on InterestingTag.slug tbl)
   /\ (forall tbl, models.reachable tbl -> models.distinct_on InterestingTag.name tbl))
  /\ duplicate_slug_rejected MediaPublication.title MediaPublication.slug MediaPublication.save
  /\ duplicate_slug_rejected Project.title Project.slug Project.save
  /\ duplicate_slug_rejected Video.title Video.slug InterestingBase.save
  /\ duplicate_slug_rejected Music.title Music.slug InterestingBase.save
  /\ duplicate_slug_rejected Article.title Article.slug InterestingBase.save
  /\ duplicate_slug_rejected InterestingTag.name InterestingTag.slug InterestingTag.save
  /\ (forall self tbl k row,
        tbl !! k = Some row -> InterestingTag.id self <> Some k ->
        InterestingTag.name row = InterestingTag.name self ->
        snd (InterestingTag.save self tbl) = raise IntegrityError
        /\ InterestingTag.name (fst (InterestingTag.save self tbl)) = InterestingTag.name row).
Proof.
  split.
  { repeat split; intros tbl; apply reachable_distinct; simpl; auto. }
  split; [slug_model MediaPublication.set_slug|].
  split; [slug_model Project.set_slug|].
  split; [slug_model (InterestingBase.set_slug (M := Video.t))|].
  split; [slug_model (InterestingBase.set_slug (M := Music.t))|].
  split; [slug_model (InterestingBase.set_slug (M := Article.t))|].
  split; [slug_model InterestingTag.set_slug|].
  exact tag_name_rejected.
Qed.

(** Two publications under the same ASCII title: the first is stored, the
    second is refused and its slug is the plain slug of the title. *)
Lemma unique_slugs_enforced_witness :
  exists first tbl,
    MediaPublication.save (titled_publication "Season Opening" "") ∅ = (first, inr tbl)
    /\ models.distinct_on MediaPublication.slug tbl
    /\ snd (MediaPublication.save (titled_publication "Season Opening" "") tbl)
       = raise IntegrityError
    /\ MediaPublication.slug (fst (MediaPublication.save (titled_publication "Season Opening" "") tbl))
       = "season-opening"%string.
Proof.
  destruct (MediaPublication.save (titled_publication "Season Opening" "") ∅)
    as [first [e|tbl]] eqn:Hsave; [vm_compute in Hsave; discriminate Hsave|].
  exists first, tbl. split; [reflexivity|].
  assert (Hreach : models.reachable tbl).
  { pose proof Hsave as Hsave'. unfold MediaPublication.save in Hsave'.
    eapply models.reachable_save; [apply models.reachable_empty | exact Hsave']. }
  split; [exact (proj1 (proj1 unique_slugs_enforced) tbl Hreach)|].
  assert (Hfirst : first = MediaPublication.set_id 1
                     (titled_publication "Season Opening" "season-opening")).
  { vm_compute in Hsave. injection Hsave as <- _. reflexivity. }
  assert (Hrow : tbl !! 1%positive = Some first).
  { vm_compute in Hsave. injection Hsave as <- <-. vm_compute. reflexivity. }
  destruct (proj1 (proj2 unique_slugs_enforced)
              (titled_publication "Season Opening" "") tbl 1%positive first Hrow)
    as [Herr Hslug].
  - discriminate.
  - rewrite Hfirst. vm_compute. reflexivity.
  - split; [exact Herr|]. rewrite Hslug, Hfirst. reflexivity.
Defined.

(** C10. When [slugify] of the title is empty, [save] leaves the slug
    empty, and the next save derives the slug again, from the title the
    instance has then: the slug is fixed by the first save only if that save
    derived a slug that is not empty. Of two new instances with such titles
    the table stores the first and refuses the second with
    [IntegrityError], both carrying the empty slug. *)
Theorem empty_slug_is_derived_again :
  empty_slug_not_kept MediaPublication.title MediaPublication.slug MediaPublication.set_title
                      MediaPublication.save
  /\ empty_slug_not_kept Project.title Project.slug Project.set_title Project.save
  /\ empty_slug_not_kept Video.title Video.slug InterestingBase.set_title InterestingBase.save
  /\ empty_slug_not_kept Music.title Music.slug InterestingBase.set_title InterestingBase.save
  /\ empty_slug_not_kept Article.title Article.slug InterestingBase.set_title InterestingBase.save.
Proof.
  split; [|split; [|split; [|split]]].
  - slug_model MediaPublication.set_slug.
  - slug_model Project.set_slug.
  - slug_model (InterestingBase.set_slug (M := Video.t)).
  - slug_model (InterestingBase.set_slug (M := Music.t)).
  - slug_model (InterestingBase.set_slug (M := Article.t)).
Qed.

(** Two videos with Cyrillic titles: the first is stored with the empty
    slug, the second is refused; renamed in ASCII, the first gets a slug at
    its next save. *)
Lemma empty_slug_is_derived_again_witness :
  text.slugify (Video.title (video "Концерт" "" None)) = ""%string
  /\ text.slugify (Video.title (video "Выставка" "" None)) = ""%string
  /\ Video.slug (fst (InterestingBase.save (video "Концерт" "" None) ∅)) = ""%string
  /\ Video.slug (fst (InterestingBase.save
                        (InterestingBase.set_title "Concert"
                           (fst (InterestingBase.save (video "Концерт" "" None) ∅))) ∅))
     = "concert"%string
  /\ exists first tbl,
       InterestingBase.save (video "Концерт" "" None) ∅ = (first, inr tbl)
       /\ snd (InterestingBase.save (video "Выставка" "" None) tbl) = raise IntegrityError.
Proof.
  assert (H1 : text.slugify (Video.title (video "Концерт" "" None)) = ""%string)
    by (vm_compute; reflexivity).
  assert (H2 : text.slugify (Video.title (video "Выставка" "" None)) = ""%string)
    by (vm_compute; reflexivity).
  pose proof (proj1 (proj2 (proj2 empty_slug_is_derived_again))) as [Hkeep Hclash].
  destruct (Hkeep (video "Концерт" "" None) ∅ eq_refl H1) as [Hempty Hagain].
  split; [exact H1|]. split; [exact H2|]. split; [exact Hempty|]. split.
  - rewrite (Hagain "Concert"%string ∅). vm_compute. reflexivity.
  - destruct (InterestingBase.save (video "Концерт" "" None) ∅)
      as [first [e|tbl]] eqn:Hsave; [vm_compute in Hsave; discriminate Hsave|].
    exists first, tbl. split; [reflexivity|].
    apply (Hclash (video "Концерт" "" None) (video "Выставка" "" None) ∅ first tbl
             eq_refl H1 eq_refl H2 eq_refl Hsave).
Defined.

(** ** The detail address of the "interesting" models *)

Lemma detail_kwargs {M : Type} `{InterestingBase.Variant M} (self : M) :
  view_name (InterestingBase.get_absolute_url self) = "interesting_detail"%string
  /\ kwargs (InterestingBase.get_absolute_url self) !! "type"%string
     = Some (InterestingBase.type self)
  /\ kwargs (InterestingBase.get_absolute_url self) !! "slug"%string
     = Some (InterestingBase.slug (InterestingBase.base self)).
Proof.
  unfold InterestingBase.get_absolute_url, reverse, dict. simpl.
  split; [reflexivity|]. split.
  - apply lookup_insert_eq.
  - rewrite lookup_insert_ne by discriminate. apply lookup_insert_eq.
Qed.

Lemma detail_url_differs {M1 M2 : Type} `{InterestingBase.Variant M1}
    `{InterestingBase.Variant M2} (a : M1) (b : M2) :
  InterestingBase.type a <> InterestingBase.type b ->
  InterestingBase.get_absolute_url a <> InterestingBase.get_absolute_url b.
Proof.
  intros Hne Heq.
  destruct (detail_kwargs a) as (_ & Ha & _), (detail_kwargs b) as (_ & Hb & _).
  rewrite Heq, Hb in Ha. injection Ha as Ha. auto.
Qed.

(** C6. The detail address of a video, a piece of music or an article is
    the [interesting_detail] view with the type tag of its model
    (["video"], ["music"], ["article"]) and its own slug; instances of
    different models have different addresses even under the same slug; and
    an article is stored next to a video of the same slug, the unique index
    on the slug being that of the article table alone. *)
Theorem detail_url_by_variant :
  (forall v : Video.t,
     view_name (InterestingBase.get_absolute_url v) = "interesting_detail"%string
     /\ kwargs (InterestingBase.get_absolute_url v) !! "type"%string = Some "video"%string
     /\ kwargs (InterestingBase.get_absolute_url v) !! "slug"%string = Some (Video.slug v))
  /\ (forall m : Music.t,
        view_name (InterestingBase.get_absolute_url m) = "interesting_detail"%string
        /\ kwargs (InterestingBase.get_absolute_url m) !! "type"%string = Some "music"%string
        /\ kwargs (InterestingBase.get_absolute_url m) !! "slug"%string = Some (Music.slug m))
  /\ (forall a : Article.t,
        view_name (InterestingBase.get_absolute_url a) = "interesting_detail"%string
        /\ kwargs (InterestingBase.get_absolute_url a) !! "type"%string = Some "article"%string
        /\ kwargs (InterestingBase.get_absolute_url a) !! "slug"%string = Some (Article.slug a))
  /\ (forall (v : Video.t) (m : Music.t) (a : Article.t),
        InterestingBase.get_absolute_url v <> InterestingBase.get_absolute_url m
        /\ InterestingBase.get_absolute_url v <> InterestingBase.get_absolute_url a
        /\ InterestingBase.get_absolute_url m <> InterestingBase.get_absolute_url a)
  /\ (forall (db : database) (k : positive) (v : Video.t) (a : Article.t),
        videos db !! k = Some v ->
        Article.slug a = Video.slug v ->
        Article.slug a <> EmptyString ->
        (forall k' row, articles db !! k' = Some row -> Article.slug row <> Article.slug a) ->
        exists a' db' k',
          save_article a db = (a', inr db')
          /\ articles db' !! k' = Some a'
          /\ videos db' !! k = Some v
          /\ Article.slug a' = Video.slug v).
Proof.
  split; [intros v; exact (detail_kwargs v)|].
  split; [intros m; exact (detail_kwargs m)|].
  split; [intros a; exact (detail_kwargs a)|].
  split.
  { intros v m a. repeat split; apply detail_url_differs; discriminate. }
  intros db k v a Hv Hslug Hset Hfree.
  unfold save_article, InterestingBase.save.
  apply truthy_true in Hset.
  change (InterestingBase.slug (InterestingBase.base a)) with (Article.slug a).
  rewrite Hset. simpl negb. cbv iota.
  destruct (save_accepted a (articles db)) as (id & _ & Hok).
  { intros col k' row Hcol Hrow _. simpl in Hcol. destruct Hcol as [<-|[]].
    apply (Hfree k' row Hrow). }
  rewrite Hok. eexists _, _, id. split; [reflexivity|]. simpl.
  split; [apply lookup_insert_eq|]. split; [exact Hv | exact Hslug].
Qed.

Lemma detail_url_by_variant_witness :
  exists db a' db' k',
    save_video (video "Concert" "concert" None) empty_database
      = (Video.Make (InterestingBase.Fields (Some 1%positive) "Concert" "concert"
                       "Запись концерта" true 0) None, inr db)
    /\ save_article (article "Concert" "concert") db = (a', inr db')
    /\ articles db' !! k' = Some a'
    /\ Article.slug a' = "concert"%string
    /\ kwargs (InterestingBase.get_absolute_url a') !! "type"%string = Some "article"%string.
Proof.
  destruct (save_video (video "Concert" "concert" None) empty_database)
    as [v [e|db]] eqn:Hsave; [vm_compute in Hsave; discriminate Hsave|].
  assert (Hv : v = Video.Make (InterestingBase.Fields (Some 1%positive) "Concert" "concert"
                                 "Запись концерта" true 0) None).
  { vm_compute in Hsave. injection Hsave as <- _. reflexivity. }
  assert (Hrow : videos db !! 1%positive = Some v).
  { vm_compute in Hsave. injection Hsave as <- <-. vm_compute. reflexivity. }
  assert (Hfree : forall k' row, articles db !! k' = Some row ->
                                 Article.slug row <> Article.slug (article "Concert" "concert")).
  { assert (Hempty : articles db = ∅)
      by (vm_compute in Hsave; injection Hsave as _ <-; reflexivity).
    intros k' row Hk'. rewrite Hempty, lookup_empty in Hk'. discriminate Hk'. }
  destruct (proj2 (proj2 (proj2 (proj2 detail_url_by_variant)))
              db 1%positive v (article "Concert" "concert") Hrow)
    as (a' & db' & k' & Hsaved & Hstored & _ & Hslug); [| |exact Hfree|].
  - rewrite Hv. reflexivity.
  - discriminate.
  - exists db, a', db', k'. rewrite Hv. split; [reflexivity|].
    split; [exact Hsaved|]. split; [exact Hstored|].
    split; [rewrite Hslug, Hv; reflexivity|].
    apply (proj1 (proj2 (proj2 detail_url_by_variant)) a').
Defined.

(** ** Field validation *)

Lemma mem_In (x : string) (l : list string) : validators.mem x l = true <-> In x l.
Proof.
  unfold validators.mem. rewrite existsb_exists. split.
  - intros (y & Hy & Heq). apply String.eqb_eq in Heq. subst y. exact Hy.
  - intros Hx. exists x. split; [exact Hx | apply String.eqb_refl].
Qed.

Lemma validate_checks (choices : option (list (string * string))) (blank : bool) (value : string) :
  validators.checks (validators.validate choices blank value).
Proof.
  unfold validators.checks, validators.validate.
  destruct choices as [options|];
    repeat match goal with |- context [if ?b then _ else _] => destruct b end; auto.
Qed.

Lemma FileExtensionValidator_checks (allowed : list string) (name : string) :
  validators.checks (validators.FileExtensionValidator allowed name).
Proof.
  unfold validators.checks, validators.FileExtensionValidator.
  destruct (validators.mem _ _); auto.
Qed.


Lemma and_then_fails_left (a b : exn + unit) :
  a = raise ValidationError -> validators.and_then a b = raise ValidationError.
Proof. intros ->. reflexivity. Qed.

Lemma and_then_fails_right (a b : exn + unit) :
  validators.checks a -> b = raise ValidationError -> validators.and_then a b = raise ValidationError.
Proof. intros [->| ->] ->; reflexivity. Qed.

(** A value outside the choices of a required field is refused, the empty
    value included. *)
Lemma validate_outside_choices (options : list (string * string)) (value : string) :
  ~ In value (map fst options) ->
  validators.validate (Some options) false value = raise ValidationError.
Proof.
  intros Hout. unfold validators.validate.
  destruct (validators.mem value (map fst options)) eqn:Hmem.
  - apply mem_In in Hmem. contradiction.
  - destruct (truthy value); reflexivity.
Qed.

Lemma validate_inside_choices (options : list (string * string)) (value : string) :
  In value (map fst options) -> value <> EmptyString ->
  validators.validate (Some options) false value = ret tt.
Proof.
  intros Hin Hne. unfold validators.validate.
  apply mem_In in Hin. apply truthy_true in Hne. rewrite Hin, Hne. reflexivity.
Qed.

Ltac validation_fails :=
  repeat first
    [ assumption
    | apply and_then_fails_left; assumption
    | apply and_then_fails_right; [apply validate_checks|] ].

Lemma ModelForm_save_invalid {M : Type} `{models.Model M} (self : M) (tbl : gmap positive M) :
  models.clean_fields self = raise ValidationError ->
  models.ModelForm_save self tbl = (self, raise ValidationError).
Proof. intros Hbad. unfold models.ModelForm_save. rewrite Hbad. reflexivity. Qed.

(** C8 (as amended). Field validation refuses every event, project and
    media publication whose status or type is outside its enumeration, and
    a write that goes through validation returns that error without
    reaching the table. [save] itself runs no validation. *)
Theorem invalid_choice_rejected_by_validation :
  (forall (e : Event.t) (tbl : gmap positive Event.t),
     ~ In (Event.status e) ["current"; "past"]%string ->
     Event.clean_fields e = raise ValidationError
     /\ models.ModelForm_save e tbl = (e, raise ValidationError))
  /\ (forall (p : Project.t) (tbl : gmap positive Project.t),
        ~ In (Project.status p) ["current"; "completed"; "permanent"]%string ->
        Project.clean_fields p = raise ValidationError
        /\ models.ModelForm_save p tbl = (p, raise ValidationError))
  /\ (forall (m : MediaPublication.t) (tbl : gmap positive MediaPublication.t),
        ~ In (MediaPublication.publication_type m)
             ["article"; "interview"; "report"; "photo"; "video"]%string ->
        MediaPublication.clean_fields m = raise ValidationError
        /\ models.ModelForm_save m tbl = (m, raise ValidationError)).
Proof.
  split; [|split].
  - intros e tbl Hout.
    pose proof (validate_outside_choices Event.STATUS_CHOICES (Event.status e) Hout) as Hbad.
    assert (Hclean : Event.clean_fields e = raise ValidationError)
      by (unfold Event.clean_fields; validation_fails).
    split; [exact Hclean | apply ModelForm_save_invalid; exact Hclean].
  - intros p tbl Hout.
    pose proof (validate_outside_choices Project.STATUS_CHOICES (Project.status p) Hout) as Hbad.
    assert (Hclean : Project.clean_fields p = raise ValidationError)
      by (unfold Project.clean_fields; validation_fails).
    split; [exact Hclean | apply ModelForm_save_invalid; exact Hclean].
  - intros m tbl Hout.
    pose proof (validate_outside_choices MediaPublication.PUBLICATION_TYPE_CHOICES
                  (MediaPublication.publication_type m) Hout) as Hbad.
    assert (Hclean : MediaPublication.clean_fields m = raise ValidationError)
      by (unfold MediaPublication.clean_fields; validation_fails).
    split; [exact Hclean | apply ModelForm_save_invalid; exact Hclean].
Qed.

Lemma invalid_choice_rejected_by_validation_witness :
  ~ In (Project.status (project "archived" None None)) ["current"; "completed"; "permanent"]%string
  /\ Project.clean_fields (project "archived" None None) = raise ValidationError
  /\ models.ModelForm_save (project "archived" None None) ∅
     = (project "archived" None None, raise ValidationError).
Proof.
  assert (Hout : ~ In (Project.status (project "archived" None None))
                      ["current"; "completed"; "permanent"]%string).
  { simpl. intros [H|[H|[H|[]]]]; discriminate H. }
  split; [exact Hout|].
  exact (proj1 (proj2 invalid_choice_rejected_by_validation)
           (project "archived" None None) ∅ Hout).
Defined.

(** C8 as stated fails: a project whose status is outside the enumeration
    is saved, and the row with that status is in the table afterwards. *)
Lemma invalid_choice_saved_counterexample :
  ~ In "archived"%string (map fst Project.STATUS_CHOICES)
  /\ exists p tbl,
       Project.save (project "archived" None None) ∅ = (p, inr tbl)
       /\ tbl !! 1%positive = Some p
       /\ Project.status p = "archived"%string.
Proof.
  split.
  - simpl. intros [H|[H|[H|[]]]]; discriminate H.
  - eexists _, _. split; [vm_compute; reflexivity|].
    split; [vm_compute; reflexivity | reflexivity].
Qed.

(** ** File extensions *)

Section Extension.

Import validators.
Local Open Scope nat_scope.

Lemma chars_append (s t : string) :
  list_ascii_of_string (s +:+ t) = list_ascii_of_string s ++ list_ascii_of_string t.
Proof. induction s as [|a s IH]; simpl; [reflexivity | rewrite IH; reflexivity]. Qed.

Lemma length_append (s t : string) : String.length (s +:+ t) = String.length s + String.length t.
Proof. induction s as [|a s IH]; simpl; [reflexivity | rewrite IH; reflexivity]. Qed.

Lemma split_slash_single (s : string) :
  ~ In "/"%char (list_ascii_of_string s) -> split_slash s = [s].
Proof.
  induction s as [|a s IH]; simpl; intros Hno; [reflexivity|].
  destruct (Ascii.eqb_spec a "/") as [->|_]; [tauto|].
  rewrite IH by tauto. reflexivity.
Qed.

Lemma rfind_from_absent (c : ascii) (s : string) (i : nat) (last : option nat) :
  ~ In c (list_ascii_of_string s) -> rfind_from c s i last = last.
Proof.
  revert i last. induction s as [|a s IH]; simpl; intros i last Hno; [reflexivity|].
  destruct (Ascii.eqb_spec a c) as [->|_]; [tauto|]. apply IH. tauto.
Qed.

Lemma rfind_from_last (c : ascii) (stem rest : string) (i : nat) (last : option nat) :
  ~ In c (list_ascii_of_string rest) ->
  rfind_from c (stem +:+ String c rest) i last = Some (i + String.length stem).
Proof.
  intros Hno. revert i last. induction stem as [|a stem IH]; simpl; intros i last.
  - rewrite Ascii.eqb_refl, rfind_from_absent by exact Hno. f_equal. lia.
  - rewrite IH. f_equal. lia.
Qed.





Lemma FileExtensionValidator_rejects (allowed : list string) (name : string) :
  ~ In (extension name) (map lower allowed) ->
  FileExtensionValidator allowed name = raise ValidationError.
Proof.
  intros Hout. unfold FileExtensionValidator.
  destruct (mem (extension name) (map lower allowed)) eqn:Hmem; [|reflexivity].
  apply mem_In in Hmem. contradiction.
Qed.

End Extension.






(** * Further properties of the models *)

(** ** What a passed validation tells *)

Lemma and_then_passed (a b : exn + unit) :
  validators.and_then a b = ret tt -> a = ret tt /\ b = ret tt.
Proof.
  destruct a as [e|[]]; simpl; [discriminate|]. intros ->. split; reflexivity.
Qed.

Lemma validate_passed_choice (options : list (string * string)) (value : string) :
  validators.validate (Some options) false value = ret tt ->
  In value (map fst options) /\ value <> EmptyString.
Proof.
  unfold validators.validate. intros Hok.
  destruct (truthy value) eqn:Htruthy; simpl in Hok.
  - destruct (validators.mem value (map fst options)) eqn:Hmem; simpl in Hok;
      [|discriminate Hok].
    split; [apply mem_In; exact Hmem | apply truthy_true; exact Htruthy].
  - discriminate Hok.
Qed.

Lemma Event_clean_status (e : Event.t) :
  Event.clean_fields e = ret tt -> In (Event.status e) ["current"; "past"]%string.
Proof.
  unfold Event.clean_fields. intros Hok.
  repeat (apply and_then_passed in Hok; destruct Hok as [_ Hok]).
  apply (validate_passed_choice Event.STATUS_CHOICES). exact Hok.
Qed.

Lemma Project_clean_status (p : Project.t) :
  Project.clean_fields p = ret tt ->
  In (Project.status p) ["current"; "completed"; "permanent"]%string.
Proof.
  unfold Project.clean_fields. intros Hok.
  do 3 (apply and_then_passed in Hok; destruct Hok as [_ Hok]).
  apply and_then_passed in Hok. destruct Hok as [Hok _].
  apply (validate_passed_choice Project.STATUS_CHOICES). exact Hok.
Qed.

(** ** Event.is_current and Event.is_past *)

(** X1. An event is never both current and past. One that passes field
    validation is exactly one of the two; one whose status is outside the
    two choices is neither. *)
Theorem event_current_xor_past (e : Event.t) :
  Event.is_current e && Event.is_past e = false
  /\ (Event.clean_fields e = ret tt -> Event.is_past e = negb (Event.is_current e))
  /\ (~ In (Event.status e) ["current"; "past"]%string ->
        Event.is_current e = false /\ Event.is_past e = false).
Proof.
  unfold Event.is_current, Event.is_past. split; [|split].
  - destruct (String.eqb_spec (Event.status e) "current") as [->|_]; reflexivity.
  - intros Hok. apply Event_clean_status in Hok. simpl in Hok.
    destruct Hok as [<-|[<-|[]]]; reflexivity.
  - intros Hout. simpl in Hout.
    destruct (String.eqb_spec (Event.status e) "current") as [E|_];
      destruct (String.eqb_spec (Event.status e) "past") as [E'|_]; intuition congruence.
Qed.

Lemma event_current_xor_past_witness :
  Event.clean_fields (event "past") = ret tt
  /\ Event.is_past (event "past") = negb (Event.is_current (event "past"))
  /\ ~ In (Event.status (event "cancelled")) ["current"; "past"]%string
  /\ Event.is_current (event "cancelled") = false
  /\ Event.is_past (event "cancelled") = false.
Proof.
  assert (Hok : Event.clean_fields (event "past") = ret tt) by (vm_compute; reflexivity).
  assert (Hout : ~ In (Event.status (event "cancelled")) ["current"; "past"]%string).
  { simpl. intros [H|[H|[]]]; discriminate H. }
  split; [exact Hok|].
  split; [exact (proj1 (proj2 (event_current_xor_past (event "past"))) Hok)|].
  split; [exact Hout|].
  exact (proj2 (proj2 (event_current_xor_past (event "cancelled"))) Hout).
Defined.

(** ** Project.duration and Project.status_label, continued *)

(** X2. [Project.duration] raises in exactly one situation, a permanent
    project without a start date, and the exception is [AttributeError];
    every other project gets a label. *)
Theorem duration_raises_exactly (p : Project.t) :
  (Project.status p = "permanent"%string /\ Project.start_date p = None ->
     Project.duration p = raise AttributeError)
  /\ (~ (Project.status p = "permanent"%string /\ Project.start_date p = None) ->
        exists label, Project.duration p = ret label).
Proof.
  split.
  - intros [Hs Hd]. apply duration_permanent_no_start; assumption.
  - intros Hnot.
    destruct (String.eqb_spec (Project.status p) "permanent") as [Hs|Hs].
    + destruct (Project.start_date p) as [d|] eqn:Hd; [|tauto].
      eexists. apply (duration_permanent p d Hs Hd).
    + rewrite duration_other by exact Hs.
      destruct (Project.start_date p), (Project.end_date p),
        (String.eqb (Project.status p) "completed"); eexists; reflexivity.
Qed.

Lemma duration_raises_exactly_witness :
  Project.duration (project "permanent" None (Some (Date 2030 1 1))) = raise AttributeError
  /\ exists label, Project.duration (project "completed" None None) = ret label.
Proof.
  split.
  - apply (proj1 (duration_raises_exactly (project "permanent" None (Some (Date 2030 1 1))))).
    split; reflexivity.
  - apply (proj2 (duration_raises_exactly (project "completed" None None))).
    intros [H _]. discriminate H.
Defined.

(** X3. The status label is empty exactly when the status is not a key of
    [STATUS_CHOICES]; a project that passes field validation therefore has
    one of the three labels, never the empty one. *)
Theorem status_label_empty_iff (p : Project.t) :
  (Project.status_label p = EmptyString
   <-> ~ In (Project.status p) ["current"; "completed"; "permanent"]%string)
  /\ (Project.clean_fields p = ret tt ->
        In (Project.status_label p) ["Текущий проект"; "Завершен"; "Постоянный"]%string).
Proof.
  assert (Hin : In (Project.status p) ["current"; "completed"; "permanent"]%string ->
                In (Project.status_label p) ["Текущий проект"; "Завершен"; "Постоянный"]%string).
  { unfold Project.status_label. simpl.
    intros [<-|[<-|[<-|[]]]]; vm_compute; auto. }
  split; [split|].
  - intros Hempty Hkey. apply Hin in Hkey. rewrite Hempty in Hkey. simpl in Hkey.
    destruct Hkey as [H|[H|[H|[]]]]; discriminate H.
  - intros Hout. unfold Project.status_label, dict_get.
    rewrite dict_lookup_absent by exact Hout. reflexivity.
  - intros Hok. apply Hin. apply Project_clean_status. exact Hok.
Qed.

Lemma status_label_empty_iff_witness :
  Project.status_label (project "draft" None None) = ""%string
  /\ Project.clean_fields (project "completed" None None) = ret tt
  /\ In (Project.status_label (project "completed" None None))
        ["Текущий проект"; "Завершен"; "Постоянный"]%string.
Proof.
  assert (Hok : Project.clean_fields (project "completed" None None) = ret tt)
    by (vm_compute; reflexivity).
  split.
  - apply (proj2 (proj1 (status_label_empty_iff (project "draft" None None)))).
    simpl. intros [H|[H|[H|[]]]]; discriminate H.
  - split; [exact Hok|].
    exact (proj2 (status_label_empty_iff (project "completed" None None)) Hok).
Defined.

(** ** InterestingTag.save *)

(** X4. The [save] of a tag derives the slug from the name when the slug is
    empty and keeps a slug that is set, whatever the name has become. A name
    without a slug of its own leaves the slug empty; such a tag is written by
    [save] although field validation refuses its empty slug. *)
Theorem tag_slug_from_name :
  slug_set_once InterestingTag.name InterestingTag.slug InterestingTag.set_name
                InterestingTag.save
  /\ empty_slug_not_kept InterestingTag.name InterestingTag.slug InterestingTag.set_name
                         InterestingTag.save
  /\ (forall self tbl,
        InterestingTag.slug self = EmptyString ->
        text.slugify (InterestingTag.name self) = EmptyString ->
        InterestingTag.clean_fields (fst (InterestingTag.save self tbl))
        = raise ValidationError).
Proof.
  split; [slug_model InterestingTag.set_slug|].
  split; [slug_model InterestingTag.set_slug|].
  intros self tbl Hs Hn.
  assert (Hslug : InterestingTag.slug (fst (InterestingTag.save self tbl)) = EmptyString).
  { unfold InterestingTag.save. rewrite save_keeps_unique_column by (simpl; auto).
    rewrite Hs. simpl. exact Hn. }
  unfold InterestingTag.clean_fields. apply and_then_fails_right; [apply validate_checks|].
  rewrite Hslug. reflexivity.
Qed.

Lemma tag_slug_from_name_witness :
  InterestingTag.slug (fst (InterestingTag.save (tag "Jazz Nights" "") ∅)) = "jazz-nights"%string
  /\ InterestingTag.slug
       (fst (InterestingTag.save (InterestingTag.set_name "Blues" (tag "Jazz Nights" "jazz")) ∅))
     = "jazz"%string
  /\ (exists r tbl, InterestingTag.save (tag "Музыка" "") ∅ = (r, inr tbl))
  /\ InterestingTag.clean_fields (fst (InterestingTag.save (tag "Музыка" "") ∅))
     = raise ValidationError.
Proof.
  pose proof tag_slug_from_name as ((Hderive & Hkeep & _) & _ & Hrefused).
  split; [|split; [|split]].
  - rewrite (Hderive (tag "Jazz Nights" "") ∅ eq_refl). vm_compute. reflexivity.
  - rewrite (Hkeep (tag "Jazz Nights" "jazz") ∅ "Blues"%string); [reflexivity|discriminate].
  - eexists _, _. vm_compute. reflexivity.
  - apply (Hrefused (tag "Музыка" "") ∅ eq_refl). vm_compute. reflexivity.
Defined.

(** ** Saving again, and what a save leaves alone *)

Section Resave.

Context {M : Type} `{models.ModelLaws M}.
Variables (title slug : M -> string) (set_title set_slug : string -> M -> M).
Variable save : M -> gmap positive M -> M * (exn + gmap positive M).

Hypothesis save_eq : forall self tbl,
  save self tbl
  = models.save (if negb (truthy (slug self)) then set_slug (text.slugify (title self)) self
                 else self) tbl.
Hypothesis slug_unique : In slug models.unique_columns.
Hypothesis slug_set_slug : forall s m, slug (set_slug s m) = s.
Hypothesis pk_set_slug : forall s m, models.pk (set_slug s m) = models.pk m.
Hypothesis title_set_slug : forall s m, title (set_slug s m) = title m.
Hypothesis title_set_pk : forall k m, title (models.set_pk k m) = title m.
Hypothesis slug_set_title : forall s m, slug (set_title s m) = slug m.
Hypothesis set_slug_same : forall m, set_slug (slug m) m = m.
Hypothesis set_pk_same : forall k m, models.pk m = Some k -> models.set_pk k m = m.

Local Abbreviation derived self :=
  (if negb (truthy (slug self)) then set_slug (text.slugify (title self)) self else self).

Lemma derived_pk (self : M) : models.pk (derived self) = models.pk self.
Proof. destruct (truthy (slug self)); simpl; [reflexivity | apply pk_set_slug]. Qed.

Lemma derived_title (self : M) : title (derived self) = title self.
Proof.
  destruct (truthy (slug self)); simpl; [reflexivity | apply title_set_slug].
Qed.

Lemma derived_again (self : M) (k : positive) :
  derived (models.set_pk k (derived self)) = models.set_pk k (derived self).
Proof.
  set (r := models.set_pk k (derived self)).
  assert (Hslug : slug r = slug (derived self)) by (apply models.unique_set_pk; exact slug_unique).
  assert (Htitle : title r = title self) by (unfold r; rewrite title_set_pk; apply derived_title).
  destruct (truthy (slug r)) eqn:Hr; simpl; [reflexivity|].
  apply truthy_false in Hr. rewrite Htitle.
  assert (Hempty : text.slugify (title self) = EmptyString).
  { rewrite Hr in Hslug.
    destruct (truthy (slug self)) eqn:Hs; simpl in Hslug.
    - apply truthy_true in Hs. congruence.
    - rewrite slug_set_slug in Hslug. congruence. }
  rewrite Hempty, <- Hr. apply set_slug_same.
Qed.

Lemma resave_is_noop_holds : resave_is_noop save.
Proof.
  intros self tbl r tbl' Hsave. rewrite save_eq in Hsave.
  destruct (save_cases (derived self) tbl) as [Hrej|(Hfree & id & Hid & Hok)].
  { rewrite Hrej in Hsave. discriminate Hsave. }
  rewrite Hok in Hsave. injection Hsave as <- <-.
  rewrite save_eq, derived_again.
  set (r := models.set_pk id (derived self)).
  assert (Hpk : models.pk r = Some id) by apply models.pk_set_pk.
  destruct (save_accepted r (<[id := r]> tbl)) as (id' & Hid' & Hok').
  - intros col k row Hcol Hrow Hk. rewrite Hpk in Hk.
    rewrite lookup_insert_ne in Hrow by congruence.
    unfold r. rewrite models.unique_set_pk by exact Hcol.
    apply (Hfree col k row Hcol Hrow).
    destruct Hid as [-> | [-> _]]; congruence.
  - assert (id' = id) as -> by (destruct Hid' as [Hid'|[Hid' _]]; congruence).
    rewrite Hok', set_pk_same by exact Hpk. rewrite insert_insert_eq. reflexivity.
Qed.

Lemma save_writes_own_row_holds : save_writes_own_row save.
Proof.
  intros self tbl r tbl' Hsave. rewrite save_eq in Hsave.
  destruct (save_stored _ _ _ _ Hsave) as (id & Hpk & Hrow & -> & _ & Hid).
  rewrite derived_pk in Hid.
  exists id. split; [exact Hpk|]. split; [exact Hrow|]. split; [|split].
  - intros k Hk. apply lookup_insert_ne. congruence.
  - intros Hnew. destruct Hid as [Hid|[_ Hid]]; [congruence | exact Hid].
  - intros k Hk. destruct Hid as [Hid|[Hid _]]; congruence.
Qed.

Lemma slug_survives_renames_holds : slug_survives_renames slug set_title save.
Proof.
  intros self steps. revert self.
  induction steps as [|[t tbl] steps IH]; intros self Hset; [reflexivity|].
  unfold rename_and_save in *. simpl.
  assert (Hstep : slug (fst (save (set_title t self) tbl)) = slug self).
  { rewrite save_eq, save_keeps_unique_column by exact slug_unique.
    rewrite slug_set_title. apply truthy_true in Hset. rewrite Hset. simpl.
    apply slug_set_title. }
  rewrite IH; [exact Hstep | rewrite Hstep; exact Hset].
Qed.

End Resave.

Ltac open_record m :=
  destruct m;
  try match goal with b : InterestingBase.fields |- _ => destruct b end.

Ltac record_law :=
  first
    [ intros self tbl; reflexivity
    | simpl; auto; fail
    | intros s m; reflexivity
    | intros m; open_record m; reflexivity
    | intros k m Hpk; open_record m; simpl in *; subst; reflexivity ].

Ltac resave_model title slug set_slug :=
  match goal with
  | |- resave_is_noop _ => apply (resave_is_noop_holds title slug set_slug)
  | |- save_writes_own_row _ => apply (save_writes_own_row_holds title slug set_slug)
  | |- slug_survives_renames _ _ _ => apply (slug_survives_renames_holds title slug _ set_slug)
  end; record_law.

(** X5. For each of the six [save] methods: saving the instance that a
    successful save returned, into the table that save returned, succeeds
    and changes neither the instance nor the table, in the columns kept
    here (the [auto_now] time stamp, which every save refreshes, is not one
    of them). The unique index does not take the row of the instance itself
    for a duplicate. *)
Theorem resave_changes_nothing :
  resave_is_noop MediaPublication.save
  /\ resave_is_noop Project.save
  /\ resave_is_noop (InterestingBase.save (M := Video.t))
  /\ resave_is_noop (InterestingBase.save (M := Music.t))
  /\ resave_is_noop (InterestingBase.save (M := Article.t))
  /\ resave_is_noop InterestingTag.save.
Proof.
  split; [resave_model MediaPublication.title MediaPublication.slug MediaPublication.set_slug|].
  split; [resave_model Project.title Project.slug Project.set_slug|].
  split; [resave_model Video.title Video.slug (InterestingBase.set_slug (M := Video.t))|].
  split; [resave_model Music.title Music.slug (InterestingBase.set_slug (M := Music.t))|].
  split; [resave_model Article.title Article.slug (InterestingBase.set_slug (M := Article.t))|].
  resave_model InterestingTag.name InterestingTag.slug InterestingTag.set_slug.
Qed.

Lemma resave_changes_nothing_witness :
  exists r tbl,
    Project.save (project "current" None None) ∅ = (r, inr tbl)
    /\ Project.save r tbl = (r, inr tbl).
Proof.
  destruct (Project.save (project "current" None None) ∅) as [r [e|tbl]] eqn:Hsave;
    [vm_compute in Hsave; discriminate Hsave|].
  exists r, tbl. split; [reflexivity|].
  exact (proj1 (proj2 resave_changes_nothing) (project "current" None None) ∅ r tbl Hsave).
Defined.

(** X6. For each of the six [save] methods, a successful save writes the
    row of the instance under its key and leaves every other row of the
    table as it was; an instance without a key gets one that no row had, and
    an instance with a key keeps it. *)
Theorem save_touches_own_row_only :
  save_writes_own_row MediaPublication.save
  /\ save_writes_own_row Project.save
  /\ save_writes_own_row (InterestingBase.save (M := Video.t))
  /\ save_writes_own_row (InterestingBase.save (M := Music.t))
  /\ save_writes_own_row (InterestingBase.save (M := Article.t))
  /\ save_writes_own_row InterestingTag.save.
Proof.
  split; [resave_model MediaPublication.title MediaPublication.slug MediaPublication.set_slug|].
  split; [resave_model Project.title Project.slug Project.set_slug|].
  split; [resave_model Video.title Video.slug (InterestingBase.set_slug (M := Video.t))|].
  split; [resave_model Music.title Music.slug (InterestingBase.set_slug (M := Music.t))|].
  split; [resave_model Article.title Article.slug (InterestingBase.set_slug (M := Article.t))|].
  resave_model InterestingTag.name InterestingTag.slug InterestingTag.set_slug.
Qed.

Lemma save_touches_own_row_only_witness :
  exists first tbl second tbl' id,
    InterestingTag.save (tag "Jazz" "") ∅ = (first, inr tbl)
    /\ InterestingTag.save (tag "Folk" "") tbl = (second, inr tbl')
    /\ InterestingTag.id second = Some id
    /\ tbl' !! id = Some second
    /\ tbl !! id = None
    /\ tbl' !! 1%positive = Some first.
Proof.
  destruct (InterestingTag.save (tag "Jazz" "") ∅) as [first [e|tbl]] eqn:Hfirst;
    [vm_compute in Hfirst; discriminate Hfirst|].
  assert (Htbl : tbl !! 1%positive = Some first).
  { vm_compute in Hfirst. injection Hfirst as <- <-. vm_compute. reflexivity. }
  destruct (InterestingTag.save (tag "Folk" "") tbl) as [second [e|tbl']] eqn:Hsecond.
  { exfalso. vm_compute in Hfirst. injection Hfirst as _ <-.
    vm_compute in Hsecond. discriminate Hsecond. }
  destruct (proj2 (proj2 (proj2 (proj2 (proj2 save_touches_own_row_only))))
              (tag "Folk" "") tbl second tbl' Hsecond)
    as (id & Hpk & Hrow & Hothers & Hfree & _).
  exists first, tbl, second, tbl', id.
  split; [reflexivity|]. split; [exact Hsecond|]. split; [exact Hpk|]. split; [exact Hrow|].
  split; [exact (Hfree eq_refl)|].
  rewrite Hothers; [exact Htbl|].
  intros <-. rewrite (Hfree eq_refl) in Htbl. discriminate Htbl.
Defined.

(** X7. For media publications, projects and the three "interesting"
    models (and for tags, under changes of the name): once the slug is set,
    it stays the same through any number of renames and saves, whether the
    writes succeed or not. *)
Theorem slug_never_changes_once_set :
  slug_survives_renames MediaPublication.slug MediaPublication.set_title MediaPublication.save
  /\ slug_survives_renames Project.slug Project.set_title Project.save
  /\ slug_survives_renames Video.slug InterestingBase.set_title InterestingBase.save
  /\ slug_survives_renames Music.slug InterestingBase.set_title InterestingBase.save
  /\ slug_survives_renames Article.slug InterestingBase.set_title InterestingBase.save
  /\ slug_survives_renames InterestingTag.slug InterestingTag.set_name InterestingTag.save.
Proof.
  split; [resave_model MediaPublication.title MediaPublication.slug MediaPublication.set_slug|].
  split; [resave_model Project.title Project.slug Project.set_slug|].
  split; [resave_model Video.title Video.slug (InterestingBase.set_slug (M := Video.t))|].
  split; [resave_model Music.title Music.slug (InterestingBase.set_slug (M := Music.t))|].
  split; [resave_model Article.title Article.slug (InterestingBase.set_slug (M := Article.t))|].
  resave_model InterestingTag.name InterestingTag.slug InterestingTag.set_slug.
Qed.

Lemma slug_never_changes_once_set_witness :
  Article.slug (article "Season Opening" "season-opening") <> ""%string
  /\ Article.slug
       (rename_and_save InterestingBase.set_title InterestingBase.save
          [("Closing Night"%string, ∅); ("Итоги сезона"%string, ∅); (""%string, ∅)]
          (article "Season Opening" "season-opening"))
     = "season-opening"%string.
Proof.
  split; [discriminate|].
  rewrite (proj1 (proj2 (proj2 (proj2 (proj2 slug_never_changes_once_set))))
             (article "Season Opening" "season-opening")); [reflexivity | discriminate].
Defined.

(** X8. None of the six [save] methods changes the title (the name of a
    tag) or any other column of text, date, flag or number kept here: they
    come back as they were handed in, whether the write succeeds or not, and
    only the key and the slug may differ. The file columns, which the
    framework renames when it commits an upload, and the time stamps, which
    it sets, are outside this statement. *)
Theorem save_changes_key_and_slug_only :
  (forall (self : MediaPublication.t) tbl,
     let r := fst (MediaPublication.save self tbl) in
     r = MediaPublication.Make (MediaPublication.id r) (MediaPublication.title self)
           (MediaPublication.slug r) (MediaPublication.publication_date self)
           (MediaPublication.author self) (MediaPublication.source self)
           (MediaPublication.short_description self) (MediaPublication.publication_type self)
           (MediaPublication.is_published self))
  /\ (forall (self : Project.t) tbl,
        let r := fst (Project.save self tbl) in
        r = Project.Make (Project.id r) (Project.title self) (Project.slug r)
              (Project.short_description self) (Project.status self) (Project.start_date self)
              (Project.end_date self) (Project.location self) (Project.is_featured self))
  /\ (forall (self : Video.t) tbl,
        let r := fst (InterestingBase.save self tbl) in
        Video.base r
        = InterestingBase.Fields (InterestingBase.id (Video.base r)) (Video.title self)
            (Video.slug r) (InterestingBase.description (Video.base self))
            (InterestingBase.is_published (Video.base self))
            (InterestingBase.views (Video.base self)))
  /\ (forall (self : Music.t) tbl,
        let r := fst (InterestingBase.save self tbl) in
        Music.base r
        = InterestingBase.Fields (InterestingBase.id (Music.base r)) (Music.title self)
            (Music.slug r) (InterestingBase.description (Music.base self))
            (InterestingBase.is_published (Music.base self))
            (InterestingBase.views (Music.base self))
        /\ Music.artist r = Music.artist self)
  /\ (forall (self : Article.t) tbl,
        let r := fst (InterestingBase.save self tbl) in
        r = Article.Make
              (InterestingBase.Fields (InterestingBase.id (Article.base r)) (Article.title self)
                 (Article.slug r) (InterestingBase.description (Article.base self))
                 (InterestingBase.is_published (Article.base self))
                 (InterestingBase.views (Article.base self)))
              (Article.content self) (Article.author self) (Article.reading_time self))
  /\ (forall (self : InterestingTag.t) tbl,
        let r := fst (InterestingTag.save self tbl) in
        r = InterestingTag.Make (InterestingTag.id r) (InterestingTag.name self)
              (InterestingTag.slug r)).
Proof.
  repeat match goal with |- _ /\ _ => split end; intros self tbl r; subst r;
    unfold MediaPublication.save, Project.save, InterestingBase.save, InterestingTag.save,
      models.save;
    match goal with |- context [existsb ?f ?l] => destruct (existsb f l) end;
    open_record self; simpl;
    match goal with |- context [truthy ?s] => destruct (truthy s) end;
    repeat split; reflexivity.
Qed.

(** ** slugify, continued *)

Section SlugifyFixedPoint.

Import text.

Lemma slug_char_ascii (c : N) : slug_char c = true -> is_ascii c = true.
Proof. intros H. char_lia. Qed.

Lemma slug_char_lower (c : N) : slug_char c = true -> lower_char c = c.
Proof.
  intros H. unfold lower_char. destruct (is_upper c) eqn:E; [exfalso; char_lia | reflexivity].
Qed.

Lemma slug_char_kept (c : N) :
  slug_char c = true -> is_word c || is_space c || (c =? hyphen) = true.
Proof. intros H. char_lia. Qed.

Lemma slug_char_sep (c : N) : slug_char c = true -> is_sep c = true -> c = hyphen.
Proof. intros H Hsep. char_lia. Qed.

Lemma alnum_ascii (c : N) : is_alnum c = true -> is_ascii c = true.
Proof. intros H. char_lia. Qed.

Lemma alnum_lower (c : N) :
  is_alnum c = true ->
  is_alnum (lower_char c) = true /\ is_sep (lower_char c) = false
  /\ in_chars [hyphen; underscore] (lower_char c) = false.
Proof.
  intros H. unfold lower_char, in_chars. simpl existsb.
  destruct (is_upper c) eqn:E; (split; [|split]);
    try (destruct (is_sep _) eqn:E1; [exfalso|reflexivity]);
    try (destruct (_ || _) eqn:E2; [exfalso|reflexivity]); char_lia.
Qed.

Lemma decode_ascii (l : list N) : Forall (fun c => is_ascii c = true) l -> decode l = l.
Proof.
  induction 1 as [|c l Hc _ IH]; simpl; [reflexivity|].
  unfold is_ascii in Hc. change (c <? 0x80) with (c <? 128). rewrite Hc, IH. reflexivity.
Qed.

Lemma normalize_ascii (d : N -> list N) (l : list N) :
  Forall (fun c => is_ascii c = true) l -> normalize_NFKD d l = l.
Proof.
  unfold normalize_NFKD. induction 1 as [|c l Hc _ IH]; simpl; [reflexivity|].
  rewrite Hc, IH. reflexivity.
Qed.

Lemma filter_all {A : Type} (f : A -> bool) (l : list A) :
  Forall (fun x => f x = true) l -> List.filter f l = l.
Proof.
  induction 1 as [|x l Hx _ IH]; simpl; [reflexivity|]. rewrite Hx, IH. reflexivity.
Qed.

Lemma map_lower_slug (l : list N) :
  Forall (fun c => slug_char c = true) l -> map lower_char l = l.
Proof.
  induction 1 as [|c l Hc _ IH]; simpl; [reflexivity|].
  rewrite slug_char_lower by exact Hc. rewrite IH. reflexivity.
Qed.

Lemma no_double_hyphen_tail (c : N) (l : list N) :
  no_double_hyphen (c :: l) -> no_double_hyphen l.
Proof. intros H l1 l2 E. apply (H (c :: l1) l2). rewrite E. reflexivity. Qed.

(** A text of slug characters without doubled hyphens has no run to
    squeeze. *)
Lemma squeeze_fixed (b : bool) (l : list N) :
  Forall (fun c => slug_char c = true) l -> no_double_hyphen l ->
  (b = true -> head l <> Some hyphen) ->
  squeeze b l = l.
Proof.
  intros Hl. revert b. induction Hl as [|c l Hc _ IH]; intros b Hnd Hb; simpl; [reflexivity|].
  destruct (is_sep c) eqn:Hsep.
  - apply (slug_char_sep c Hc) in Hsep. subst c.
    destruct b; [exfalso; apply Hb; reflexivity|].
    f_equal. apply IH; [apply (no_double_hyphen_tail _ _ Hnd)|].
    intros _ Hhead. destruct l as [|x l]; [discriminate Hhead|].
    simpl in Hhead. injection Hhead as ->. apply (Hnd [] l). reflexivity.
  - f_equal. apply IH; [apply (no_double_hyphen_tail _ _ Hnd) | discriminate].
Qed.

Lemma lstrip_fixed (chars l : list N) :
  (forall c, head l = Some c -> in_chars chars c = false) -> lstrip chars l = l.
Proof.
  destruct l as [|c l]; simpl; [reflexivity|]. intros H. rewrite (H c eq_refl). reflexivity.
Qed.

Lemma strip_fixed (chars l : list N) :
  (forall c, head l = Some c \/ last l = Some c -> in_chars chars c = false) ->
  strip chars l = l.
Proof.
  intros H. unfold strip, rstrip.
  rewrite (lstrip_fixed chars l) by (intros c Hc; apply H; left; exact Hc).
  rewrite lstrip_fixed; [apply rev_involutive|].
  intros c Hc. rewrite head_rev in Hc. apply H. right. exact Hc.
Qed.

(** A text that has the shape of a slug is its own slug. *)
Lemma slugify_chars_fixed (d : N -> list N) (l : list N) :
  Forall (fun c => slug_char c = true) l -> no_double_hyphen l ->
  (forall c, head l = Some c \/ last l = Some c -> c <> hyphen /\ c <> underscore) ->
  slugify_chars d l = l.
Proof.
  intros Hl Hnd Hends. unfold slugify_chars, encode_ascii_ignore, drop_other.
  assert (Hascii : Forall (fun c => is_ascii c = true) l)
    by (eapply Forall_impl; [exact Hl | exact slug_char_ascii]).
  rewrite normalize_ascii, (filter_all is_ascii), map_lower_slug by assumption.
  rewrite filter_all by (eapply Forall_impl; [exact Hl | exact slug_char_kept]).
  rewrite squeeze_fixed by (assumption || discriminate).
  apply strip_fixed. intros c Hc. destruct (Hends c Hc) as [H1 H2].
  unfold in_chars. simpl. apply orb_false_iff. split; [|apply orb_false_iff; split];
    [apply N.eqb_neq; exact H1 | apply N.eqb_neq; exact H2 | reflexivity].
Qed.

Lemma code_points_of_bytes (l : list N) :
  Forall (fun c => slug_char c = true) l -> code_points (of_bytes l) = l.
Proof.
  intros Hl. unfold code_points.
  rewrite bytes_of_bytes by (eapply Forall_impl; [exact Hl | exact slug_char_byte]).
  apply decode_ascii. eapply Forall_impl; [exact Hl | exact slug_char_ascii].
Qed.

End SlugifyFixedPoint.

(** X9. [slugify] is idempotent: the slug of a slug is that slug, whatever
    the decomposition tables; and every text that has the shape of a slug
    (slug characters only, no doubled hyphen, no hyphen or underscore at
    either end) is its own slug. *)
Theorem slugify_idempotent (d1 d2 : N -> list N) :
  (forall value, text.slugify_with d2 (text.slugify_with d1 value) = text.slugify_with d1 value)
  /\ (forall l : list N,
        Forall (fun c => text.slug_char c = true) l -> text.no_double_hyphen l ->
        (forall c, head l = Some c \/ last l = Some c ->
                   c <> text.hyphen /\ c <> text.underscore) ->
        text.slugify_with d1 (text.of_bytes l) = text.of_bytes l).
Proof.
  assert (Hfixed : forall d l,
            Forall (fun c => text.slug_char c = true) l -> text.no_double_hyphen l ->
            (forall c, head l = Some c \/ last l = Some c ->
                       c <> text.hyphen /\ c <> text.underscore) ->
            text.slugify_with d (text.of_bytes l) = text.of_bytes l).
  { intros d l Hl Hnd Hends. unfold text.slugify_with.
    rewrite code_points_of_bytes by exact Hl.
    rewrite slugify_chars_fixed by assumption. reflexivity. }
  split; [|apply Hfixed].
  intros value. unfold text.slugify_with at 2 3.
  destruct (slugify_chars_shape d1 (text.code_points value)) as (Hl & Hnd & Hends).
  apply Hfixed; assumption.
Qed.

Lemma slugify_idempotent_witness :
  text.slugify (text.slugify "  Hello,  World! ") = text.slugify "  Hello,  World! "
  /\ text.slugify (text.of_bytes [97; 45; 98; 95; 49]) = text.of_bytes [97; 45; 98; 95; 49].
Proof.
  split.
  - apply (proj1 (slugify_idempotent text.unicodedata_decomposition
                    text.unicodedata_decomposition)).
  - apply (proj2 (slugify_idempotent text.unicodedata_decomposition
                    text.unicodedata_decomposition)).
    + repeat constructor.
    + intros l1 l2 E.
      destruct l1 as [|? [|? [|? [|? [|? l1]]]]]; simpl in E; try discriminate E;
        destruct l1; discriminate E.
    + intros c [Hc|Hc]; vm_compute in Hc; injection Hc as <-; split; discriminate.
Defined.

Section SlugifyContent.

Import text.

Lemma squeeze_keeps (b : bool) (l : list N) (x : N) :
  In x l -> is_sep x = false -> In x (squeeze b l).
Proof.
  intros Hin Hx. revert b. induction l as [|c l IH]; intros b; [contradiction|].
  simpl. destruct Hin as [->|Hin].
  - rewrite Hx. left. reflexivity.
  - destruct (is_sep c); [destruct b|]; simpl; auto.
Qed.

Lemma squeeze_elements (b : bool) (l : list N) (x : N) :
  In x (squeeze b l) -> x = hyphen \/ In x l /\ is_sep x = false.
Proof.
  revert b. induction l as [|c l IH]; intros b; simpl; [contradiction|].
  destruct (is_sep c) eqn:Hc.
  - destruct b; simpl; intros H.
    + destruct (IH _ H) as [E|[Hin Hs]]; auto.
    + destruct H as [<-|H]; [left; reflexivity|].
      destruct (IH _ H) as [E|[Hin Hs]]; auto.
  - simpl. intros [<-|H]; [right; auto|].
    destruct (IH _ H) as [E|[Hin Hs]]; auto.
Qed.

Lemma squeeze_length (b : bool) (l : list N) : (length (squeeze b l) <= length l)%nat.
Proof.
  revert b. induction l as [|c l IH]; intros b; simpl; [lia|].
  destruct (is_sep c); [destruct b|]; simpl;
    try (pose proof (IH true)); try (pose proof (IH false)); lia.
Qed.

Lemma lstrip_keeps (chars l : list N) (x : N) :
  In x l -> in_chars chars x = false -> In x (lstrip chars l).
Proof.
  intros Hin Hx. induction l as [|c l IH]; [contradiction|]. simpl.
  destruct (in_chars chars c) eqn:Hc.
  - destruct Hin as [->|Hin]; [congruence | apply IH; exact Hin].
  - exact Hin.
Qed.

Lemma strip_keeps (chars l : list N) (x : N) :
  In x l -> in_chars chars x = false -> In x (strip chars l).
Proof.
  intros Hin Hx. unfold strip, rstrip. apply in_rev. rewrite rev_involutive.
  apply lstrip_keeps; [|exact Hx]. apply in_rev. rewrite rev_involutive.
  apply lstrip_keeps; assumption.
Qed.

Lemma lstrip_all (chars l : list N) :
  Forall (fun c => in_chars chars c = true) l -> lstrip chars l = [].
Proof. induction 1 as [|c l Hc _ IH]; simpl; [reflexivity|]. rewrite Hc. exact IH. Qed.

Lemma lstrip_length (chars l : list N) : (length (lstrip chars l) <= length l)%nat.
Proof. induction l as [|c l IH]; simpl; [lia|]. destruct (in_chars chars c); simpl; lia. Qed.

Lemma strip_length (chars l : list N) : (length (strip chars l) <= length l)%nat.
Proof.
  unfold strip, rstrip. rewrite length_rev.
  pose proof (lstrip_length chars (rev (lstrip chars l))) as H1.
  rewrite length_rev in H1. pose proof (lstrip_length chars l). lia.
Qed.

Variable d : N -> list N.

(** The text that is left of a title once it is folded to ASCII. *)
Local Abbreviation folded cs := (encode_ascii_ignore (normalize_NFKD d cs)).

Lemma slugify_chars_nonempty (cs : list N) (c : N) :
  In c (folded cs) -> is_alnum c = true -> slugify_chars d cs <> [].
Proof.
  intros Hin Hc. destruct (alnum_lower c Hc) as (Hal & Hsep & Hstrip).
  assert (Hres : In (lower_char c) (slugify_chars d cs)).
  { unfold slugify_chars. apply strip_keeps; [|exact Hstrip].
    apply squeeze_keeps; [|exact Hsep].
    unfold drop_other. apply List.filter_In. split.
    - apply in_map. exact Hin.
    - clear - Hal. char_lia. }
  intros E. rewrite E in Hres. contradiction.
Qed.

Lemma slugify_chars_empty (cs : list N) :
  existsb is_alnum (folded cs) = false -> slugify_chars d cs = [].
Proof.
  intros Hno. unfold slugify_chars.
  set (value := drop_other (map lower_char (folded cs))).
  assert (Hvalue : forall x, In x value -> x = underscore \/ is_sep x = true).
  { intros x Hx. unfold value, drop_other in Hx. apply List.filter_In in Hx.
    destruct Hx as [Hx Hkeep]. apply in_map_iff in Hx. destruct Hx as (c & <- & Hc).
    assert (Hc' : is_alnum c = false).
    { destruct (is_alnum c) eqn:E; [|reflexivity].
      assert (existsb is_alnum (folded cs) = true) by (apply existsb_exists; eauto).
      congruence. }
    clear - Hkeep Hc'. unfold lower_char in *.
    destruct (is_upper c) eqn:E; [exfalso; char_lia|].
    destruct (is_sep c) eqn:E1; [right; reflexivity | left; char_lia]. }
  unfold strip. rewrite lstrip_all; [reflexivity|].
  apply List.Forall_forall. intros x Hx.
  apply squeeze_elements in Hx. unfold in_chars. simpl.
  destruct Hx as [->|[Hx Hsep]]; [reflexivity|].
  destruct (Hvalue x Hx) as [->|Hs]; [reflexivity | congruence].
Qed.

Lemma slugify_chars_length (cs : list N) :
  (length (slugify_chars d cs) <= length (folded cs))%nat.
Proof.
  unfold slugify_chars.
  pose proof (strip_length [hyphen; underscore]
                (squeeze false (drop_other (map lower_char (folded cs))))) as H1.
  pose proof (squeeze_length false (drop_other (map lower_char (folded cs)))) as H2.
  pose proof (List.filter_length_le
                (fun c => is_word c || is_space c || (c =? hyphen))
                (map lower_char (folded cs))) as H3.
  unfold drop_other in *. rewrite length_map in H3. lia.
Qed.

End SlugifyContent.

Lemma of_bytes_empty (l : list N) : text.of_bytes l = EmptyString <-> l = [].
Proof.
  unfold text.of_bytes. destruct l; simpl; split; congruence.
Qed.

Lemma of_bytes_length (l : list N) : String.length (text.of_bytes l) = length l.
Proof.
  unfold text.of_bytes. induction l as [|c l IH]; simpl; [reflexivity | rewrite IH; reflexivity].
Qed.

Lemma ascii_survives_folding (d : N -> list N) (cs : list N) (c : N) :
  In c cs -> text.is_ascii c = true ->
  In c (text.encode_ascii_ignore (text.normalize_NFKD d cs)).
Proof.
  intros Hin Hc. unfold text.encode_ascii_ignore, text.normalize_NFKD.
  apply List.filter_In. split; [|exact Hc].
  apply in_flat_map. exists c. split; [exact Hin|]. rewrite Hc. left. reflexivity.
Qed.

Lemma slugify_with_alnum (d : N -> list N) (value : string) (c : N) :
  In c (text.code_points value) -> text.is_alnum c = true ->
  text.slugify_with d value <> EmptyString.
Proof.
  intros Hin Hc E. unfold text.slugify_with in E. apply of_bytes_empty in E.
  apply (slugify_chars_nonempty d (text.code_points value) c); [|exact Hc | exact E].
  apply ascii_survives_folding; [exact Hin | apply alnum_ascii; exact Hc].
Qed.

(** X10. [slugify] of a title is empty exactly when no ASCII letter or
    digit is left once the title is folded to ASCII. In particular a title
    with at least one ASCII letter or digit in it has a slug that is not
    empty, and each of the six [save] methods then gives an instance without
    a slug one. *)
Theorem slug_nonempty_iff_alnum (d : N -> list N) :
  (forall value,
     text.slugify_with d value <> EmptyString
     <-> exists c,
           In c (text.encode_ascii_ignore (text.normalize_NFKD d (text.code_points value)))
           /\ text.is_alnum c = true)
  /\ (forall value c,
        In c (text.code_points value) -> text.is_alnum c = true ->
        text.slugify_with d value <> EmptyString)
  /\ ascii_title_gets_slug MediaPublication.title MediaPublication.slug MediaPublication.save
  /\ ascii_title_gets_slug Project.title Project.slug Project.save
  /\ ascii_title_gets_slug Video.title Video.slug InterestingBase.save
  /\ ascii_title_gets_slug Music.title Music.slug InterestingBase.save
  /\ ascii_title_gets_slug Article.title Article.slug InterestingBase.save
  /\ ascii_title_gets_slug InterestingTag.name InterestingTag.slug InterestingTag.save.
Proof.
  split.
  { intros value. unfold text.slugify_with. rewrite of_bytes_empty. split.
    - intros Hne.
      destruct (existsb text.is_alnum
                  (text.encode_ascii_ignore
                     (text.normalize_NFKD d (text.code_points value)))) eqn:Hex.
      + apply existsb_exists in Hex. exact Hex.
      + exfalso. apply Hne. apply slugify_chars_empty. exact Hex.
    - intros (c & Hin & Hc). apply (slugify_chars_nonempty d _ c Hin Hc). }
  split; [intros value c; apply slugify_with_alnum|].
  repeat split; intros self tbl c Hs Hin Hc.
  - rewrite (slug_after_save MediaPublication.title MediaPublication.slug
               MediaPublication.set_slug) by record_law.
    rewrite Hs. simpl. apply (slugify_with_alnum _ _ c Hin Hc).
  - rewrite (slug_after_save Project.title Project.slug Project.set_slug) by record_law.
    rewrite Hs. simpl. apply (slugify_with_alnum _ _ c Hin Hc).
  - rewrite (slug_after_save Video.title Video.slug (InterestingBase.set_slug (M := Video.t)))
      by record_law.
    rewrite Hs. simpl. apply (slugify_with_alnum _ _ c Hin Hc).
  - rewrite (slug_after_save Music.title Music.slug (InterestingBase.set_slug (M := Music.t)))
      by record_law.
    rewrite Hs. simpl. apply (slugify_with_alnum _ _ c Hin Hc).
  - rewrite (slug_after_save Article.title Article.slug
               (InterestingBase.set_slug (M := Article.t))) by record_law.
    rewrite Hs. simpl. apply (slugify_with_alnum _ _ c Hin Hc).
  - rewrite (slug_after_save InterestingTag.name InterestingTag.slug InterestingTag.set_slug)
      by record_law.
    rewrite Hs. simpl. apply (slugify_with_alnum _ _ c Hin Hc).
Qed.

(** A Russian title with a year in it: the digits make the slug. *)
Lemma slug_nonempty_iff_alnum_witness :
  In 50 (text.code_points (Project.title (Project.set_title "Фестиваль 2024"
                                            (project "current" None None))))
  /\ text.is_alnum 50 = true
  /\ Project.slug (fst (Project.save (Project.set_title "Фестиваль 2024"
                                        (project "current" None None)) ∅)) <> ""%string.
Proof.
  assert (Hin : In 50 (text.code_points
                         (Project.title (Project.set_title "Фестиваль 2024"
                                           (project "current" None None)))))
    by (vm_compute; tauto).
  split; [exact Hin|]. split; [reflexivity|].
  exact (proj1 (proj2 (proj2 (proj2 (slug_nonempty_iff_alnum text.unicodedata_decomposition))))
           (Project.set_title "Фестиваль 2024" (project "current" None None)) ∅ 50
           eq_refl Hin eq_refl).
Defined.

(** X11. The slug is never longer than what is left of the title once it is
    folded to ASCII. For a title whose characters are all ASCII or Cyrillic,
    the slug therefore has at most as many characters as the title, and fits
    the slug column whenever the title fits its own (both are declared with
    the same length). A character that decomposes into several ASCII ones
    breaks that bound: the slug of the one-character title ["¼"] has two. *)
Theorem slug_length_bound :
  (forall d value,
     (String.length (text.slugify_with d value)
      <= length (text.encode_ascii_ignore
                   (text.normalize_NFKD d (text.code_points value))))%nat)
  /\ (forall value,
        Forall (fun c => text.is_ascii c = true \/ text.is_cyrillic c = true)
               (text.code_points value) ->
        (String.length (text.slugify value) <= length (text.code_points value))%nat)
  /\ (length (text.code_points "¼") = 1%nat /\ text.slugify "¼" = "14"%string).
Proof.
  assert (Hfold : forall d value,
            (String.length (text.slugify_with d value)
             <= length (text.encode_ascii_ignore
                          (text.normalize_NFKD d (text.code_points value))))%nat).
  { intros d value. unfold text.slugify_with. rewrite of_bytes_length.
    apply slugify_chars_length. }
  split; [exact Hfold|]. split; [|split; vm_compute; reflexivity].
  intros value Hchars. unfold text.slugify.
  etransitivity; [apply Hfold|].
  unfold text.encode_ascii_ignore, text.normalize_NFKD.
  induction Hchars as [|c cs Hc _ IH]; simpl; [lia|].
  rewrite List.filter_app, length_app.
  destruct Hc as [Hc|Hc].
  - rewrite Hc. simpl. rewrite Hc. simpl. lia.
  - destruct (cyrillic_has_no_ascii c Hc) as [Ha Hd]. rewrite Ha, Hd. simpl. lia.
Qed.

Lemma slug_length_bound_witness :
  Forall (fun c => text.is_ascii c = true \/ text.is_cyrillic c = true)
         (text.code_points "Фонд Astana")
  /\ (String.length (text.slugify "Фонд Astana") <= length (text.code_points "Фонд Astana"))%nat.
Proof.
  assert (Hchars : Forall (fun c => text.is_ascii c = true \/ text.is_cyrillic c = true)
                          (text.code_points "Фонд Astana")).
  { vm_compute.
    repeat first [ apply List.Forall_nil
                 | apply List.Forall_cons; [first [left; reflexivity | right; reflexivity]|] ]. }
  split; [exact Hchars|].
  exact (proj1 (proj2 slug_length_bound) "Фонд Astana"%string Hchars).
Defined.

(** ** Addresses *)

Lemma media_address (m : MediaPublication.t) :
  view_name (MediaPublication.get_absolute_url m) = "media_detail"%string
  /\ kwargs (MediaPublication.get_absolute_url m) !! "slug"%string
     = Some (MediaPublication.slug m).
Proof.
  unfold MediaPublication.get_absolute_url, reverse, dict. simpl.
  split; [reflexivity | apply lookup_insert_eq].
Qed.

Lemma project_address (p : Project.t) :
  view_name (Project.get_absolute_url p) = "project_detail"%string
  /\ kwargs (Project.get_absolute_url p) !! "slug"%string = Some (Project.slug p).
Proof.
  unfold Project.get_absolute_url, reverse, dict. simpl.
  split; [reflexivity | apply lookup_insert_eq].
Qed.

Lemma address_by_slug {M : Type} `{models.ModelLaws M} (slug : M -> string) (address : M -> url) :
  In slug models.unique_columns ->
  (forall r, kwargs (address r) !! "slug"%string = Some (slug r)) ->
  address_identifies_row address.
Proof.
  intros Hcol Hslug tbl k1 k2 r1 r2 Hreach H1 H2 Heq.
  apply (reachable_distinct slug tbl Hcol Hreach k1 k2 r1 r2 H1 H2).
  pose proof (Hslug r1) as Hs1. rewrite Heq, Hslug in Hs1. congruence.
Qed.

(** X12. The detail address of a media publication is the [media_detail]
    view with its slug, that of a project the [project_detail] view with its
    slug, so the two never coincide. Within one table two different rows
    never have the same address, for publications, projects, videos, music
    and articles alike. *)
Theorem detail_address_identifies_row :
  (forall m : MediaPublication.t,
     view_name (MediaPublication.get_absolute_url m) = "media_detail"%string
     /\ kwargs (MediaPublication.get_absolute_url m) !! "slug"%string
        = Some (MediaPublication.slug m))
  /\ (forall p : Project.t,
        view_name (Project.get_absolute_url p) = "project_detail"%string
        /\ kwargs (Project.get_absolute_url p) !! "slug"%string = Some (Project.slug p))
  /\ (forall (m : MediaPublication.t) (p : Project.t),
        MediaPublication.get_absolute_url m <> Project.get_absolute_url p)
  /\ address_identifies_row MediaPublication.get_absolute_url
  /\ address_identifies_row Project.get_absolute_url
  /\ address_identifies_row (InterestingBase.get_absolute_url (M := Video.t))
  /\ address_identifies_row (InterestingBase.get_absolute_url (M := Music.t))
  /\ address_identifies_row (InterestingBase.get_absolute_url (M := Article.t)).
Proof.
  split; [exact media_address|]. split; [exact project_address|].
  split.
  { intros m p Heq. pose proof (proj1 (media_address m)) as Hm.
    rewrite Heq, (proj1 (project_address p)) in Hm. discriminate Hm. }
  split; [apply (address_by_slug MediaPublication.slug); [simpl; auto | intros r; exact (proj2 (media_address r))]|].
  split; [apply (address_by_slug Project.slug); [simpl; auto | intros r; exact (proj2 (project_address r))]|].
  split; [apply (address_by_slug Video.slug); [simpl; auto | intros r; exact (proj2 (proj2 (detail_kwargs r)))]|].
  split; [apply (address_by_slug Music.slug); [simpl; auto | intros r; exact (proj2 (proj2 (detail_kwargs r)))]|].
  apply (address_by_slug Article.slug); [simpl; auto | intros r; exact (proj2 (proj2 (detail_kwargs r)))].
Qed.

Lemma detail_address_identifies_row_witness :
  exists first tbl second tbl',
    Project.save (Project.set_title "Art School" (project "current" None None)) ∅
      = (first, inr tbl)
    /\ Project.save (Project.set_title "Summer Camp" (project "current" None None)) tbl
       = (second, inr tbl')
    /\ tbl' !! 1%positive = Some first /\ tbl' !! 2%positive = Some second
    /\ Project.get_absolute_url first <> Project.get_absolute_url second.
Proof.
  destruct (Project.save (Project.set_title "Art School" (project "current" None None)) ∅)
    as [first [e|tbl]] eqn:Hfirst; [vm_compute in Hfirst; discriminate Hfirst|].
  destruct (Project.save (Project.set_title "Summer Camp" (project "current" None None)) tbl)
    as [second [e|tbl']] eqn:Hsecond.
  { exfalso. vm_compute in Hfirst. injection Hfirst as _ <-.
    vm_compute in Hsecond. discriminate Hsecond. }
  assert (Hreach : models.reachable tbl').
  { unfold Project.save in Hfirst, Hsecond.
    eapply models.reachable_save; [|exact Hsecond].
    eapply models.reachable_save; [apply models.reachable_empty | exact Hfirst]. }
  assert (Hrows : tbl' !! 1%positive = Some first /\ tbl' !! 2%positive = Some second).
  { vm_compute in Hfirst. injection Hfirst as <- <-.
    vm_compute in Hsecond. injection Hsecond as <- <-. split; vm_compute; reflexivity. }
  destruct Hrows as [H1 H2].
  exists first, tbl, second, tbl'.
  split; [reflexivity|]. split; [exact Hsecond|]. split; [exact H1|]. split; [exact H2|].
  intros Heq.
  pose proof (proj1 (proj2 (proj2 (proj2 (proj2 detail_address_identifies_row))))
                tbl' 1%positive 2%positive first second Hreach H1 H2 Heq) as Hk.
  discriminate Hk.
Defined.

(** ** File names without an extension, and directories *)

Section ExtensionEdges.

Import validators.
Local Open Scope nat_scope.

Lemma split_slash_nonempty (s : string) : split_slash s <> [].
Proof.
  destruct s as [|a s]; simpl; [discriminate|].
  destruct (Ascii.eqb a "/"); [discriminate|]. destruct (split_slash s); discriminate.
Qed.

Lemma split_slash_chars (s part : string) (c : ascii) :
  In part (split_slash s) -> In c (list_ascii_of_string part) -> In c (list_ascii_of_string s).
Proof.
  revert part. induction s as [|a s IH]; simpl; intros part Hpart Hc.
  - destruct Hpart as [<-|[]]. exact Hc.
  - destruct (Ascii.eqb a "/").
    + destruct Hpart as [<-|Hpart]; [contradiction | right; apply (IH part Hpart Hc)].
    + destruct (split_slash s) as [|p ps] eqn:Hsplit.
      * destruct Hpart as [<-|[]]. simpl in Hc. destruct Hc as [Hc|[]]. left. exact Hc.
      * destruct Hpart as [<-|Hpart].
        -- simpl in Hc. destruct Hc as [Hc|Hc]; [left; exact Hc|].
           right. apply (IH p); [left; reflexivity | exact Hc].
        -- right. apply (IH part); [right; exact Hpart | exact Hc].
Qed.

Lemma last_In {A : Type} (l : list A) (d : A) : l <> [] -> In (List.last l d) l.
Proof.
  induction l as [|x l IH]; [congruence|]. intros _.
  destruct l as [|y l]; [left; reflexivity|].
  right. apply IH. discriminate.
Qed.

Lemma Path_name_chars (path : string) (c : ascii) :
  In c (list_ascii_of_string (Path_name path)) -> In c (list_ascii_of_string path).
Proof.
  unfold Path_name.
  set (parts := List.filter _ (split_slash path)).
  destruct parts as [|p ps] eqn:Hparts; [contradiction|].
  intros Hc. rewrite <- Hparts in Hc.
  assert (Hin : In (List.last parts EmptyString) parts)
    by (apply last_In; rewrite Hparts; discriminate).
  apply List.filter_In in Hin. destruct Hin as [Hin _].
  apply (split_slash_chars path _ c Hin Hc).
Qed.

Lemma suffix_without_dot (path : string) :
  ~ In "."%char (list_ascii_of_string path) -> Path_suffix path = EmptyString.
Proof.
  intros Hno. unfold Path_suffix, rfind.
  rewrite rfind_from_absent; [reflexivity|].
  intros Hc. apply Hno. apply (Path_name_chars path _ Hc).
Qed.

Lemma Path_name_plain (name : string) :
  ~ In "/"%char (list_ascii_of_string name) ->
  Path_name name = if String.eqb name "" || String.eqb name "." then EmptyString else name.
Proof.
  intros Hno. unfold Path_name. rewrite split_slash_single by exact Hno. simpl.
  destruct (String.eqb name "" || String.eqb name "."); reflexivity.
Qed.

Lemma extension_leading_dot (ext : string) :
  ~ In "."%char (list_ascii_of_string ext) -> ~ In "/"%char (list_ascii_of_string ext) ->
  extension (String "." ext) = EmptyString.
Proof.
  intros Hdot Hslash. unfold extension, Path_suffix.
  rewrite Path_name_plain by (simpl; intros [H|H]; [discriminate H | tauto]).
  destruct (String.eqb (String "." ext) "" || String.eqb (String "." ext) ".");
    [reflexivity|].
  pose proof (rfind_from_last "." EmptyString ext 0 None Hdot) as Hfound.
  change (EmptyString +:+ String "." ext) with (String "." ext) in Hfound.
  unfold rfind. rewrite Hfound. reflexivity.
Qed.

Lemma extension_trailing_dot (stem : string) :
  ~ In "/"%char (list_ascii_of_string stem) ->
  extension (stem +:+ ".") = EmptyString.
Proof.
  intros Hslash. unfold extension, Path_suffix.
  rewrite Path_name_plain.
  - destruct (String.eqb (stem +:+ ".") "" || String.eqb (stem +:+ ".") ".");
      [reflexivity|].
    unfold rfind.
    rewrite (rfind_from_last "." stem EmptyString 0 None) by (simpl; tauto).
    rewrite length_append. simpl.
    replace (String.length stem + 1 - 1) with (String.length stem) by lia.
    rewrite Nat.ltb_irrefl, andb_false_r. reflexivity.
  - rewrite chars_append. simpl. rewrite in_app_iff. simpl.
    intros [H|[H|[]]]; [tauto | discriminate H].
Qed.

Lemma split_slash_app (dir rest : string) :
  split_slash (dir +:+ String "/" rest) = split_slash dir ++ split_slash rest.
Proof.
  induction dir as [|a dir IH]; simpl; [reflexivity|].
  destruct (Ascii.eqb a "/"); [rewrite IH; reflexivity|].
  rewrite IH. pose proof (split_slash_nonempty dir) as Hne.
  destruct (split_slash dir); [contradiction | reflexivity].
Qed.

Lemma Path_name_in_directory (dir name : string) :
  ~ In "/"%char (list_ascii_of_string name) -> name <> EmptyString -> name <> "."%string ->
  Path_name (dir +:+ String "/" name) = name /\ Path_name name = name.
Proof.
  intros Hslash Hne Hdot.
  assert (Hkeep : String.eqb name "" || String.eqb name "." = false).
  { apply orb_false_iff. split; apply String.eqb_neq; assumption. }
  split.
  - unfold Path_name. rewrite split_slash_app, List.filter_app.
    rewrite (split_slash_single name) by exact Hslash. simpl. rewrite Hkeep. simpl.
    apply List.last_last.
  - rewrite Path_name_plain by exact Hslash. rewrite Hkeep. reflexivity.
Qed.

End ExtensionEdges.

(** X14. A file name has no extension when there is no dot in it, when its
    only dot is its first character ([.mp4]) or when it ends in a dot
    ([clip.]); and a file without an extension is refused by the validators
    of both [Video.video_file] and [Music.audio_file]. *)
Theorem files_without_extension_rejected :
  (forall path, ~ In "."%char (list_ascii_of_string path) ->
     validators.extension path = EmptyString)
  /\ (forall ext, ~ In "."%char (list_ascii_of_string ext) ->
         ~ In "/"%char (list_ascii_of_string ext) ->
         validators.extension ("." +:+ ext) = EmptyString)
  /\ (forall stem, ~ In "/"%char (list_ascii_of_string stem) ->
         validators.extension (stem +:+ ".") = EmptyString)
  /\ (forall path, validators.extension path = EmptyString ->
         validators.FileExtensionValidator ["mp4"; "mov"; "avi"]%string path
         = raise ValidationError
         /\ validators.FileExtensionValidator ["mp3"; "wav"]%string path
            = raise ValidationError).
Proof.
  split; [|split; [|split]].
  - intros path Hno. unfold validators.extension.
    rewrite suffix_without_dot by exact Hno. reflexivity.
  - intros ext. apply extension_leading_dot.
  - exact extension_trailing_dot.
  - intros path Hext.
    split; apply FileExtensionValidator_rejects; rewrite Hext; simpl;
      intuition discriminate.
Qed.

Lemma files_without_extension_rejected_witness :
  validators.extension "interesting/videos/README" = ""%string
  /\ validators.extension ("." +:+ "mp4") = ""%string
  /\ validators.extension ("clip" +:+ ".") = ""%string
  /\ validators.FileExtensionValidator ["mp4"; "mov"; "avi"]%string ".mp4"
     = raise ValidationError.
Proof.
  pose proof files_without_extension_rejected as (Hnodot & Hlead & Htrail & Hrej).
  split; [apply Hnodot; simpl; intuition discriminate|].
  split; [apply Hlead; simpl; intuition discriminate|].
  split; [apply Htrail; simpl; intuition discriminate|].
  apply (Hrej ".mp4"%string). apply (Hlead "mp4"%string); simpl; intuition discriminate.
Defined.

(** X15. The directory a file is stored under plays no part in the check:
    the extension of [dir/name] is that of [name], so both validators give
    [dir/name] the outcome they give [name]. *)
Theorem directory_does_not_matter (dir name : string) :
  ~ In "/"%char (list_ascii_of_string name) -> name <> EmptyString -> name <> "."%string ->
  validators.extension (dir +:+ "/" +:+ name) = validators.extension name
  /\ (forall allowed,
         validators.FileExtensionValidator allowed (dir +:+ "/" +:+ name)
         = validators.FileExtensionValidator allowed name).
Proof.
  intros Hslash Hne Hdot.
  destruct (Path_name_in_directory dir name Hslash Hne Hdot) as [Hdir Hname].
  assert (Hext : validators.extension (dir +:+ "/" +:+ name) = validators.extension name).
  { change (dir +:+ "/" +:+ name) with (dir +:+ String "/" name).
    unfold validators.extension, validators.Path_suffix. rewrite Hdir, Hname. reflexivity. }
  split; [exact Hext|].
  intros allowed. unfold validators.FileExtensionValidator. rewrite Hext. reflexivity.
Qed.

Lemma directory_does_not_matter_witness :
  validators.extension ("interesting/videos.old" +:+ "/" +:+ "clip.MOV")
  = validators.extension "clip.MOV"
  /\ validators.FileExtensionValidator ["mp3"; "wav"]%string
       ("interesting/music" +:+ "/" +:+ "take.flac")
     = validators.FileExtensionValidator ["mp3"; "wav"]%string "take.flac".
Proof.
  split.
  - apply (directory_does_not_matter "interesting/videos.old" "clip.MOV");
      [simpl; intuition discriminate | discriminate | discriminate].
  - apply (directory_does_not_matter "interesting/music" "take.flac");
      [simpl; intuition discriminate | discriminate | discriminate].
Defined.

(** ** Reading a formatted date back *)

Section FormattedDate.

Lemma uint_digits_no_space (d : Decimal.uint) :
  ~ In " "%char (list_ascii_of_string (NilEmpty.string_of_uint d)).
Proof. induction d; simpl; [tauto|..]; (intros [H|H]; [discriminate H | tauto]). Qed.

Lemma N_to_uint_nonnil (n : N) : N.to_uint n <> Decimal.Nil.
Proof.
  destruct n as [|p]; simpl; [discriminate|]. apply DecimalPos.Unsigned.to_uint_nonnil.
Qed.

Lemma str_of_int_no_space (n : N) : ~ In " "%char (list_ascii_of_string (str_of_int n)).
Proof.
  unfold str_of_int, NilZero.string_of_uint.
  pose proof (N_to_uint_nonnil n) as Hn.
  destruct (N.to_uint n) eqn:E; [contradiction| ..]; apply uint_digits_no_space.
Qed.

Lemma str_of_int_inj (n n' : N) : str_of_int n = str_of_int n' -> n = n'.
Proof.
  unfold str_of_int. intros Heq.
  apply (f_equal NilZero.uint_of_string) in Heq.
  rewrite !NilZero.usu in Heq by apply N_to_uint_nonnil.
  injection Heq as Heq. apply DecimalN.Unsigned.to_uint_inj. exact Heq.
Qed.

(** Two texts that agree are cut at their first space in the same way. *)
Lemma cut_at_space (a a' r r' : string) :
  ~ In " "%char (list_ascii_of_string a) -> ~ In " "%char (list_ascii_of_string a') ->
  a +:+ String " " r = a' +:+ String " " r' -> a = a' /\ r = r'.
Proof.
  revert a'. induction a as [|x a IH]; intros [|x' a'] Ha Ha' Heq; simpl in *.
  - injection Heq as ->. auto.
  - injection Heq as <- _. tauto.
  - injection Heq as -> _. tauto.
  - injection Heq as <- Heq. destruct (IH a') as [-> ->]; auto.
Qed.

Lemma month_names_differ (m m' : N) (name : string) :
  MediaPublication.months !! m = Some name -> MediaPublication.months !! m' = Some name ->
  ~ In " "%char (list_ascii_of_string name) /\ m = m'.
Proof.
  intros Hm Hm'.
  assert (Hkeys : forall k v, MediaPublication.months !! k = Some v ->
            In (k, v) (map_to_list MediaPublication.months)).
  { intros k v Hk. apply list_elem_of_In, elem_of_map_to_list. exact Hk. }
  pose proof (Hkeys m name Hm) as H1. pose proof (Hkeys m' name Hm') as H2.
  vm_compute in H1, H2.
  repeat (destruct H1 as [H1|H1]; [injection H1 as <- <-|]); [..|contradiction];
    (split; [simpl; intuition discriminate|]);
    repeat (destruct H2 as [H2|H2];
            [first [reflexivity | discriminate H2 | injection H2 as <-; reflexivity
                   | injection H2 as _ H2; discriminate H2 ]|]);
    contradiction.
Qed.

End FormattedDate.

(** X16. [formatted_date] tells valid dates apart: two publications whose
    dates are valid and whose formatted dates are the same text were
    published on the same day. *)
Theorem formatted_date_injective (p q : MediaPublication.t) :
  date_ok (MediaPublication.publication_date p) ->
  date_ok (MediaPublication.publication_date q) ->
  MediaPublication.formatted_date p = MediaPublication.formatted_date q ->
  MediaPublication.publication_date p = MediaPublication.publication_date q.
Proof.
  intros (_ & Hmp & _) (_ & Hmq & _) Heq.
  destruct (months_lookup _ Hmp) as [np Hnp], (months_lookup _ Hmq) as [nq Hnq].
  unfold MediaPublication.formatted_date, dict_item in Heq. rewrite Hnp, Hnq in Heq.
  injection Heq as Heq.
  destruct (MediaPublication.publication_date p) as [y m d],
           (MediaPublication.publication_date q) as [y' m' d']. simpl in *.
  change (str_of_int d +:+ String " " (np +:+ String " " (str_of_int y))
          = str_of_int d' +:+ String " " (nq +:+ String " " (str_of_int y'))) in Heq.
  apply cut_at_space in Heq; try apply str_of_int_no_space.
  destruct Heq as [Hd Hrest].
  destruct (month_names_differ m m np Hnp Hnp) as [Hsp _].
  destruct (month_names_differ m' m' nq Hnq Hnq) as [Hsq _].
  apply cut_at_space in Hrest; try assumption.
  destruct Hrest as [-> Hy].
  destruct (month_names_differ m m' nq Hnp Hnq) as [_ ->].
  apply str_of_int_inj in Hd, Hy. subst. reflexivity.
Qed.

Lemma formatted_date_injective_witness :
  date_ok (Date 2024 11 21) /\ date_ok (Date 2024 1 12)
  /\ MediaPublication.formatted_date (publication (Date 2024 11 21))
     <> MediaPublication.formatted_date (publication (Date 2024 1 12)).
Proof.
  assert (H1 : date_ok (Date 2024 11 21)) by (vm_compute; repeat split; discriminate).
  assert (H2 : date_ok (Date 2024 1 12)) by (vm_compute; repeat split; discriminate).
  split; [exact H1|]. split; [exact H2|].
  intros Heq.
  pose proof (formatted_date_injective (publication (Date 2024 11 21))
                (publication (Date 2024 1 12)) H1 H2 Heq) as Hdate.
  discriminate Hdate.
Defined.
